(** * NabBot, [cogs/tibia.py]: the commands and the news poller

    A shallow embedding of the pieces of [cogs/tibia.py] that carry logic
    of their own, followed by the properties proved about them: first the
    [share], [stamina] and [stats] commands and the [scan_news] background
    task, then [blessings], [worlds], [searchworld], [house],
    [highscores], [deaths] without a name, [guild], the statistics of
    [guild info] and [world], and the server save of [time].

    Integers are [Z] (Python integers are unbounded), text is [string],
    awaited collaborators ([get_recent_news], [get_news_article],
    [get_character], [get_world], [get_world_list], [get_guild],
    [get_highscores_tibiadata], [channel.send], [asyncio.sleep]) are
    oracles whose answer is either a value or a raised exception, and
    everything the task does to the outside world is recorded in a trace
    of events.

    What the embedding takes for granted: text is ASCII; the seconds of a
    [timedelta] are integers (the floats of [total_seconds()] are exact at
    the sizes met here); writing the marker file succeeds;
    [dt.date.today()] does not change during one pass of the loop; the
    rows of a database query are given as the list the cursor yields; and
    the helpers that live in [utils] ([get_share_range], [get_stats],
    [is_numeric], [get_voc_emoji], [get_voc_abb], [get_time_diff],
    [tibia_worlds] and the fetchers above) are parameters of the commands
    that call them. *)

From Stdlib Require Import ZArith List String Ascii Bool Lia Sorted Permutation.
From Stdlib Require Import DecimalString DecimalZ DecimalPos DecimalFacts.
From Stdlib Require Import Floats Uint63.
Import ListNotations.

Local Open Scope Z_scope.

(* ================================================================= *)
(** ** Python built-ins used by the module *)

Module Py.

(** [str(n)] for an integer: decimal digits, a leading minus sign for a
    negative number. *)
Definition str (z : Z) : string := NilZero.string_of_int (Z.to_int z).

(** ASCII white space as [str.strip] sees it ([str.isspace]): the bytes
    9 to 13, the separators 28 to 31 and the blank. *)
Definition isspace (c : ascii) : bool :=
  let n := nat_of_ascii c in
  (((9 <=? n) && (n <=? 13)) || ((28 <=? n) && (n <=? 32)))%nat.

(** The white space that [int] skips around a numeral: the bytes 9 to 13
    and the blank, and not the separators 28 to 31. *)
Definition int_space (c : ascii) : bool :=
  let n := nat_of_ascii c in
  (((9 <=? n) && (n <=? 13)) || (n =? 32))%nat.

Definition isdigit (c : ascii) : bool :=
  let n := nat_of_ascii c in ((48 <=? n) && (n <=? 57))%nat.

(** A text without the characters of one kind at its start, and at its
    end. *)
Fixpoint lstrip_of (space : ascii -> bool) (s : string) : string :=
  match s with
  | EmptyString => EmptyString
  | String c r => if space c then lstrip_of space r else s
  end.

Fixpoint rstrip_of (space : ascii -> bool) (s : string) : string :=
  match s with
  | EmptyString => EmptyString
  | String c r =>
      match rstrip_of space r with
      | EmptyString => if space c then EmptyString else String c EmptyString
      | r' => String c r'
      end
  end.

(** [s.lstrip()], [s.rstrip()] and [s.strip()] *)
Definition lstrip (s : string) : string := lstrip_of isspace s.

Definition rstrip (s : string) : string := rstrip_of isspace s.

Definition strip (s : string) : string := rstrip (lstrip s).

(** Every character of [s] passes the test [p]. *)
Fixpoint all_chars (p : ascii -> bool) (s : string) : bool :=
  match s with
  | EmptyString => true
  | String c r => p c && all_chars p r
  end.

(** The digit part of an integer literal: at least one digit, and single
    underscores only between two digits. *)
Fixpoint digits_ok (after_digit : bool) (s : string) : bool :=
  match s with
  | EmptyString => after_digit
  | String c r =>
      if isdigit c then digits_ok true r
      else if Ascii.eqb c "_" && after_digit then digits_ok false r
      else false
  end.

Fixpoint drop_underscores (s : string) : string :=
  match s with
  | EmptyString => EmptyString
  | String c r =>
      if Ascii.eqb c "_" then drop_underscores r
      else String c (drop_underscores r)
  end.

Definition digits (s : string) : option Z :=
  if digits_ok false s
  then option_map Z.of_uint (NilEmpty.uint_of_string (drop_underscores s))
  else None.

(** [int(s)] in base ten; [None] stands for [ValueError]. *)
Definition int (s : string) : option Z :=
  match rstrip_of int_space (lstrip_of int_space s) with
  | EmptyString => None
  | String c r =>
      if Ascii.eqb c "-" then option_map Z.opp (digits r)
      else if Ascii.eqb c "+" then digits r
      else digits (String c r)
  end.

(** [c.lower()] on ASCII letters. *)
Definition lower_char (c : ascii) : ascii :=
  let n := nat_of_ascii c in
  if ((65 <=? n) && (n <=? 90))%nat then ascii_of_nat (n + 32) else c.

Fixpoint lower (s : string) : string :=
  match s with
  | EmptyString => EmptyString
  | String c r => String (lower_char c) (lower r)
  end.

(** [s.split(",")]: never empty, one more field than there are commas. *)
Fixpoint split_comma (s : string) : list string :=
  match s with
  | EmptyString => [EmptyString]
  | String c r =>
      if Ascii.eqb c ","
      then EmptyString :: split_comma r
      else match split_comma r with
           | field :: fields => String c field :: fields
           | [] => [String c EmptyString]
           end
  end.

(** [re.search(r"\d", s) is not None]. *)
Fixpoint has_digit (s : string) : bool :=
  match s with
  | EmptyString => false
  | String c r => isdigit c || has_digit r
  end.

End Py.

(** Exceptions that the modelled code raises, catches or lets through.
    [HTTPException] stands for [discord.HTTPException] and its subclasses
    other than [discord.Forbidden], [OtherError] for any further subclass
    of [Exception]. *)
Inductive exn : Type :=
| NetworkError
| CancelledError
| Forbidden
| HTTPException
| ValueError
| FileNotFoundError
| IndexError
| OtherError.

(** The outcome of a call that may raise. *)
Inductive result (A : Type) : Type :=
| Ok (a : A)
| Raise (e : exn).
Arguments Ok {A} a.
Arguments Raise {A} e.

(* ================================================================= *)
(** ** The [stamina] command *)

Module Stamina.

Inductive reply : Type :=
| BadFormat      (* "You need to tell me your current stamina, in this format: `34:03`." *)
| BadMinutes     (* "Invalid time, minutes can't be 60 or greater." *)
| TooMuch        (* "You can't have more than 42 hours of stamina." *)
| FullAlready    (* "Your stamina is full already." *)
| Rest (remaining : string) (resting_time : Z).
                 (* "You need to rest **{remaining}** to get back to full stamina.",
                    the footer time stamp being now + resting_time seconds *)

(** [dt.timedelta(hours=h, minutes=m).total_seconds()] *)
Definition total_seconds (hours minutes : Z) : Z := hours * 3600 + minutes * 60.

(** One or two leading digits, as the greedy group [(\d{1,2})] takes
    them, with the rest of the text.  Giving a digit back never helps the
    pattern: the character after a single digit would be the digit given
    back, not the colon. *)
Definition take_digits (s : string) : option (string * string) :=
  match s with
  | String a (String b r) =>
      if Py.isdigit a
      then if Py.isdigit b
           then Some (String a (String b EmptyString), r)
           else Some (String a EmptyString, String b r)
      else None
  | String a EmptyString =>
      if Py.isdigit a then Some (String a EmptyString, EmptyString) else None
  | EmptyString => None
  end.

(** [re.compile(r"(\d{1,2}):(\d{1,2})").match(s)], giving the two groups
    converted by [int]. *)
Definition hour_pattern_match (s : string) : option (Z * Z) :=
  match take_digits s with
  | Some (g1, String c r) =>
      if Ascii.eqb c ":"
      then match take_digits r with
           | Some (g2, _) =>
               match Py.int g1, Py.int g2 with
               | Some h, Some m => Some (h, m)
               | _, _ => None
               end
           | None => None
           end
      else None
  | _ => None
  end.

(** The resting time in seconds, lines 1158-1163. *)
Definition resting_time (hours minutes : Z) : Z :=
  let current := total_seconds hours minutes in
  let resting_time := Z.max (total_seconds 40 0 - current) 0 * 3 in
  let resting_time :=
    resting_time + (total_seconds 42 0 - Z.max (total_seconds 40 0) current) * 10 in
  resting_time + total_seconds 0 10.

Definition remaining (resting_time : Z) : string :=
  let hours := resting_time / 3600 in
  let remainder := resting_time mod 3600 in
  let minutes := remainder / 60 in
  if hours =? 0
  then (Py.str minutes ++ " minutes")%string
  else (Py.str hours ++ " hours and " ++ Py.str minutes ++ " minutes")%string.

(** The command once the pattern has matched. *)
Definition stamina_parsed (hours minutes : Z) : reply :=
  if minutes >=? 60 then BadMinutes
  else if (hours >? 42) || ((hours =? 42) && (minutes >? 0)) then TooMuch
  else if hours =? 42 then FullAlready
  else Rest (remaining (resting_time hours minutes)) (resting_time hours minutes).

Definition stamina (current_stamina : string) : reply :=
  match hour_pattern_match (Py.strip current_stamina) with
  | None => BadFormat
  | Some (hours, minutes) => stamina_parsed hours minutes
  end.

(** What the reply shows: whole hours and minutes of the resting time. *)
Definition shown_hours (resting_time : Z) : Z := resting_time / 3600.
Definition shown_minutes (resting_time : Z) : Z := (resting_time mod 3600) / 60.

End Stamina.

(* ================================================================= *)
(** ** Characters, as [get_character] returns them *)

Record Character : Type := {
  name : string;
  level : Z;
  vocation : string
}.

(* ================================================================= *)
(** ** The [share] command *)

Module Share.

(** The collaborators of the command, both imported from [utils.tibia]. *)
Record Env : Type := {
  get_share_range : Z -> Z * Z;
  get_character : string -> result (option Character)
}.

Inductive reply : Type :=
| InvalidLevel          (* one of the five [invalid_level] messages *)
| LevelRange (level low high : Z)
                        (* "A level {level} can share experience with levels **{low}** to **{high}**." *)
| TooMany               (* "I can only check up to 5 characters at a time." *)
| NoSuchCharacter       (* "There is no character with that name." *)
| ConnectionIssues      (* "I'm having connection issues right now, please try again." *)
| CharacterRange (name : string) (level low high : Z)
                        (* "**{name}** ({level}) can share experience with levels ..." *)
| Yourself              (* "I'm not sure if sharing with yourself counts as sharing, ..." *)
| NoCharacterNamed (char : string)
                        (* "There is no character named **{char}**." *)
| ConnectionIssuesLater (* "I'm having connection issues, please try again in a bit." *)
| Needs (lowest_name : string) (lowest_level : Z) (more : Z) (plural : bool)
        (highest_name : string) (highest_level : Z)
                        (* "**{lowest_name}** ({lowest_level}) needs {more} more level{s} to
                           share experience with **{highest_name}** ({highest_level})." *)
| Joint (all : bool) (lowest_name : string) (lowest_level : Z)
        (highest_name : string) (highest_level : Z) (low high : Z).
                        (* "They can all share experience with each other." or
                           "**{lowest_name}** ... and **{highest_name}** ... can share experience.",
                           then "Their share range is from level **{low}** to **{high}**." *)

(** [sorted(char_data, key=lambda k: k.level)]: the sort is stable, so a
    character goes in front of the characters of the same level that came
    after it. *)
Fixpoint insert_by_level (c : Character) (sorted : list Character) : list Character :=
  match sorted with
  | [] => [c]
  | d :: rest =>
      if level c <=? level d then c :: d :: rest
      else d :: insert_by_level c rest
  end.

Fixpoint sorted_by_level (char_data : list Character) : list Character :=
  match char_data with
  | [] => []
  | c :: rest => insert_by_level c (sorted_by_level rest)
  end.

(** The loop that fetches every character of the list, lines 1100-1109. *)
Fixpoint fetch_all (env : Env) (chars : list string) (char_data : list Character)
  : result (reply + list Character) :=
  match chars with
  | [] => Ok (inr char_data)
  | char :: rest =>
      match get_character env char with
      | Ok None => Ok (inl (NoCharacterNamed char))
      | Ok (Some fetched_char) => fetch_all env rest (char_data ++ [fetched_char])
      | Raise NetworkError => Ok (inl ConnectionIssuesLater)
      | Raise e => Raise e
      end
  end.

(** Lines 1110-1130, on the fetched characters. [nchars] is [len(chars)]. *)
Definition joint (env : Env) (nchars : nat) (char_data : list Character) : result reply :=
  let char_data := sorted_by_level char_data in
  match char_data with
  | [] => Raise IndexError
  | lowest :: _ =>
      let highest := last char_data lowest in
      let low := fst (get_share_range env (level highest)) in
      let high := snd (get_share_range env (level lowest)) in
      if low >? level lowest
      then Ok (Needs (name lowest) (level lowest) (low - level lowest)
                     (low - level lowest >? 1) (name highest) (level highest))
      else Ok (Joint (2 <? nchars)%nat (name lowest) (level lowest)
                     (name highest) (level highest) low high)
  end.

(** The [except ValueError] branch: [chars = param.split(",")]. *)
Definition share_chars (env : Env) (chars : list string) : result reply :=
  if (5 <? List.length chars)%nat then Ok TooMany
  else
    match chars with
    | [] => Raise IndexError
    | [char] =>
        match get_character env char with
        | Ok None => Ok NoSuchCharacter
        | Ok (Some c) =>
            let (low, high) := get_share_range env (level c) in
            Ok (CharacterRange (name c) (level c) low high)
        | Raise NetworkError => Ok ConnectionIssues
        | Raise e => Raise e
        end
    | first :: _ =>
        if forallb (fun x => String.eqb (Py.lower x) (Py.lower first)) chars
        then Ok Yourself
        else
          match fetch_all env chars [] with
          | Ok (inl r) => Ok r
          | Ok (inr char_data) => joint env (List.length chars) char_data
          | Raise e => Raise e
          end
    end.

Definition share (env : Env) (param : string) : result reply :=
  match Py.int param with
  | Some level =>
      if level <? 1 then Ok InvalidLevel
      else let (low, high) := get_share_range env level in
           Ok (LevelRange level low high)
  | None => share_chars env (Py.split_comma param)
  end.

(** The individual band of a level, as a predicate on levels. *)
Definition in_band (env : Env) (l x : Z) : Prop :=
  fst (get_share_range env l) <= x <= snd (get_share_range env l).

(** The order of the sort. *)
Definition by_level (c d : Character) : Prop := level c <= level d.

(** A higher level never has a lower band. *)
Definition monotone (env : Env) : Prop :=
  forall a b, a <= b ->
    fst (get_share_range env a) <= fst (get_share_range env b) /\
    snd (get_share_range env a) <= snd (get_share_range env b).

End Share.

(* ================================================================= *)
(** ** The [stats] command *)

Module Stats.

(** The dictionary that [get_stats] returns. *)
Record StatSheet : Type := {
  sheet_vocation : string;
  hp : Z;
  mp : Z;
  cap : Z;
  exp : Z;
  exp_tnl : Z
}.

Record Env : Type := {
  get_character : string -> result (option Character);
  get_stats : Z -> string -> result StatSheet
}.

Inductive reply : Type :=
| InvalidArguments   (* the [invalid_arguments] text *)
| TryAgain           (* "Sorry, can you try it again?" *)
| DoesNotExist (param : string)
                     (* "Character **{0}** doesn't exist!" *)
| TooLow             (* "Not even *you* can go down so low!" *)
| TooHigh            (* "Why do you care? You will __**never**__ reach this level" *)
| StatsError         (* the text of the [ValueError] of [get_stats] *)
| Sheet (char : option Character) (level : Z) (stats : StatSheet).

(** A call of [get_stats], with its arguments. *)
Definition call : Type := (Z * string)%type.

(** Lines 1230-1261: the bounds on the level, then the formulas. The
    first component lists the calls of [get_stats] that were made. *)
Definition stats_level (env : Env) (char : option Character) (level : Z) (vocation : string)
  : list call * result reply :=
  if level <=? 0 then ([], Ok TooLow)
  else if level >=? 2000 then ([], Ok TooHigh)
  else
    match get_stats env level vocation with
    | Ok stats => ([(level, vocation)], Ok (Sheet char level stats))
    | Raise ValueError => ([(level, vocation)], Ok StatsError)
    | Raise e => ([(level, vocation)], Raise e)
    end.

(** Lines 1198-1229: the level and the vocation are taken from the
    parameters, or from the character they name. *)
Definition stats_arguments (env : Env) (params : string)
  : result (reply + option Character * Z * string) :=
  match Py.split_comma params with
  | [param] =>
      if Py.has_digit param then Ok (inl InvalidArguments)
      else
        match get_character env param with
        | Ok None => Ok (inl TryAgain)
        | Ok (Some char) => Ok (inr (Some char, level char, vocation char))
        | Raise NetworkError => Ok (inl (DoesNotExist param))
        | Raise e => Raise e
        end
  | [param0; param1] =>
      match Py.int param0 with
      | Some level => Ok (inr (None, level, param1))
      | None =>
          match Py.int param1 with
          | Some level => Ok (inr (None, level, param0))
          | None => Ok (inl InvalidArguments)
          end
      end
  | _ => Ok (inl InvalidArguments)
  end.

Definition stats (env : Env) (params : string) : list call * result reply :=
  match stats_arguments env params with
  | Ok (inl r) => ([], Ok r)
  | Ok (inr (char, level, vocation)) => stats_level env char level vocation
  | Raise e => ([], Raise e)
  end.

End Stats.

(* ================================================================= *)
(** ** The [scan_news] task *)

Module News.

(** An entry of the list that [get_recent_news] returns. [date] is the
    day number of the entry's [datetime.date]. *)
Record NewsItem : Type := {
  id : Z;
  date : Z
}.

(** The dictionary that [get_news_article] returns. *)
Record Article : Type := {
  article_id : Z;
  title : string
}.

(** A guild is known by its [guild.id]. *)
Definition Guild : Type := Z.

(** What surrounds one iteration of the loop. *)
Record Env : Type := {
  is_closed : bool;                                   (* self.bot.is_closed() *)
  get_recent_news : result (option (list NewsItem));
  today : Z;                                          (* dt.date.today(), as a day number *)
  get_news_article : Z -> result (option Article);
  guilds : list Guild;                                (* self.bot.guilds *)
  news_channel : Guild -> Z;                          (* get_server_property(guild.id, "news_channel", ...) *)
  send : Guild -> Article -> option exn;              (* channel.send(...): None when it succeeds *)
  sleep_cancelled : Z -> bool                         (* the task is cancelled while in asyncio.sleep(secs) *)
}.

(** What the task does to the outside world. *)
Inductive event : Type :=
| ELogNoMarker                          (* log.info("scan_news: No last article id saved") *)
| EWriteMarker (content : string)       (* data/last_article.txt is rewritten *)
| EFetchArticle (id : Z)                (* get_news_article(id) is awaited *)
| EAnnounce (a : Article)               (* log.info("Announcing new article: ...") *)
| ESend (g : Guild) (a : Article)       (* channel.send(...) is awaited *)
| EWarnPermissions                      (* log.warning("scan_news: Missing permissions.") *)
| EWarnMalformed                        (* log.warning("scan_news: Malformed message.") *)
| ELogException                         (* log.exception("Task: scan_news") *)
| ESleep (secs : Z).                    (* asyncio.sleep(secs) is awaited *)

(** The marker file [data/last_article.txt]: absent, or its text. *)
Definition Store : Type := option string.

(** Computations of the task: they read and write the marker file,
    leave a trace, and end with a value or a raised exception. *)
Definition M (A : Type) : Type := Store -> list event * Store * result A.

Definition ret {A} (a : A) : M A := fun st => ([], st, Ok a).

Definition bind {A B} (m : M A) (f : A -> M B) : M B :=
  fun st =>
    match m st with
    | (t1, st1, Ok a) =>
        match f a st1 with
        | (t2, st2, r) => (t1 ++ t2, st2, r)
        end
    | (t1, st1, Raise e) => (t1, st1, Raise e)
    end.

Definition emit (ev : event) : M unit := fun st => ([ev], st, Ok tt).

Definition raise {A} (e : exn) : M A := fun st => ([], st, Raise e).

Definition lift {A} (r : result A) : M A := fun st => ([], st, r).

Declare Scope news_scope.
Delimit Scope news_scope with news.
Notation "x <- m ;; k" := (bind m (fun x => k))
  (at level 100, m at next level, right associativity) : news_scope.
Notation "m ;;; k" := (bind m (fun _ => k))
  (at level 100, right associativity) : news_scope.
Local Open Scope news_scope.

(** [await asyncio.sleep(secs)] *)
Definition sleep (env : Env) (secs : Z) : M unit :=
  emit (ESleep secs) ;;;
  if sleep_cancelled env secs then raise CancelledError else ret tt.

(** Lines 1921-1926: the marker is read, and is 0 when the file is
    missing or its text is not an integer. *)
Definition read_last_id : M Z :=
  fun st =>
    match st with
    | None => ([ELogNoMarker], st, Ok 0)
    | Some text =>
        match Py.int text with
        | Some last_id => ([], st, Ok last_id)
        | None => ([ELogNoMarker], st, Ok 0)
        end
    end.

(** [with open("data/last_article.txt", 'w+') as f: f.write(str(last_article))] *)
Definition write_marker (last_article : Z) : M unit :=
  fun _ => ([EWriteMarker (Py.str last_article)], Some (Py.str last_article), Ok tt).

(** [await get_news_article(id)] *)
Definition fetch_article (env : Env) (i : Z) : M (option Article) :=
  emit (EFetchArticle i) ;;; lift (get_news_article env i).

(** Lines 1933-1941: the walk over the feed. [new_articles.insert(0, a)]
    puts the article in front. *)
Fixpoint collect (env : Env) (last_id : Z) (recent_news : list NewsItem)
         (new_articles : list Article) : M (list Article) :=
  match recent_news with
  | [] => ret new_articles
  | article :: rest =>
      if id article =? last_id then ret new_articles
      else if today env - date article >? 7 then ret new_articles
      else
        fetched_article <- fetch_article env (id article) ;;
        match fetched_article with
        | Some a => collect env last_id rest (a :: new_articles)
        | None => collect env last_id rest new_articles
        end
  end.

(** Lines 1954-1960: one delivery, with its two handlers. *)
Definition deliver (env : Env) (g : Guild) (a : Article) : M unit :=
  emit (ESend g a) ;;;
  match send env g a with
  | None => ret tt
  | Some Forbidden => emit EWarnPermissions
  | Some HTTPException => emit EWarnMalformed
  | Some e => raise e
  end.

(** Lines 1949-1960: the guilds of one article. *)
Fixpoint announce_to (env : Env) (a : Article) (gs : list Guild) : M unit :=
  match gs with
  | [] => ret tt
  | g :: rest =>
      if news_channel env g =? 0 then announce_to env a rest
      else deliver env g a ;;; announce_to env a rest
  end.

(** Lines 1947-1960: the articles of the batch. *)
Fixpoint announce_all (env : Env) (new_articles : list Article) : M unit :=
  match new_articles with
  | [] => ret tt
  | a :: rest =>
      emit (EAnnounce a) ;;;
      announce_to env a (guilds env) ;;;
      announce_all env rest
  end.

(** Lines 1916-1961: the body of the [try]. A [continue] ends it. *)
Definition scan_news_try (env : Env) : M unit :=
  recent_news <- lift (get_recent_news env) ;;
  match recent_news with
  | None => sleep env 30
  | Some [] => raise IndexError                 (* recent_news[0] *)
  | Some ((first :: _) as recent_news) =>
      let last_article := id first in
      last_id <- read_last_id ;;
      if last_id =? 0 then
        write_marker last_article ;;;
        sleep env (60 * 60 * 2)
      else
        new_articles <- collect env last_id recent_news [] ;;
        write_marker last_article ;;;
        match new_articles with
        | [] => sleep env (60 * 60 * 2)
        | _ => announce_all env new_articles ;;; sleep env (60 * 60 * 2)
        end
  end.

(** How one pass through the [while] body ends. *)
Inductive outcome : Type :=
| Next                 (* the loop condition is tested again *)
| Break                (* [break]: the coroutine returns *)
| Escaped (e : exn).   (* an exception leaves the coroutine *)

(** Lines 1915-1969: the [try] with its three handlers. *)
Definition scan_news_iteration (env : Env) (st : Store) : list event * Store * outcome :=
  match scan_news_try env st with
  | (t, st1, Ok _) => (t, st1, Next)
  | (t, st1, Raise NetworkError) =>
      match sleep env 30 st1 with
      | (t2, st2, Ok _) => (t ++ t2, st2, Next)
      | (t2, st2, Raise e) => (t ++ t2, st2, Escaped e)
      end
  | (t, st1, Raise CancelledError) => (t, st1, Break)
  | (t, st1, Raise _) => (t ++ [ELogException], st1, Next)
  end.

(** How far the task has got on the passes it was given. *)
Inductive status : Type :=
| Running              (* still in the loop *)
| Returned             (* the loop was left: closed bot or [break] *)
| Failed (e : exn).    (* an exception left the coroutine *)

(** Lines 1914-1969: the [while] loop, run on the surroundings of its
    successive passes. *)
Fixpoint scan_news (envs : list Env) (st : Store) : list event * Store * status :=
  match envs with
  | [] => ([], st, Running)
  | env :: later =>
      if is_closed env then ([], st, Returned)
      else
        match scan_news_iteration env st with
        | (t, st1, Next) =>
            match scan_news later st1 with
            | (t2, st2, s) => (t ++ t2, st2, s)
            end
        | (t, st1, Break) => (t, st1, Returned)
        | (t, st1, Escaped e) => (t, st1, Failed e)
        end
  end.

(** The articles announced, the ids requested, the deliveries attempted,
    the markers written and the warnings logged along a trace, each in the
    order of the trace. *)
Definition announced (t : list event) : list Article :=
  flat_map (fun ev => match ev with EAnnounce a => [a] | _ => [] end) t.

Definition requested (t : list event) : list Z :=
  flat_map (fun ev => match ev with EFetchArticle i => [i] | _ => [] end) t.

Definition deliveries (t : list event) : list (Guild * Article) :=
  flat_map (fun ev => match ev with ESend g a => [(g, a)] | _ => [] end) t.

Definition written (t : list event) : list string :=
  flat_map (fun ev => match ev with EWriteMarker s => [s] | _ => [] end) t.

Definition warnings (t : list event) : list event :=
  flat_map (fun ev => match ev with
                      | EWarnPermissions | EWarnMalformed => [ev]
                      | _ => []
                      end) t.

(** The marker as lines 1921-1926 read it from the file. *)
Definition stored_marker (st : Store) : Z :=
  match st with
  | None => 0
  | Some text => match Py.int text with Some last_id => last_id | None => 0 end
  end.

(** An item passes the two tests of the walk. *)
Definition fresh (env : Env) (last_id : Z) (article : NewsItem) : bool :=
  negb (id article =? last_id) && negb (today env - date article >? 7).

(** The items in front of the first one that fails a test. *)
Fixpoint walked (env : Env) (last_id : Z) (recent_news : list NewsItem) : list NewsItem :=
  match recent_news with
  | [] => []
  | article :: rest =>
      if fresh env last_id article then article :: walked env last_id rest else []
  end.

(** What [get_news_article] gave for an item: the article, if any. *)
Definition obtained (env : Env) (article : NewsItem) : list Article :=
  match get_news_article env (id article) with
  | Ok (Some a) => [a]
  | _ => []
  end.

(** The guilds that have a news channel. *)
Definition opted_in (env : Env) : list Guild :=
  filter (fun g => negb (news_channel env g =? 0)) (guilds env).

(** The deliveries that the batch calls for: each article, in the order
    of the batch, to each guild that has a news channel. *)
Definition due (env : Env) (new_articles : list Article) : list (Guild * Article) :=
  flat_map (fun a => map (fun g => (g, a)) (opted_in env)) new_articles.

(** The warning that a delivery ends with, if it fails. *)
Definition warning_of (env : Env) (d : Guild * Article) : list event :=
  match send env (fst d) (snd d) with
  | Some Forbidden => [EWarnPermissions]
  | Some HTTPException => [EWarnMalformed]
  | _ => []
  end.

(** The trace of a part of the emission: what it holds of each kind. *)
Record emission (env : Env) (t : list event) (batch : list Article)
       (ds : list (Guild * Article)) : Prop := {
  emission_announced : announced t = batch;
  emission_deliveries : deliveries t = ds;
  emission_warnings : warnings t = flat_map (warning_of env) ds;
  emission_requested : requested t = [];
  emission_written : written t = []
}.

(** Deliveries fail, if they do, with [discord.Forbidden] or
    [discord.HTTPException]. *)
Definition deliveries_fail_softly (env : Env) : Prop :=
  forall g a, send env g a = None \/ send env g a = Some Forbidden
              \/ send env g a = Some HTTPException.

(** No request for an article raises. *)
Definition articles_answer (env : Env) : Prop :=
  forall i, exists answer, get_news_article env i = Ok answer.

(** The article returned for an id carries that id. *)
Definition faithful (env : Env) : Prop :=
  forall i a, get_news_article env i = Ok (Some a) -> article_id a = i.

(** Nothing cancels the task during the pass. *)
Definition uncancelled (env : Env) : Prop :=
  get_recent_news env <> Raise CancelledError /\
  (forall i, get_news_article env i <> Raise CancelledError) /\
  (forall g a, send env g a <> Some CancelledError) /\
  (forall secs, sleep_cancelled env secs = false).

(** The feed is newest first: the ids go strictly down. *)
Definition newest_first (recent_news : list NewsItem) : Prop :=
  StronglySorted (fun a b => id a > id b) recent_news.

(** The dates of the feed go down as well, or stay. *)
Definition latest_first (recent_news : list NewsItem) : Prop :=
  StronglySorted (fun a b => date a >= date b) recent_news.

(** The feed of a pass is newest first and, when it lists an item that is
    not newer than the stored marker, it still lists the item of the
    marker. *)
Definition feed_reaches_marker (env : Env) (st : Store) : Prop :=
  forall recent_news,
    get_recent_news env = Ok (Some recent_news) ->
    newest_first recent_news /\
    (forall article, In article recent_news -> id article <= stored_marker st ->
                     In (stored_marker st) (map id recent_news)).

(** Where the announcements of a pass come from: articles obtained for
    walked items of the feed, the stored marker being usable. *)
Definition announced_from_walk (env : Env) (st : Store) (t : list event) : Prop :=
  forall a, In a (announced t) ->
    exists recent_news article,
      get_recent_news env = Ok (Some recent_news) /\
      stored_marker st <> 0 /\
      In article (walked env (stored_marker st) recent_news) /\
      get_news_article env (id article) = Ok (Some a).

(** What a pass leaves in the store: what was there, or the id of the
    newest item of the feed. *)
Definition store_kept_or_newest (env : Env) (st st1 : Store) : Prop :=
  st1 = st \/
  exists first rest,
    get_recent_news env = Ok (Some (first :: rest)) /\
    st1 = Some (Py.str (id first)).

(** The store after one pass. *)
Definition store_after (env : Env) (st : Store) : Store :=
  snd (fst (scan_news_iteration env st)).

(** The feeds reach the marker in every pass of a run. *)
Fixpoint feeds_reach_marker (envs : list Env) (st : Store) : Prop :=
  match envs with
  | [] => True
  | env :: later =>
      feed_reaches_marker env st /\ feeds_reach_marker later (store_after env st)
  end.

End News.

(* ================================================================= *)
(** ** Concrete surroundings, used to run the definitions *)

Module Scenario.

(** A [get_stats] that answers every call with the same sheet, and a
    [get_character] that finds nobody. *)
Definition flat_sheet : Stats.StatSheet :=
  {| Stats.sheet_vocation := "knight"; Stats.hp := 185; Stats.mp := 90;
     Stats.cap := 470; Stats.exp := 0; Stats.exp_tnl := 100 |}.

Definition stats_env : Stats.Env :=
  {| Stats.get_character := fun _ => Ok None;
     Stats.get_stats := fun _ _ => Ok flat_sheet |}.

(** A band from two thirds to three halves of the level, and three
    characters. *)
Definition alice : Character := {| name := "Alice"; level := 100; vocation := "Druid" |}.
Definition bob : Character := {| name := "Bob"; level := 140; vocation := "Knight" |}.
Definition carl : Character := {| name := "Carl"; level := 50; vocation := "Paladin" |}.

Definition share_env : Share.Env :=
  {| Share.get_share_range := fun l => (2 * l / 3, 3 * l / 2);
     Share.get_character := fun char =>
       if String.eqb char "Alice" then Ok (Some alice)
       else if String.eqb char "Bob" then Ok (Some bob)
       else if String.eqb char "Carl" then Ok (Some carl)
       else Ok None |}.

(** A feed of four items, the third of them nine days old, and the
    surroundings of a pass over it: three guilds, the second without a
    news channel, the first refusing every message. *)
Definition a5 : News.Article := {| News.article_id := 5; News.title := "Update" |}.
Definition a6 : News.Article := {| News.article_id := 6; News.title := "Event" |}.
Definition a7 : News.Article := {| News.article_id := 7; News.title := "Ticker" |}.

Definition day : Z := 736000.

Definition week_feed : list News.NewsItem :=
  [ {| News.id := 6; News.date := day - 1 |};
    {| News.id := 5; News.date := day - 2 |};
    {| News.id := 4; News.date := day - 9 |};
    {| News.id := 3; News.date := day - 12 |} ].

Definition week_env : News.Env :=
  {| News.is_closed := false;
     News.get_recent_news := Ok (Some week_feed);
     News.today := day;
     News.get_news_article := fun i =>
       if i =? 6 then Ok (Some a6) else if i =? 5 then Ok (Some a5) else Ok None;
     News.guilds := [1; 2; 3];
     News.news_channel := fun g => if g =? 2 then 0 else 10 * g;
     News.send := fun g _ => if g =? 1 then Some Forbidden else None;
     News.sleep_cancelled := fun _ => false |}.

(** The same pass when tibia.com cannot be reached. *)
Definition offline_env : News.Env :=
  {| News.is_closed := false;
     News.get_recent_news := Raise NetworkError;
     News.today := day;
     News.get_news_article := News.get_news_article week_env;
     News.guilds := [1; 2; 3];
     News.news_channel := News.news_channel week_env;
     News.send := News.send week_env;
     News.sleep_cancelled := fun _ => false |}.

(** The same pass when the article 6 cannot be read and the request for
    the article 5 fails. *)
Definition flaky_env : News.Env :=
  {| News.is_closed := false;
     News.get_recent_news := Ok (Some week_feed);
     News.today := day;
     News.get_news_article := fun i =>
       if i =? 6 then Ok None else if i =? 5 then Raise NetworkError else Ok None;
     News.guilds := [1; 2; 3];
     News.news_channel := News.news_channel week_env;
     News.send := News.send week_env;
     News.sleep_cancelled := fun _ => false |}.

(** The same pass when the article 6 cannot be read, and the pass after
    it, a day later, when it can. *)
Definition unread_env : News.Env :=
  {| News.is_closed := false;
     News.get_recent_news := Ok (Some week_feed);
     News.today := day;
     News.get_news_article := fun i =>
       if i =? 6 then Ok None else if i =? 5 then Ok (Some a5) else Ok None;
     News.guilds := [1; 2; 3];
     News.news_channel := News.news_channel week_env;
     News.send := News.send week_env;
     News.sleep_cancelled := fun _ => false |}.

Definition next_day_env : News.Env :=
  {| News.is_closed := false;
     News.get_recent_news :=
       Ok (Some ({| News.id := 7; News.date := day + 1 |} :: week_feed));
     News.today := day + 1;
     News.get_news_article := fun i =>
       if i =? 7 then Ok (Some a7) else News.get_news_article week_env i;
     News.guilds := [1; 2; 3];
     News.news_channel := News.news_channel week_env;
     News.send := News.send week_env;
     News.sleep_cancelled := fun _ => false |}.

End Scenario.

(* ================================================================= *)
(** ** More Python built-ins, used by the other commands *)

Module PyMore.

(** [float(n)] for an integer below 2^63, and [int(x)] for a float:
    the fraction is dropped; [None] stands for the [OverflowError] or
    [ValueError] of an infinity or a NaN. Floats are IEEE binary64. *)
Definition float_of_int (z : Z) : float := PrimFloat.of_uint63 (Uint63.of_Z z).

Definition int_of_float (x : float) : option Z :=
  match Prim2SF x with
  | S754_finite s m e =>
      let v := if 0 <=? e then Z.pos m * 2 ^ e else Z.pos m / 2 ^ (- e) in
      Some (if s then - v else v)
  | S754_zero _ => Some 0
  | _ => None
  end.

(** The float that Python reads [1.1] as. *)
Definition one_point_one : float := 0x1.199999999999ap+0%float.

Definition isalpha (c : ascii) : bool :=
  let n := nat_of_ascii c in
  (((65 <=? n) && (n <=? 90)) || ((97 <=? n) && (n <=? 122)))%nat.

(** [c.upper()] on ASCII letters. *)
Definition upper_char (c : ascii) : ascii :=
  let n := nat_of_ascii c in
  if ((97 <=? n) && (n <=? 122))%nat then ascii_of_nat (n - 32) else c.

(** [s.capitalize()]: the first character in upper case, the rest in
    lower case. *)
Definition capitalize (s : string) : string :=
  match s with
  | EmptyString => EmptyString
  | String c r => String (upper_char c) (Py.lower r)
  end.

(** [s.title()]: a letter is in upper case when the character before it
    is not a letter, and in lower case otherwise. *)
Fixpoint title_from (after_letter : bool) (s : string) : string :=
  match s with
  | EmptyString => EmptyString
  | String c r =>
      String (if after_letter then Py.lower_char c else upper_char c)
             (title_from (isalpha c) r)
  end.

Definition title (s : string) : string := title_from false s.

(** [sep.join(fields)] with [sep = ","]. *)
Definition join_comma (fields : list string) : string := String.concat "," fields.

(** [s.replace(c, "")] for a single character [c]. *)
Fixpoint remove_char (c : ascii) (s : string) : string :=
  match s with
  | EmptyString => EmptyString
  | String d r => if Ascii.eqb d c then remove_char c r else String d (remove_char c r)
  end.

(** [sub in s] *)
Fixpoint contains (sub s : string) : bool :=
  String.prefix sub s ||
  match s with
  | EmptyString => false
  | String _ r => contains sub r
  end.

(** [x in xs] for a list of strings. *)
Definition mem (x : string) (xs : list string) : bool :=
  existsb (String.eqb x) xs.

(** [sorted(xs, key=...)] and [sorted(xs, key=..., reverse=True)], with
    [le a b] telling that [a] may stand in front of [b]. The sort is
    stable, also when reversed: an element goes in front of the elements
    that came after it and may stand behind it. *)
Fixpoint insert_sorted {A : Type} (le : A -> A -> bool) (x : A) (sorted : list A) : list A :=
  match sorted with
  | [] => [x]
  | y :: rest => if le x y then x :: y :: rest else y :: insert_sorted le x rest
  end.

Fixpoint sorted_by {A : Type} (le : A -> A -> bool) (xs : list A) : list A :=
  match xs with
  | [] => []
  | x :: rest => insert_sorted le x (sorted_by le rest)
  end.

(** The digits of [format(n, ",")], from the last one to the first, with
    a comma after every third one that has a digit in front of it. *)
Fixpoint commas_rev (digits_rev : list ascii) (seen : nat) : list ascii :=
  match digits_rev with
  | [] => []
  | d :: rest =>
      if (seen =? 3)%nat then ","%char :: d :: commas_rev rest 1
      else d :: commas_rev rest (S seen)
  end.

(** [format(n, ",")], the [{n:,}] of a format string. *)
Definition format_thousands (n : Z) : string :=
  let grouped :=
    string_of_list_ascii
      (rev (commas_rev (rev (list_ascii_of_string (Py.str (Z.abs n)))) 0)) in
  if n <? 0 then String "-" grouped else grouped.

(** [d[key]] for a dictionary written as a list of pairs; [None] stands
    for [KeyError]. *)
Fixpoint lookup (key : string) (d : list (string * string)) : option string :=
  match d with
  | [] => None
  | (k, v) :: rest => if String.eqb k key then Some v else lookup key rest
  end.

End PyMore.

(* ================================================================= *)
(** ** The [blessings] command *)

Module Blessings.

Inductive reply : Type :=
| InvalidLevel   (* "Very funny... Now tell me a valid level." *)
| Prices (bless_price total : Z) (inquisition : option Z)
         (mountain_bless_price mountain_total : Z).
                 (* "At that level you will pay **{bless_price:,}** gold coins per blessing
                    for a total of **{total:,}** gold coins." then, when there is one,
                    "Blessing of the Inquisition costs **{inquisition:,}** gold coins."
                    then "Mountain blessings cost **{mountain_bless_price:,}** each, for a
                    total of **{mountain_total:,}**." *)

(** [int(bless_price*5*1.1)], a product of floats. *)
Definition inquisition_price (bless_price : Z) : option Z :=
  PyMore.int_of_float
    (PrimFloat.mul (PyMore.float_of_int (bless_price * 5)) PyMore.one_point_one).

(** Lines 52-63. An [int] of a float that is not finite would raise. *)
Definition blessings (level : Z) : result reply :=
  if level <? 1 then Ok InvalidLevel
  else
    let bless_price := Z.max 2000 (200 * (Z.min level 120 - 20)) in
    let mountain_bless_price := Z.max 2000 (200 * (Z.min level 150 - 20)) in
    if level >=? 100 then
      match inquisition_price bless_price with
      | Some inquisition =>
          Ok (Prices bless_price (bless_price * 5) (Some inquisition)
                     mountain_bless_price (mountain_bless_price * 2))
      | None => Raise OtherError
      end
    else
      Ok (Prices bless_price (bless_price * 5) None
                 mountain_bless_price (mountain_bless_price * 2)).

End Blessings.

(* ================================================================= *)
(** ** Helpers to state further properties of the commands above *)

Module More.

(** No comma in a text. *)
Definition no_comma (s : string) : bool :=
  Py.all_chars (fun c => negb (Ascii.eqb c ",")) s.

(** A stamina written the way the command asks for it. *)
Definition written_stamina (hours minutes : Z) : string :=
  (Py.str hours ++ ":" ++ Py.str minutes)%string.

(** The pattern of [stamina] reads a written stamina back. *)
Definition reads_back (hours minutes : nat) : bool :=
  match Stamina.hour_pattern_match
          (Py.strip (written_stamina (Z.of_nat hours) (Z.of_nat minutes))) with
  | Some (h, m) => (h =? Z.of_nat hours) && (m =? Z.of_nat minutes)
  | None => false
  end.

Definition all_read_back : bool :=
  forallb (fun hours => forallb (reads_back hours) (seq 0 100)) (seq 0 100).

(** A reply of [share] without the names of the characters. *)
Definition anonymous (r : Share.reply) : Share.reply :=
  match r with
  | Share.Needs _ lowest_level more plural _ highest_level =>
      Share.Needs EmptyString lowest_level more plural EmptyString highest_level
  | Share.Joint all _ lowest_level _ highest_level low high =>
      Share.Joint all EmptyString lowest_level EmptyString highest_level low high
  | _ => r
  end.

Definition anonymous_result (r : result Share.reply) : result Share.reply :=
  match r with
  | Ok reply => Ok (anonymous reply)
  | Raise e => Raise e
  end.

End More.

(* ================================================================= *)
(** ** The [worlds] command *)

Module Worlds.

(** An entry of the list that [get_world_list] returns. *)
Record World : Type := {
  name : string;
  online_count : Z;
  location : string;
  pvp_type : string
}.

Record Env : Type := {
  get_world_list : result (option (list World));
  long : bool                                         (* ctx.long *)
}.

Inductive reply : Type :=
| WentWrong       (* "Something went wrong...'" *)
| NetworkErrors   (* "I'm having network errors, please try again later.'" *)
| NoMatch         (* "There's no worlds matching the query." *)
| Listing (title : string) (per_page : Z) (entries : list string).
                  (* the pages that are shown *)

Definition FLAGS : list (string * string) :=
  [("North America", "🇺🇸"); ("South America", "🇧🇷"); ("Europe", "🇬🇧")]%string.

Definition PVP : list (string * string) :=
  [("Optional PvP", "🕊️"); ("Hardcore PvP", "💀"); ("Open PvP", "⚔");
   ("Retro Open PvP", "⚔"); ("Retro Hardcore PvP", "💀")]%string.

(** [query.lower().replace(" ", "").replace("-", "").split(",")], and no
    parameter at all without a query. *)
Definition parameters (query : option string) : list string :=
  match query with
  | None => []
  | Some q =>
      Py.split_comma (PyMore.remove_char "-" (PyMore.remove_char " " (Py.lower q)))
  end.

(** [{...}.intersection(params)] is not empty. *)
Definition any_of (words params : list string) : bool :=
  existsb (fun w => PyMore.mem w params) words.

(** Lines 1717-1723. *)
Definition region_filter (params : list string) : option string :=
  if any_of ["eu"; "europe"]%string params then Some "Europe"%string
  else if any_of ["southamerica"; "sa"; "brazil"; "brasil"; "br"]%string params
       then Some "South America"%string
  else if any_of ["northamerica"; "na"; "usa"; "us"]%string params
       then Some "North America"%string
  else None.

(** Lines 1728-1738. *)
Definition pvp_filter (params : list string) : option string :=
  if any_of ["optionalpvp"; "npvp"; "nonpvp"; "nopvp"]%string params
  then Some "Optional PvP"%string
  else if any_of ["pvp"; "openpvp"]%string params then Some "Open PvP"%string
  else if any_of ["retropvp"; "retroopenpvp"]%string params then Some "Retro Open PvP"%string
  else if any_of ["hardcore"; "hardcorepvp"; "enforcedpvp"]%string params
       then Some "Hardcore PvP"%string
  else if any_of ["retrohardcore"; "retrohardcorepvp"]%string params
       then Some "Retro Hardcore PvP"%string
  else None.

(** Lines 1715-1741. *)
Definition title (params : list string) : string :=
  let title :=
    match region_filter params with
    | Some region => ("Worlds in " ++ region)%string
    | None => "Worlds"%string
    end in
  match pvp_filter params with
  | Some pvp => (pvp ++ " " ++ title)%string
  | None => title
  end.

(** A world passes the filters of lines 1743-1746. *)
Definition passes (params : list string) (w : World) : bool :=
  match region_filter params with
  | Some region => String.eqb (location w) region
  | None => true
  end &&
  match pvp_filter params with
  | Some pvp => String.eqb (pvp_type w) pvp
  | None => true
  end.

(** The order of line 1748: by [attrgetter(sort)], reversed or not. *)
Definition in_front (params : list string) (a b : World) : bool :=
  let reverse := any_of ["desc"; "descending"]%string params in
  if PyMore.mem "online" params
  then (if reverse then online_count b <=? online_count a
        else online_count a <=? online_count b)
  else (if reverse then String.leb (name b) (name a)
        else String.leb (name a) (name b)).

(** Lines 1743-1748: the worlds that are listed, in the order of the
    list. *)
Definition selection (params : list string) (worlds : list World) : list World :=
  let worlds :=
    match region_filter params with
    | Some region => filter (fun w => String.eqb (location w) region) worlds
    | None => worlds
    end in
  let worlds :=
    match pvp_filter params with
    | Some pvp => filter (fun w => String.eqb (pvp_type w) pvp) worlds
    | None => worlds
    end in
  PyMore.sorted_by (in_front params) worlds.

(** Line 1752, for one world. *)
Definition entry (w : World) : option string :=
  match PyMore.lookup (location w) FLAGS, PyMore.lookup (pvp_type w) PVP with
  | Some flag, Some pvp =>
      Some (name w ++ " " ++ flag ++ pvp ++ " - `"
            ++ PyMore.format_thousands (online_count w) ++ " online`")%string
  | _, _ => None
  end.

Fixpoint entries (worlds : list World) : option (list string) :=
  match worlds with
  | [] => Some []
  | w :: rest =>
      match entry w, entries rest with
      | Some e, Some es => Some (e :: es)
      | _, _ => None
      end
  end.

(** Lines 1698-1756. A world whose location or PvP type is not a key of
    [FLAGS] or [PVP] makes line 1752 raise [KeyError]. *)
Definition worlds (env : Env) (query : option string) : result reply :=
  match get_world_list env with
  | Ok None => Ok WentWrong
  | Raise NetworkError => Ok NetworkErrors
  | Raise e => Raise e
  | Ok (Some world_list) =>
      let params := parameters query in
      match selection params world_list with
      | [] => Ok NoMatch
      | selected =>
          match entries selected with
          | Some es => Ok (Listing (title params) (if long env then 20 else 5) es)
          | None => Raise OtherError
          end
      end
  end.

(** The reply shows the worlds [listed]: one entry for each of them, in
    their order, under the title and with the page size of the query;
    no world at all is shown by the reply that none matches. *)
Definition shows (env : Env) (query : option string) (listed : list World)
    (r : result reply) : Prop :=
  match listed with
  | [] => r = Ok NoMatch
  | _ :: _ =>
      exists es,
        r = Ok (Listing (title (parameters query)) (if long env then 20 else 5) es) /\
        Forall2 (fun w e => entry w = Some e) listed es
  end.

(** The location and the PvP type of a world are known to [FLAGS] and
    [PVP]. *)
Definition known (w : World) : Prop :=
  PyMore.lookup (location w) FLAGS <> None /\ PyMore.lookup (pvp_type w) PVP <> None.

End Worlds.

(** Worlds to run [worlds] on. *)
Module WorldSample.

Definition antica : Worlds.World :=
  {| Worlds.name := "Antica"; Worlds.online_count := 1200;
     Worlds.location := "Europe"; Worlds.pvp_type := "Open PvP" |}.
Definition calmera : Worlds.World :=
  {| Worlds.name := "Calmera"; Worlds.online_count := 310;
     Worlds.location := "North America"; Worlds.pvp_type := "Optional PvP" |}.
Definition secura : Worlds.World :=
  {| Worlds.name := "Secura"; Worlds.online_count := 550;
     Worlds.location := "Europe"; Worlds.pvp_type := "Optional PvP" |}.
Definition belobra : Worlds.World :=
  {| Worlds.name := "Belobra"; Worlds.online_count := 870;
     Worlds.location := "South America"; Worlds.pvp_type := "Optional PvP" |}.

Definition env : Worlds.Env :=
  {| Worlds.get_world_list := Ok (Some [secura; antica; calmera; belobra]);
     Worlds.long := false |}.

End WorldSample.

(* ================================================================= *)
(** ** The [searchworld] command *)

Module Search.

(** [x.name] for a character; [name] is the name of a world below. *)
Definition character_name (c : Character) : string := name c.

(** What [get_world] returns, as far as the command reads it. The
    players online are characters: name, level and vocation. *)
Record World : Type := {
  name : string;
  players_online : list Character
}.

Record Env : Type := {
  embed_links : bool;                                   (* ctx.bot_permissions.embed_links *)
  tibia_worlds : list string;
  tracked_world : option string;                        (* ctx.world *)
  long : bool;                                          (* ctx.long *)
  get_world : string -> result (option World);
  is_numeric : string -> bool;                          (* utils.general.is_numeric *)
  get_character : string -> result (option (Character * string));
                                                        (* the character and its world *)
  get_share_range : Z -> Z * Z;
  get_voc_abb_and_emoji : string -> string
}.

Inductive reply : Type :=
| NeedEmbedLinks     (* "Sorry, I need `Embed Links` permission for this command." *)
| InvalidArguments   (* the [invalid_arguments] text *)
| MustSpecifyWorld   (* "You must specify the world where you want to look in." *)
| NoWorldNamed (world_name : string)
                     (* "There's no world named **{world_name}**." *)
| NetworkProblems    (* "I'm having 'network problems' as you humans say, ..." *)
| NoOneOnline (world_name : string)
                     (* "There is no one online in {world_name}." *)
| CharacterNotFound  (* "I couldn't find a character with that name." *)
| CouldNotFetch      (* "I couldn't fetch that character." *)
| InvalidLevel       (* "You entered an invalid level." *)
| Nobody (empty : string)
                     (* the [empty] text *)
| Found (title header : string) (per_page : Z)
        (entries vocations : list string).
                     (* the pages that are shown *)

(** What lines 985-1028 settle: the range, the name left out, and the
    texts. *)
Record Criteria : Type := {
  low : Z;
  high : Z;
  filter_name : string;
  title : string;
  empty : string;
  content : string
}.

(** Lines 941-957: the world to search and the parameters left. [inl] is
    a reply that ends the command. *)
Definition world_and_params (env : Env) (params : string)
  : reply + string * list string :=
  let params := Py.split_comma params in
  let last_param := last params EmptyString in
  let named :=
    (1 <? List.length params)%nat
    && PyMore.mem (PyMore.capitalize (Py.strip last_param)) (tibia_worlds env) in
  let world_name :=
    if named then Some (Py.strip (PyMore.capitalize last_param)) else None in
  let params := if named then removelast params else params in
  if negb ((1 <=? List.length params)%nat && (List.length params <=? 2)%nat)
  then inl InvalidArguments
  else
    match world_name with
    | Some world_name => inr (world_name, params)
    | None =>
        match tracked_world env with
        | None => inl MustSpecifyWorld
        | Some world_name => inr (world_name, params)
        end
    end.

(** Lines 985-1028. *)
Definition criteria (env : Env) (world : World) (params : list string)
  : result (reply + Criteria) :=
  let param0 := hd EmptyString params in
  if negb (is_numeric env param0) then
    if (List.length params =? 2)%nat then Ok (inl InvalidArguments)
    else
      match get_character env param0 with
      | Ok None => Ok (inl CharacterNotFound)
      | Raise NetworkError => Ok (inl CouldNotFetch)
      | Raise e => Raise e
      | Ok (Some (char, char_world)) =>
          let (low, high) := get_share_range env (level char) in
          Ok (inr {| low := low; high := high;
                     filter_name := character_name char;
                     title := ("Characters online in share range with " ++ character_name char
                               ++ "(" ++ Py.str low ++ "-" ++ Py.str high ++ "):")%string;
                     empty := ("I didn't find anyone in share range with **" ++ character_name char
                               ++ "**(" ++ Py.str low ++ "-" ++ Py.str high ++ ")")%string;
                     content :=
                       if String.eqb char_world (name world) then EmptyString
                       else ("**Note**: The character is in **" ++ char_world
                             ++ "** and I'm searching **" ++ name world ++ "**.")%string |})
      end
  else if (List.length params =? 2)%nat then
    match Py.int param0, Py.int (nth 1 params EmptyString) with
    | Some level1, Some level2 =>
        if (level1 <=? 0) || (level2 <=? 0) then Ok (inl InvalidLevel)
        else
          let low := Z.min level1 level2 in
          let high := Z.max level1 level2 in
          Ok (inr {| low := low; high := high;
                     filter_name := EmptyString;
                     title := ("Characters online between level " ++ Py.str low
                               ++ " and " ++ Py.str high)%string;
                     empty := ("I didn't find anyone between levels **" ++ Py.str low
                               ++ "** and **" ++ Py.str high ++ "**")%string;
                     content := EmptyString |})
    | _, _ => Ok (inl InvalidArguments)
    end
  else
    match Py.int param0 with
    | None => Raise ValueError
    | Some level0 =>
        if level0 <=? 0 then Ok (inl InvalidLevel)
        else
          let (low, high) := get_share_range env level0 in
          Ok (inr {| low := low; high := high;
                     filter_name := EmptyString;
                     title := ("Characters online in share range with level " ++ param0
                               ++ " (" ++ Py.str low ++ "-" ++ Py.str high ++ ")")%string;
                     empty := ("I didn't find anyone in share range with level **" ++ param0
                               ++ "** (" ++ Py.str low ++ "-" ++ Py.str high ++ ")")%string;
                     content := EmptyString |})
    end.

(** Lines 975 and 1030: the players online, highest level first, that
    are in the range and do not bear the name left out. *)
Definition matching (c : Criteria) (online_list : list Character) : list Character :=
  filter (fun x => (low c <=? level x) && (level x <=? high c)
                   && negb (String.eqb (character_name x) (filter_name c)))
         (PyMore.sorted_by (fun a b => level b <=? level a) online_list).

(** Line 1037-1038, for one player. *)
Definition line (env : Env) (player : Character) : string :=
  ("**" ++ character_name player ++ "** - Level " ++ Py.str (level player) ++ " "
   ++ get_voc_abb_and_emoji env (vocation player))%string.

(** Lines 931-1047. *)
Definition search_world (env : Env) (params : string) : result reply :=
  if negb (embed_links env) then Ok NeedEmbedLinks
  else
    match world_and_params env params with
    | inl r => Ok r
    | inr (world_name, params) =>
        match get_world env world_name with
        | Ok None => Ok (NoWorldNamed world_name)
        | Raise NetworkError => Ok NetworkProblems
        | Raise e => Raise e
        | Ok (Some world) =>
            match players_online world with
            | [] => Ok (NoOneOnline world_name)
            | online_list =>
                match criteria env world params with
                | Raise e => Raise e
                | Ok (inl r) => Ok r
                | Ok (inr c) =>
                    match matching c online_list with
                    | [] => Ok (Nobody (empty c))
                    | players =>
                        Ok (Found (title c) (content c) (if long env then 20 else 5)
                                  (map (line env) players) (map vocation players))
                    end
                end
            end
        end
    end.

(** [is_numeric] tells whether [int] reads the text. *)
Definition numeric_is_int (env : Env) : Prop :=
  forall s, is_numeric env s = true <-> Py.int s <> None.

End Search.

(** A world with four players online, to run [searchworld] on. *)
Module SearchSample.

Definition dora : Character := {| name := "Dora"; level := 120; vocation := "Druid" |}.

Definition antica : Search.World :=
  {| Search.name := "Antica";
     Search.players_online := [Scenario.carl; Scenario.alice; dora; Scenario.bob] |}.

Definition env : Search.Env :=
  {| Search.embed_links := true;
     Search.tibia_worlds := ["Antica"; "Calmera"]%string;
     Search.tracked_world := Some "Antica"%string;
     Search.long := false;
     Search.get_world := fun w =>
       if String.eqb w "Antica" then Ok (Some antica) else Ok None;
     Search.is_numeric := fun s => match Py.int s with Some _ => true | None => false end;
     Search.get_character := fun char =>
       if String.eqb char "Alice" then Ok (Some (Scenario.alice, "Antica"%string))
       else Ok None;
     Search.get_share_range := fun l => (2 * l / 3, 3 * l / 2);
     Search.get_voc_abb_and_emoji := fun v => v |}.

End SearchSample.

(* ================================================================= *)
(** ** The [house] command: the name and the world that are looked up *)

Module House.

Record Env : Type := {
  tibia_worlds : list string;
  in_guild : bool;                      (* ctx.guild is not None *)
  tracked_world : option string         (* ctx.world *)
}.

(** Lines 681-696: the two arguments of the call of [get_house]. *)
Definition house_arguments (env : Env) (name : string) : string * option string :=
  let params := Py.split_comma name in
  let (name, world) :=
    if (1 <? List.length params)%nat
    then (PyMore.join_comma (removelast params), Some (last params EmptyString))
    else (hd EmptyString params, None) in
  let (name, world) :=
    match world with
    | Some w =>
        if negb (PyMore.mem (Py.strip (PyMore.title w)) (tibia_worlds env))
        then ((name ++ "," ++ w)%string, None)
        else (name, world)
    | None => (name, world)
    end in
  let world :=
    match world with
    | None => if in_guild env then tracked_world env else None
    | Some _ => world
    end in
  (Py.strip name, option_map Py.strip world).

End House.

(* ================================================================= *)
(** ** The [highscores] command *)

Module Highscores.

(** An entry of the list that [get_highscores_tibiadata] returns. *)
Record Entry : Type := {
  name : string;
  vocation : string;
  level : Z;
  points : Z
}.

Record Env : Type := {
  embed_links : bool;                   (* ctx.bot_permissions.embed_links *)
  tibia_worlds : list string;
  tracked_world : option string;        (* ctx.world *)
  long : bool;                          (* ctx.long *)
  get_highscores_tibiadata : string -> string -> string -> result (option (list Entry));
  get_voc_emoji : string -> string
}.

Inductive reply : Type :=
| NeedEmbedLinks    (* "Sorry, I need `Embed Links` permission for this command." *)
| SpecifyWorld      (* "You have to specify a world." *)
| InvalidCategory   (* "Invalid category, valid categories are: ..." *)
| InvalidVocation   (* "Invalid vocation, valid vocations are: ..." *)
| NoEntries         (* "I couldn't find any highscores entries." *)
| CouldNotFetch     (* "I couldn't fetch the highscores." *)
| Pages (title : string) (per_page : Z) (entries : list string).

Definition categories : list string :=
  ["experience"; "magic"; "shielding"; "distance"; "sword"; "club"; "axe"; "fist";
   "fishing"; "achievements"; "loyalty"]%string.

Definition vocations : list string :=
  ["all"; "paladin"; "druid"; "knight"; "sorcerer"]%string.

(** A call of [get_highscores_tibiadata]: world, category, vocation. *)
Definition call : Type := (string * string * string)%type.

(** Lines 612-641: the world, the category and the vocation, or the
    reply that ends the command. *)
Definition highscores_arguments (env : Env) (params : option string) : reply + call :=
  let params := match params with None => [] | Some p => Py.split_comma p end in
  let named :=
    match params with
    | [] => false
    | first :: _ => PyMore.mem (PyMore.title (Py.strip first)) (tibia_worlds env)
    end in
  let world :=
    if named then Some (PyMore.title (Py.strip (hd EmptyString params))) else None in
  let params := if named then tl params else params in
  let world := match world with Some w => Some w | None => tracked_world env end in
  match world with
  | None => inl SpecifyWorld
  | Some world =>
      match params with
      | [] => inr (world, "experience", "all")%string
      | first :: params =>
          if negb (PyMore.mem (Py.lower (Py.strip first)) categories)
          then inl InvalidCategory
          else
            let category := Py.lower (Py.strip first) in
            match params with
            | [] => inr (world, category, "all"%string)
            | second :: _ =>
                if negb (PyMore.mem (Py.lower (Py.strip second)) vocations)
                then inl InvalidVocation
                else inr (world, category, Py.lower (Py.strip second))
            end
      end
  end.

(** Lines 651-655, for one entry. *)
Definition line (env : Env) (category : string) (entry : Entry) : string :=
  if String.eqb category "experience"
  then ("**" ++ name entry ++ "**" ++ get_voc_emoji env (vocation entry)
        ++ " - Level " ++ Py.str (level entry)
        ++ " (" ++ PyMore.format_thousands (points entry) ++ " exp)")%string
  else ("**" ++ name entry ++ "**" ++ get_voc_emoji env (vocation entry)
        ++ " - Level " ++ Py.str (level entry))%string.

(** Lines 605-663, with the calls of [get_highscores_tibiadata] made. *)
Definition highscores (env : Env) (params : option string) : list call * result reply :=
  if negb (embed_links env) then ([], Ok NeedEmbedLinks)
  else
    match highscores_arguments env params with
    | inl r => ([], Ok r)
    | inr (world, category, vocation) =>
        match get_highscores_tibiadata env world category vocation with
        | Ok None => ([(world, category, vocation)], Ok NoEntries)
        | Raise NetworkError => ([(world, category, vocation)], Ok CouldNotFetch)
        | Raise e => ([(world, category, vocation)], Raise e)
        | Ok (Some entries) =>
            let title := ("🏆 " ++ PyMore.title category ++ " highscores for " ++ world)%string in
            let title :=
              if String.eqb vocation "all" then title
              else (title ++ " (" ++ vocation ++ "s)")%string in
            ([(world, category, vocation)],
             Ok (Pages title (if long env then 20 else 10) (map (line env category) entries)))
        end
    end.

End Highscores.

(** Surroundings to run [house] and [highscores] on. *)
Module HouseSample.

Definition env : House.Env :=
  {| House.tibia_worlds := ["Antica"; "Calmera"]%string;
     House.in_guild := true;
     House.tracked_world := Some "Calmera"%string |}.

Definition scores_env : Highscores.Env :=
  {| Highscores.embed_links := true;
     Highscores.tibia_worlds := ["Antica"; "Calmera"]%string;
     Highscores.tracked_world := Some "Calmera"%string;
     Highscores.long := false;
     Highscores.get_highscores_tibiadata := fun _ _ _ =>
       Ok (Some [ {| Highscores.name := "Bob"; Highscores.vocation := "Knight";
                     Highscores.level := 140; Highscores.points := 41557000 |} ]);
     Highscores.get_voc_emoji := fun _ => EmptyString |}.

End HouseSample.

(* ================================================================= *)
(** ** The [deaths] command without a name: the latest deaths *)

Module Deaths.

(** A row of the query of lines 142-145. *)
Record Row : Type := {
  level : Z;
  date : Z;
  name : string;
  user_id : Z;
  byplayer : bool;
  killer : string;
  world : string;
  vocation : string
}.

Record Env : Type := {
  is_lite : bool;                       (* ctx.is_lite *)
  embed_links : bool;                   (* ctx.bot_permissions.embed_links *)
  is_private : bool;                    (* ctx.is_private *)
  get_user_worlds : list string;        (* self.bot.get_user_worlds(ctx.author.id) *)
  tracked_world : option string;        (* self.bot.tracked_worlds.get(ctx.guild.id) *)
  long : bool;                          (* ctx.long *)
  (* the display name of self.bot.get_member(user_id, user_guilds) *)
  get_member : Z -> option string;
  get_voc_emoji : string -> string;
  (* get_time_diff(dt.timedelta(seconds=now - date)) *)
  time_ago : Z -> string
}.

Inductive reply : Type :=
| NeedEmbedLinks    (* "Sorry, I need `Embed Links` permission for this command." *)
| NotTracking       (* "This server is not tracking any tibia worlds." *)
| NoDeaths          (* "There are no registered deaths." *)
| Pages (title : string) (per_page : Z) (entries : list string).

(** Lines 156-160. *)
Definition entry (env : Env) (user : string) (row : Row) : string :=
  (get_voc_emoji env (vocation row) ++ " " ++ name row ++ " (**@" ++ user
   ++ "**) - At level **" ++ Py.str (level row) ++ "** by " ++ killer row
   ++ " - *" ++ time_ago env (date row) ++ " ago*")%string.

(** Lines 146-162: the loop over the rows fetched. *)
Fixpoint latest_loop (env : Env) (user_worlds : list string) (rows : list Row)
    (count : Z) (entries : list string) : Z * list string :=
  match rows with
  | [] => (count, entries)
  | row :: rest =>
      match get_member env (user_id row) with
      | None => latest_loop env user_worlds rest count entries
      | Some user =>
          if negb (PyMore.mem (world row) user_worlds)
          then latest_loop env user_worlds rest count entries
          else
            let count := count + 1 in
            let entries := entries ++ [entry env user row] in
            if count >=? 100 then (count, entries)
            else latest_loop env user_worlds rest count entries
      end
  end.

(** Lines 114-226 with [name is None], on the rows of the query;
    [None]: the command returns without a reply. *)
Definition deaths_latest (env : Env) (rows : list Row) : option reply :=
  if is_lite env then None
  else if negb (embed_links env) then Some NeedEmbedLinks
  else
    let user_worlds :=
      if is_private env then Some (get_user_worlds env)
      else match tracked_world env with
           | None => None
           | Some w => Some [w]
           end in
    match user_worlds with
    | None => Some NotTracking
    | Some user_worlds =>
        let (count, entries) := latest_loop env user_worlds rows 0 [] in
        if count =? 0 then Some NoDeaths
        else Some (Pages "Latest deaths" (if long env then 20 else 5) entries)
    end.

(** The worlds whose deaths the asker may see. *)
Definition worlds_seen (env : Env) : list string :=
  if is_private env then get_user_worlds env
  else match tracked_world env with
       | None => []
       | Some w => [w]
       end.

(** A row of a character of a member the asker shares a server with, in
    a world the asker may see. *)
Definition visible (env : Env) (row : Row) : bool :=
  match get_member env (user_id row) with
  | None => false
  | Some _ => PyMore.mem (world row) (worlds_seen env)
  end.

Definition shown (env : Env) (row : Row) : string :=
  match get_member env (user_id row) with
  | None => EmptyString
  | Some user => entry env user row
  end.

End Deaths.

(* ================================================================= *)
(** ** The [guild] command: the members online by rank *)

Module Guild.

Record Member : Type := {
  rank : string;
  name : string;
  nick : string;
  level : Z;
  vocation : string
}.

Record GuildData : Type := {
  guild_name : string;
  world : string;
  guildhall : option (string * Z);      (* name and id *)
  founded : string;
  online : list Member;
  members : list Member
}.

Record Env : Type := {
  embed_links : bool;
  get_guild : string -> result (option GuildData);
  get_voc_abb : string -> string;
  url_house : Z -> string -> string     (* url_house.format(id=..., world=...) *)
}.

Inductive reply : Type :=
| NeedEmbedLinks    (* "Sorry, I need `Embed Links` permission for this command." *)
| NoSuchGuild       (* "The guild {0} doesn't exist." *)
| Trouble           (* "Can you repeat that? I had some trouble communicating." *)
| Embed (description : string) (footer : option string) (fields : list (string * string)).

Definition newline : string := String (ascii_of_nat 10) EmptyString.

(** Lines 485-488: the line of a member. *)
Definition member_line (env : Env) (member : Member) : string :=
  let nick := if String.eqb (nick member) EmptyString then EmptyString
              else ("(*" ++ nick member ++ "*) ")%string in
  (name member ++ " " ++ nick ++ "→ " ++ Py.str (level member) ++ " "
   ++ get_voc_abb env (vocation member) ++ newline)%string.

(** Lines 477-489: the loop over the members online, and the field added
    after it. *)
Fixpoint online_loop (env : Env) (online : list Member) (current_field result : string)
    (fields : list (string * string)) : list (string * string) :=
  match online with
  | [] => fields ++ [(current_field, result)]
  | member :: rest =>
      let '(current_field, result, fields) :=
        if String.eqb current_field EmptyString
        then (rank member, result, fields)
        else if negb (String.eqb (rank member) current_field)
                && negb (String.eqb (rank member) EmptyString)
        then (rank member, EmptyString, fields ++ [(current_field, result)])
        else (current_field, result, fields) in
      online_loop env rest current_field (result ++ member_line env member)%string fields
  end.

(** Lines 441-490. *)
Definition guild (env : Env) (name : string) : result reply :=
  if negb (embed_links env) then Ok NeedEmbedLinks
  else
    match get_guild env name with
    | Ok None => Ok NoSuchGuild
    | Raise NetworkError => Ok Trouble
    | Raise e => Raise e
    | Ok (Some guild) =>
        let description :=
          match guildhall guild with
          | Some (hall, id) =>
              ("They own the guildhall [" ++ hall ++ "](" ++ url_house env id (world guild)
               ++ ")." ++ newline)%string
          | None => EmptyString
          end in
        let count_online := Z.of_nat (List.length (online guild)) in
        let count_members := Z.of_nat (List.length (members guild)) in
        if count_online <? 1
        then Ok (Embed (description ++ "Nobody is online. It has **" ++ Py.str count_members
                        ++ "** members.")%string None [])
        else
          let plural := if count_online >? 1 then "s"%string else EmptyString in
          Ok (Embed (description ++ "It has **" ++ Py.str count_online ++ "** player" ++ plural
                     ++ " online out of **" ++ Py.str count_members ++ "**:")%string
                (Some ("The guild was founded on " ++ founded guild)%string)
                (online_loop env (online guild) EmptyString EmptyString []))
    end.

(** The lines of some members, one after the other. *)
Fixpoint member_lines (env : Env) (group : list Member) : string :=
  match group with
  | [] => EmptyString
  | member :: rest => (member_line env member ++ member_lines env rest)%string
  end.

(** The field of a group of members under a heading. *)
Definition field_of (env : Env) (group : string * list Member) : string * string :=
  (fst group, member_lines env (snd group)).

(** A group has a member, and its members have the rank of the heading
    or no rank. *)
Definition well_grouped (group : string * list Member) : Prop :=
  snd group <> [] /\
  Forall (fun member => rank member = fst group \/ rank member = EmptyString) (snd group).

End Guild.

(* ================================================================= *)
(** ** The statistics of [guild info] and of [world] *)

Module Vocations.

(** The five counters of lines 521-525 and 1662-1666. *)
Record Distribution : Type := {
  knight : Z;
  paladin : Z;
  sorcerer : Z;
  druid : Z;
  none : Z
}.

Definition zero : Distribution :=
  {| knight := 0; paladin := 0; sorcerer := 0; druid := 0; none := 0 |}.

(** Lines 534-543 and 1668-1677, for the vocation of one member. *)
Definition tally (d : Distribution) (vocation : string) : Distribution :=
  let v := Py.lower vocation in
  let knight := if PyMore.contains "knight" v then knight d + 1 else knight d in
  let sorcerer := if PyMore.contains "sorcerer" v then sorcerer d + 1 else sorcerer d in
  let druid := if PyMore.contains "druid" v then druid d + 1 else druid d in
  let paladin := if PyMore.contains "paladin" v then paladin d + 1 else paladin d in
  let none := if PyMore.contains "none" v then none d + 1 else none d in
  {| knight := knight; paladin := paladin; sorcerer := sorcerer; druid := druid; none := none |}.

(** Lines 1662-1677 of [world_info]. *)
Definition world_distribution (players_online : list Character) : Distribution :=
  fold_left (fun d character => tally d (vocation character)) players_online zero.

Record Stats : Type := {
  distribution : Distribution;
  total_level : Z;
  highest_member : option Guild.Member
}.

(** Lines 529-543 of [guild_info], for one member. *)
Definition step (s : Stats) (member : Guild.Member) : Stats :=
  let highest_member :=
    match highest_member s with
    | None => Some member
    | Some highest =>
        if Guild.level highest <? Guild.level member then Some member else Some highest
    end in
  {| distribution := tally (distribution s) (Guild.vocation member);
     total_level := total_level s + Guild.level member;
     highest_member := highest_member |}.

(** Lines 521-543 of [guild_info]. *)
Definition member_stats (members : list Guild.Member) : Stats :=
  fold_left step members
    {| distribution := zero; total_level := 0; highest_member := None |}.

(** The vocations of the game. *)
Definition standard : list string :=
  ["None"; "Knight"; "Elite Knight"; "Paladin"; "Royal Paladin";
   "Sorcerer"; "Master Sorcerer"; "Druid"; "Elder Druid"]%string.

Definition counted (d : Distribution) : Z :=
  knight d + paladin d + sorcerer d + druid d + none d.

End Vocations.

(** Surroundings to run [deaths], [guild] and [guild info] on. *)
Module GuildSample.

Definition row (who : string) (user : Z) (where_ : string) (lvl day : Z) : Deaths.Row :=
  {| Deaths.level := lvl; Deaths.date := day; Deaths.name := who;
     Deaths.user_id := user; Deaths.byplayer := false; Deaths.killer := "a dragon";
     Deaths.world := where_; Deaths.vocation := "Knight" |}.

Definition deaths_env : Deaths.Env :=
  {| Deaths.is_lite := false;
     Deaths.embed_links := true;
     Deaths.is_private := false;
     Deaths.get_user_worlds := [];
     Deaths.tracked_world := Some "Antica"%string;
     Deaths.long := false;
     Deaths.get_member := fun id => if id =? 1 then Some "Ann"%string else None;
     Deaths.get_voc_emoji := fun _ => "K"%string;
     Deaths.time_ago := fun _ => "1 hour"%string |}.

Definition rows : list Deaths.Row :=
  [ row "Bob" 1 "Antica" 140 30;
    row "Eve" 2 "Antica" 90 20;
    row "Dan" 1 "Calmera" 80 10;
    row "Bob" 1 "Antica" 139 5 ].

Definition member (r n : string) (l : Z) (v : string) : Guild.Member :=
  {| Guild.rank := r; Guild.name := n; Guild.nick := EmptyString;
     Guild.level := l; Guild.vocation := v |}.

Definition roster : list Guild.Member :=
  [ member "Leader" "Ann" 200 "Elite Knight";
    member "Member" "Bob" 140 "Royal Paladin";
    member "Member" "Dan" 200 "Druid" ].

Definition guild_env : Guild.Env :=
  {| Guild.embed_links := true;
     Guild.get_guild := fun _ =>
       Ok (Some {| Guild.guild_name := "Redd Alliance"; Guild.world := "Antica";
                   Guild.guildhall := None; Guild.founded := "2002-02-18";
                   Guild.online := roster; Guild.members := roster |});
     Guild.get_voc_abb := fun v => v;
     Guild.url_house := fun _ _ => EmptyString |}.

End GuildSample.

(* ================================================================= *)
(** ** The [time] command: the time until server save *)

Module Time.

(** The time of day of [tibia_time]. *)
Record Clock : Type := {
  hour : Z;
  minute : Z;
  second : Z;
  microsecond : Z
}.

Definition valid (t : Clock) : Prop :=
  0 <= hour t < 24 /\ 0 <= minute t < 60 /\ 0 <= second t < 60 /\
  0 <= microsecond t < 1000000.

(** Microseconds since midnight. *)
Definition since_midnight (t : Clock) : Z :=
  ((hour t * 60 + minute t) * 60 + second t) * 1000000 + microsecond t.

(** Lines 1466-1470: [server_save - tibia_time], in microseconds;
    [server_save] is 10:00 of the same day, or of the next day from
    10:00 on. *)
Definition time_until_ss (tibia_time : Clock) : Z :=
  let days := if hour tibia_time >=? 10 then 1 else 0 in
  (days * 24 + 10) * 3600 * 1000000 - since_midnight tibia_time.

(** Lines 1471-1472: the hours and minutes shown. *)
Definition server_save_in (tibia_time : Clock) : Z * Z :=
  let total_seconds := Z.quot (time_until_ss tibia_time) 1000000 in
  let hours := total_seconds / 3600 in
  let remainder := total_seconds mod 3600 in
  let minutes := remainder / 60 in
  (hours, minutes).

End Time.

(** A time of day to run [time] on. *)
Module TimeSample.

Definition evening : Time.Clock :=
  {| Time.hour := 21; Time.minute := 47; Time.second := 30; Time.microsecond := 250000 |}.

End TimeSample.

(* ================================================================= *)
(** * Properties *)

(* ================================================================= *)
(** ** [int] reads back what [str] wrote *)

Section PyFacts.

Local Open Scope string_scope.

Lemma isdigit_not_space (c : ascii) :
  Py.isdigit c = true -> Py.int_space c = false.
Proof.
  unfold Py.isdigit, Py.int_space; cbv zeta.
  generalize (nat_of_ascii c); intros n H.
  apply andb_true_iff in H; destruct H as [H1 H2].
  apply Nat.leb_le in H1.
  apply orb_false_iff; split.
  - apply andb_false_iff. right; apply Nat.leb_gt; lia.
  - apply Nat.eqb_neq; lia.
Qed.

Lemma isdigit_not_underscore (c : ascii) : Py.isdigit c = true -> Ascii.eqb c "_" = false.
Proof.
  intros H; destruct (Ascii.eqb_spec c "_") as [->|]; [discriminate H | reflexivity].
Qed.

Lemma isdigit_not_sign (c : ascii) :
  Py.isdigit c = true -> Ascii.eqb c "-" = false /\ Ascii.eqb c "+" = false.
Proof.
  intros H; split.
  - destruct (Ascii.eqb_spec c "-") as [->|]; [discriminate H | reflexivity].
  - destruct (Ascii.eqb_spec c "+") as [->|]; [discriminate H | reflexivity].
Qed.

Lemma string_of_uint_digits (d : Decimal.uint) :
  Py.all_chars Py.isdigit (NilEmpty.string_of_uint d) = true.
Proof. induction d; simpl; auto. Qed.

Lemma rstrip_no_space (space : ascii -> bool) (s : string) :
  Py.all_chars (fun c => negb (space c)) s = true -> Py.rstrip_of space s = s.
Proof.
  induction s as [|c r IH]; simpl; [reflexivity|].
  intros H; apply andb_true_iff in H; destruct H as [Hc Hr].
  rewrite (IH Hr).
  destruct r; [|reflexivity].
  apply negb_true_iff in Hc; now rewrite Hc.
Qed.

Lemma all_chars_weaken (p q : ascii -> bool) (s : string) :
  (forall c, p c = true -> q c = true) ->
  Py.all_chars p s = true -> Py.all_chars q s = true.
Proof.
  intros Hpq; induction s as [|c r IH]; simpl; [reflexivity|].
  intros H; apply andb_true_iff in H; destruct H as [Hc Hr].
  rewrite (Hpq _ Hc), (IH Hr); reflexivity.
Qed.

Lemma digits_no_space (s : string) :
  Py.all_chars Py.isdigit s = true ->
  Py.all_chars (fun c => negb (Py.int_space c)) s = true.
Proof.
  apply all_chars_weaken; intros c Hc.
  now rewrite (isdigit_not_space c Hc).
Qed.

Lemma digits_ok_all_digits (s : string) :
  Py.all_chars Py.isdigit s = true -> Py.digits_ok true s = true.
Proof.
  induction s as [|c r IH]; simpl; [reflexivity|].
  intros H; apply andb_true_iff in H; destruct H as [Hc Hr].
  rewrite Hc; auto.
Qed.

Lemma drop_underscores_all_digits (s : string) :
  Py.all_chars Py.isdigit s = true -> Py.drop_underscores s = s.
Proof.
  induction s as [|c r IH]; simpl; [reflexivity|].
  intros H; apply andb_true_iff in H; destruct H as [Hc Hr].
  rewrite (isdigit_not_underscore c Hc), (IH Hr); reflexivity.
Qed.

(** The digits of a numeral that is not empty are read back. *)
Lemma digits_string_of_uint (d : Decimal.uint) :
  d <> Decimal.Nil ->
  Py.digits (NilEmpty.string_of_uint d) = Some (Z.of_uint d).
Proof.
  intros Hd. unfold Py.digits.
  pose proof (string_of_uint_digits d) as Hall.
  rewrite (drop_underscores_all_digits _ Hall), NilEmpty.usu.
  destruct (NilEmpty.string_of_uint d) as [|c r] eqn:E.
  - destruct d; simpl in E; try discriminate; now elim Hd.
  - simpl in Hall. apply andb_true_iff in Hall; destruct Hall as [Hc Hr].
    simpl. rewrite Hc, (digits_ok_all_digits r Hr). reflexivity.
Qed.

Lemma strip_digits (s : string) :
  Py.all_chars Py.isdigit s = true ->
  Py.rstrip_of Py.int_space (Py.lstrip_of Py.int_space s) = s.
Proof.
  intros H.
  assert (Hl : Py.lstrip_of Py.int_space s = s).
  { destruct s as [|c r]; [reflexivity|]. simpl in *.
    apply andb_true_iff in H; destruct H as [Hc _].
    now rewrite (isdigit_not_space c Hc). }
  rewrite Hl. apply rstrip_no_space, digits_no_space, H.
Qed.

Lemma int_string_of_uint (d : Decimal.uint) :
  d <> Decimal.Nil ->
  Py.int (NilEmpty.string_of_uint d) = Some (Z.of_uint d).
Proof.
  intros Hd. unfold Py.int.
  pose proof (string_of_uint_digits d) as Hall.
  rewrite (strip_digits _ Hall).
  pose proof (digits_string_of_uint d Hd) as Hdig.
  destruct (NilEmpty.string_of_uint d) as [|c r] eqn:E.
  - destruct d; simpl in E; try discriminate; now elim Hd.
  - simpl in Hall. apply andb_true_iff in Hall; destruct Hall as [Hc _].
    destruct (isdigit_not_sign c Hc) as [-> ->]. exact Hdig.
Qed.

Lemma int_minus_string_of_uint (d : Decimal.uint) :
  d <> Decimal.Nil ->
  Py.int (String "-" (NilEmpty.string_of_uint d)) = Some (- Z.of_uint d).
Proof.
  intros Hd. unfold Py.int.
  change (Py.lstrip_of Py.int_space (String "-" (NilEmpty.string_of_uint d)))
    with (String "-" (NilEmpty.string_of_uint d)).
  rewrite rstrip_no_space.
  - change (Ascii.eqb "-" "-") with true; cbv iota.
    now rewrite (digits_string_of_uint d Hd).
  - simpl. apply digits_no_space, string_of_uint_digits.
Qed.

(** [int(str(z)) == z] *)
Lemma int_str (z : Z) : Py.int (Py.str z) = Some z.
Proof.
  destruct z as [|p|p].
  - reflexivity.
  - unfold Py.str. change (Z.to_int (Z.pos p)) with (Decimal.Pos (Pos.to_uint p)).
    pose proof (DecimalPos.Unsigned.to_uint_nonnil p) as Hn.
    cbn [NilZero.string_of_int]. unfold NilZero.string_of_uint.
    replace (match Pos.to_uint p with Decimal.Nil => "0" | _ => NilEmpty.string_of_uint (Pos.to_uint p) end)
      with (NilEmpty.string_of_uint (Pos.to_uint p))
      by (destruct (Pos.to_uint p); try reflexivity; now elim Hn).
    rewrite (int_string_of_uint _ Hn). f_equal.
    exact (DecimalZ.of_to (Z.pos p)).
  - unfold Py.str. change (Z.to_int (Z.neg p)) with (Decimal.Neg (Pos.to_uint p)).
    pose proof (DecimalPos.Unsigned.to_uint_nonnil p) as Hn.
    cbn [NilZero.string_of_int]. unfold NilZero.string_of_uint.
    replace (match Pos.to_uint p with Decimal.Nil => "0" | _ => NilEmpty.string_of_uint (Pos.to_uint p) end)
      with (NilEmpty.string_of_uint (Pos.to_uint p))
      by (destruct (Pos.to_uint p); try reflexivity; now elim Hn).
    rewrite (int_minus_string_of_uint _ Hn). f_equal.
    exact (DecimalZ.of_to (Z.neg p)).
Qed.

Example int_examples :
  Py.int " 12 " = Some 12 /\ Py.int "-7" = Some (-7) /\ Py.int "+5" = Some 5 /\
  Py.int "1_000" = Some 1000 /\ Py.int "007" = Some 7 /\
  Py.int EmptyString = None /\ Py.int "1__0" = None /\ Py.int "12a" = None /\
  Py.int "- 3" = None /\ Py.int "Alice,Bob" = None /\
  Py.int (String (ascii_of_nat 31) "5") = None /\
  Py.strip (String (ascii_of_nat 31) "5") = "5".
Proof. repeat split. Qed.

Example split_comma_examples :
  Py.split_comma "Alice,Bob" = ["Alice"; "Bob"] /\
  Py.split_comma EmptyString = [EmptyString] /\
  Py.split_comma "a,,b," = ["a"; EmptyString; "b"; EmptyString].
Proof. repeat split. Qed.

End PyFacts.


(* ================================================================= *)
(** ** The [stamina] command *)

(** Settles a comparison of integers that [lia] can decide. *)
Ltac zbool :=
  rewrite ?Z.geb_leb, ?Z.gtb_ltb;
  first [ apply Z.leb_le | apply Z.leb_gt | apply Z.ltb_lt | apply Z.ltb_ge
        | apply Z.eqb_eq | apply Z.eqb_neq ];
  lia.

Section StaminaFacts.

Import Stamina.

(** The resting time, counted in minutes of stamina: three minutes of rest
    for each minute below 40:00, ten for each minute between 40:00 and
    42:00, and ten minutes before regeneration starts. *)
Lemma resting_time_minutes (hours minutes : Z) :
  resting_time hours minutes =
  60 * (3 * Z.max (40 * 60 - (60 * hours + minutes)) 0
        + 10 * (42 * 60 - Z.max (40 * 60) (60 * hours + minutes))
        + 10).
Proof. unfold resting_time, total_seconds. lia. Qed.

(** A whole number of minutes is shown without loss. *)
Lemma shown_whole_minutes (rest : Z) :
  0 <= rest ->
  60 * shown_hours (60 * rest) + shown_minutes (60 * rest) = rest /\
  0 <= shown_minutes (60 * rest) < 60.
Proof.
  intros Hrest. unfold shown_hours, shown_minutes.
  pose proof (Z.div_mod (60 * rest) 3600 ltac:(lia)) as Hq.
  pose proof (Z.mod_pos_bound (60 * rest) 3600 ltac:(lia)) as Hr.
  set (q := 60 * rest / 3600) in *.
  set (r := (60 * rest) mod 3600) in *.
  assert (Er : r = (rest - 60 * q) * 60) by lia.
  rewrite Er, Z.div_mul by lia. lia.
Qed.

(** The text of the reply is made of the shown hours and minutes. *)
Lemma remaining_shown (rt : Z) :
  remaining rt =
  if shown_hours rt =? 0
  then (Py.str (shown_minutes rt) ++ " minutes")%string
  else (Py.str (shown_hours rt) ++ " hours and " ++ Py.str (shown_minutes rt) ++ " minutes")%string.
Proof. reflexivity. Qed.

Lemma all_read_back_true : More.all_read_back = true.
Proof. vm_compute. reflexivity. Qed.

(** The pattern reads a stamina written as [h:m] back. *)
Lemma written_stamina_read (hours minutes : Z) :
  0 <= hours <= 99 -> 0 <= minutes <= 99 ->
  hour_pattern_match (Py.strip (More.written_stamina hours minutes))
  = Some (hours, minutes).
Proof.
  intros Hh Hm.
  pose proof all_read_back_true as Hall. unfold More.all_read_back in Hall.
  rewrite forallb_forall in Hall.
  specialize (Hall (Z.to_nat hours)).
  rewrite forallb_forall in Hall.
  assert (Hin : forall z, 0 <= z <= 99 -> In (Z.to_nat z) (seq 0 100)).
  { intros z Hz. apply in_seq. lia. }
  specialize (Hall (Hin hours Hh) (Z.to_nat minutes) (Hin minutes Hm)).
  unfold More.reads_back in Hall. rewrite !Z2Nat.id in Hall by lia.
  destruct (hour_pattern_match (Py.strip (More.written_stamina hours minutes)))
    as [[h m]|]; [|discriminate].
  apply andb_true_iff in Hall. destruct Hall as [Eh Em].
  apply Z.eqb_eq in Eh, Em. now subst.
Qed.

(** The command on a text that the pattern reads. *)
Lemma stamina_read (current_stamina : string) (hours minutes : Z) :
  hour_pattern_match (Py.strip current_stamina) = Some (hours, minutes) ->
  stamina current_stamina = stamina_parsed hours minutes.
Proof. unfold stamina. now intros ->. Qed.

(** C5.  For a stamina [c] of [hours]:[minutes] below 42:00, with minutes
    below 60, the command, given that stamina written as [hours:minutes]
    or any other text that its pattern reads as these hours and minutes,
    answers with the resting time
    3 * max(40:00 - c, 0) + 10 * (42:00 - max(40:00, c)) + 10 minutes,
    and the text it shows is that time in whole hours and minutes (the
    time is a whole number of minutes, so rounding it down loses nothing). *)
Theorem stamina_resting_time (hours minutes : Z)
  (Hh : 0 <= hours) (Hm : 0 <= minutes < 60)
  (Hc : 60 * hours + minutes < 42 * 60) :
  let c := 60 * hours + minutes in
  let rest := 3 * Z.max (40 * 60 - c) 0 + 10 * (42 * 60 - Z.max (40 * 60) c) + 10 in
  stamina (More.written_stamina hours minutes)
  = Rest (remaining (60 * rest)) (60 * rest) /\
  (forall current_stamina : string,
     hour_pattern_match (Py.strip current_stamina) = Some (hours, minutes) ->
     stamina current_stamina = Rest (remaining (60 * rest)) (60 * rest)) /\
  60 * shown_hours (60 * rest) + shown_minutes (60 * rest) = rest /\
  0 <= shown_minutes (60 * rest) < 60 /\
  remaining (60 * rest) =
  if shown_hours (60 * rest) =? 0
  then (Py.str (shown_minutes (60 * rest)) ++ " minutes")%string
  else (Py.str (shown_hours (60 * rest)) ++ " hours and "
        ++ Py.str (shown_minutes (60 * rest)) ++ " minutes")%string.
Proof.
  intros c rest.
  assert (Erest : 60 * rest = resting_time hours minutes)
    by (symmetry; apply resting_time_minutes).
  assert (Hparsed : stamina_parsed hours minutes
                    = Rest (remaining (60 * rest)) (60 * rest)).
  { unfold stamina_parsed.
    replace (minutes >=? 60) with false by (symmetry; zbool).
    replace (hours >? 42) with false by (symmetry; zbool).
    replace (hours =? 42) with false by (symmetry; zbool).
    rewrite Erest. reflexivity. }
  split; [|split; [|split; [|split]]].
  - rewrite (stamina_read _ hours minutes); [exact Hparsed|].
    apply written_stamina_read; lia.
  - intros current_stamina Hread.
    rewrite (stamina_read _ hours minutes Hread). exact Hparsed.
  - apply shown_whole_minutes. unfold rest, c. lia.
  - apply shown_whole_minutes. unfold rest, c. lia.
  - apply remaining_shown.
Qed.

Lemma stamina_resting_time_witness :
  stamina "39:0" = Rest "23 hours and 10 minutes" 83400 /\
  stamina " 39:00 " = Rest "23 hours and 10 minutes" 83400.
Proof.
  destruct (stamina_resting_time 39 0) as (Hwritten & Hread & _); [lia | lia | lia |].
  split; [exact Hwritten | apply Hread; reflexivity].
Defined.

(** C6.  Whatever text the pattern of the command reads as
    [hours]:[minutes]: minutes of 60 or more are refused, a stamina above
    42:00 is refused, and at exactly 42:00 the answer is that the stamina
    is full: no resting time is computed, so no settling delay is added.
    Every [hours] and [minutes] from 0 to 99, written as [hours:minutes],
    are read as such. *)
Theorem stamina_invalid_or_full (hours minutes : Z) :
  (forall current_stamina : string,
     hour_pattern_match (Py.strip current_stamina) = Some (hours, minutes) ->
     (60 <= minutes -> stamina current_stamina = BadMinutes) /\
     (total_seconds 42 0 < total_seconds hours minutes ->
        stamina current_stamina = BadMinutes \/
        stamina current_stamina = TooMuch) /\
     (hours = 42 -> minutes = 0 -> stamina current_stamina = FullAlready)) /\
  (0 <= hours <= 99 -> 0 <= minutes <= 99 ->
   hour_pattern_match (Py.strip (More.written_stamina hours minutes))
   = Some (hours, minutes)).
Proof.
  split; [|apply written_stamina_read].
  intros current_stamina Hread.
  rewrite (stamina_read _ hours minutes Hread).
  unfold stamina_parsed, total_seconds.
  split; [|split].
  - intros H. replace (minutes >=? 60) with true by (symmetry; zbool).
    reflexivity.
  - intros H. destruct (minutes >=? 60) eqn:Em; [now left | right].
    rewrite Z.geb_leb in Em. apply Z.leb_gt in Em.
    destruct (hours >? 42) eqn:Eh; [reflexivity|].
    rewrite Z.gtb_ltb in Eh. apply Z.ltb_ge in Eh.
    assert (hours = 42) as -> by lia.
    replace (minutes >? 0) with true by (symmetry; zbool).
    reflexivity.
  - intros -> ->. reflexivity.
Qed.

Lemma stamina_invalid_or_full_witness :
  stamina "12:75" = BadMinutes /\
  (stamina "42:01" = BadMinutes \/ stamina "42:01" = TooMuch) /\
  stamina " 42:00 " = FullAlready /\
  stamina "42:0" = FullAlready.
Proof.
  split; [|split; [|split]].
  - apply (proj1 (proj1 (stamina_invalid_or_full 12 75) "12:75"%string eq_refl)). lia.
  - apply (proj1 (proj2 (proj1 (stamina_invalid_or_full 42 1) "42:01"%string eq_refl))).
    reflexivity.
  - apply (proj2 (proj2 (proj1 (stamina_invalid_or_full 42 0) " 42:00 "%string eq_refl)));
      reflexivity.
  - destruct (stamina_invalid_or_full 42 0) as [Hreplies Hwritten].
    apply (proj2 (proj2 (Hreplies (More.written_stamina 42 0)
                           (Hwritten ltac:(lia) ltac:(lia))))); reflexivity.
Defined.

Example stamina_examples :
  stamina "39:00" = Rest "23 hours and 10 minutes" 83400 /\
  stamina " 41:59 " = Rest "20 minutes" 1200 /\
  stamina "0:00" = Rest "140 hours and 10 minutes" 504600 /\
  stamina "42:00" = FullAlready /\
  stamina "42:01" = TooMuch /\
  stamina "12:75" = BadMinutes /\
  stamina "43:99" = BadMinutes /\
  stamina "full" = BadFormat /\
  stamina "123:45" = BadFormat.
Proof. repeat split. Qed.

End StaminaFacts.


(* ================================================================= *)
(** ** The [stats] command *)

Section StatsFacts.

Import Stats.

Lemma stats_level_calls (env : Env) (char : option Character) (level : Z) (vocation : string) :
  forall c, In c (fst (stats_level env char level vocation)) ->
            c = (level, vocation) /\ 1 <= level <= 1999.
Proof.
  intros c. unfold stats_level.
  destruct (level <=? 0) eqn:Elow; [intros []|].
  destruct (level >=? 2000) eqn:Ehigh; [intros []|].
  apply Z.leb_gt in Elow. rewrite Z.geb_leb in Ehigh. apply Z.leb_gt in Ehigh.
  destruct (get_stats env level vocation) as [sheet|[]]; simpl;
    (intros [<-|[]]; split; [reflexivity | lia]).
Qed.

(** C8.  Whatever the parameters, [get_stats] is only ever called with a
    level from 1 to 1999; and when the parameters give a level, the command
    refuses it below 1 and from 2000 on without calling [get_stats], and
    otherwise calls [get_stats] once, with that very level. *)
Theorem stats_level_limits (env : Env) (params : string) :
  (forall c, In c (fst (stats env params)) -> 1 <= fst c <= 1999) /\
  (forall char level vocation,
     stats_arguments env params = Ok (inr (char, level, vocation)) ->
     (level < 1 -> stats env params = ([], Ok TooLow)) /\
     (2000 <= level -> stats env params = ([], Ok TooHigh)) /\
     (1 <= level <= 1999 -> fst (stats env params) = [(level, vocation)])).
Proof.
  split.
  - intros c. unfold stats.
    destruct (stats_arguments env params) as [[r|[[char level] vocation]]|e];
      try (intros []).
    intros Hc. destruct (stats_level_calls _ _ _ _ _ Hc) as [-> Hl]. exact Hl.
  - intros char level vocation Hargs. unfold stats. rewrite Hargs.
    unfold stats_level. split; [|split]; intros Hl.
    + replace (level <=? 0) with true by (symmetry; zbool). reflexivity.
    + replace (level <=? 0) with false by (symmetry; zbool).
      replace (level >=? 2000) with true by (symmetry; zbool). reflexivity.
    + replace (level <=? 0) with false by (symmetry; zbool).
      replace (level >=? 2000) with false by (symmetry; zbool).
      destruct (get_stats env level vocation) as [sheet|[]]; reflexivity.
Qed.

Lemma stats_level_limits_witness :
  stats Scenario.stats_env "0,knight" = ([], Ok TooLow) /\
  stats Scenario.stats_env "knight,2000" = ([], Ok TooHigh) /\
  fst (stats Scenario.stats_env "1999,knight") = [(1999, "knight"%string)].
Proof.
  split; [|split].
  - apply (proj2 (stats_level_limits Scenario.stats_env "0,knight") None 0 "knight"%string).
    + reflexivity.
    + lia.
  - apply (proj2 (stats_level_limits Scenario.stats_env "knight,2000") None 2000 "knight"%string).
    + reflexivity.
    + lia.
  - apply (proj2 (stats_level_limits Scenario.stats_env "1999,knight") None 1999 "knight"%string).
    + reflexivity.
    + lia.
Defined.

End StatsFacts.


(* ================================================================= *)
(** ** The [share] command *)

Section ShareFacts.

Import Share.

Lemma insert_by_level_In (c x : Character) (l : list Character) :
  In x (insert_by_level c l) <-> x = c \/ In x l.
Proof.
  induction l as [|d rest IH]; simpl.
  - intuition.
  - destruct (level c <=? level d); simpl; [intuition|].
    rewrite IH. intuition.
Qed.

Lemma sorted_by_level_In (x : Character) (l : list Character) :
  In x (sorted_by_level l) <-> In x l.
Proof.
  induction l as [|c rest IH]; simpl; [reflexivity|].
  rewrite insert_by_level_In, IH. intuition.
Qed.

Lemma insert_by_level_sorted (c : Character) (l : list Character) :
  StronglySorted by_level l -> StronglySorted by_level (insert_by_level c l).
Proof.
  induction 1 as [|d rest Hs IH Hd]; simpl.
  - constructor; constructor.
  - destruct (level c <=? level d) eqn:E.
    + apply Z.leb_le in E. constructor.
      * constructor; assumption.
      * constructor; [exact E|].
        rewrite Forall_forall in *. intros x Hx. specialize (Hd x Hx). unfold by_level in *. lia.
    + apply Z.leb_gt in E. constructor; [exact IH|].
      rewrite Forall_forall in *. intros x Hx.
      apply insert_by_level_In in Hx. destruct Hx as [->|Hx]; [unfold by_level; lia | auto].
Qed.

Lemma sorted_by_level_sorted (l : list Character) :
  StronglySorted by_level (sorted_by_level l).
Proof.
  induction l as [|c rest IH]; simpl; [constructor|].
  apply insert_by_level_sorted, IH.
Qed.

Lemma sorted_last_greatest (l : list Character) (d : Character) :
  StronglySorted by_level l ->
  forall x, In x l -> level x <= level (last l d).
Proof.
  induction 1 as [|c rest Hs IH Hc]; intros x Hx; [destruct Hx|].
  destruct rest as [|c' rest'].
  - destruct Hx as [->|[]]. simpl. lia.
  - change (last (c :: c' :: rest') d) with (last (c' :: rest') d).
    destruct Hx as [->|Hx].
    + rewrite Forall_forall in Hc.
      specialize (Hc c' (or_introl eq_refl)). unfold by_level in Hc.
      specialize (IH c' (or_introl eq_refl)). lia.
    + apply IH, Hx.
Qed.

Lemma last_In (l : list Character) (c d : Character) : In (last (c :: l) d) (c :: l).
Proof.
  revert c; induction l as [|c' rest IH]; intros c.
  - left; reflexivity.
  - right. apply IH.
Qed.

Lemma fetch_all_found (env : Env) (chars : list string) (found : list Character) :
  Forall2 (fun char c => get_character env char = Ok (Some c)) chars found ->
  forall char_data, fetch_all env chars char_data = Ok (inr (char_data ++ found)).
Proof.
  induction 1 as [|char c chars found Hc _ IH]; intros char_data; simpl.
  - now rewrite List.app_nil_r.
  - rewrite Hc, IH, <- List.app_assoc. reflexivity.
Qed.

(** The sorted list starts with a character of the lowest level and ends
    with one of the highest. *)
Lemma joint_extremes (env : Env) (nchars : nat) (char_data : list Character) :
  char_data <> [] ->
  exists lowest highest,
    In lowest char_data /\ In highest char_data /\
    (forall c, In c char_data -> level lowest <= level c <= level highest) /\
    let low := fst (get_share_range env (level highest)) in
    let high := snd (get_share_range env (level lowest)) in
    joint env nchars char_data =
    Ok (if low >? level lowest
        then Needs (name lowest) (level lowest) (low - level lowest)
                   (low - level lowest >? 1) (name highest) (level highest)
        else Joint (2 <? nchars)%nat (name lowest) (level lowest)
                   (name highest) (level highest) low high).
Proof.
  intros Hne. unfold joint.
  pose proof (sorted_by_level_sorted char_data) as Hs.
  pose proof (fun x => sorted_by_level_In x char_data) as Hin.
  destruct (sorted_by_level char_data) as [|lowest rest] eqn:E.
  - destruct char_data as [|c l]; [now elim Hne|].
    exfalso. apply (proj2 (Hin c)). left; reflexivity.
  - exists lowest, (last (lowest :: rest) lowest).
    split; [apply Hin; left; reflexivity|].
    split; [apply Hin, last_In|].
    split.
    + intros c Hc. apply Hin in Hc. split.
      * inversion Hs as [|? ? _ Hall]; subst.
        destruct Hc as [->|Hc]; [lia|].
        rewrite Forall_forall in Hall. apply (Hall c Hc).
      * apply sorted_last_greatest; assumption.
    + cbv zeta.
      destruct (fst (get_share_range env (level (last (lowest :: rest) lowest)))
                >? level lowest); reflexivity.
Qed.

(** C7.  For two to five names that are not all the same and are all
    found, the command takes the low bound of the band of a character of
    the highest level and the high bound of the band of a character of the
    lowest level.  When that low bound is above the lowest level it
    answers that the lowest character needs (low bound - lowest level) more
    levels; otherwise it answers with the range (low, high), which, the
    bands being monotone in the level, is the intersection of the bands of
    all the characters. *)
Theorem share_joint_range (env : Env) (param : string) (char_data : list Character)
  (Hparam : Py.int param = None)
  (Hlen : (2 <= List.length (Py.split_comma param) <= 5)%nat)
  (Hdistinct :
     forallb (fun x => String.eqb (Py.lower x)
                         (Py.lower (hd EmptyString (Py.split_comma param))))
             (Py.split_comma param) = false)
  (Hfound :
     Forall2 (fun char c => get_character env char = Ok (Some c))
             (Py.split_comma param) char_data) :
  exists lowest highest,
    In lowest char_data /\ In highest char_data /\
    (forall c, In c char_data -> level lowest <= level c <= level highest) /\
    let low := fst (get_share_range env (level highest)) in
    let high := snd (get_share_range env (level lowest)) in
    share env param =
    Ok (if low >? level lowest
        then Needs (name lowest) (level lowest) (low - level lowest)
                   (low - level lowest >? 1) (name highest) (level highest)
        else Joint (2 <? List.length (Py.split_comma param))%nat
                   (name lowest) (level lowest)
                   (name highest) (level highest) low high) /\
    (monotone env ->
     forall x, (forall c, In c char_data -> in_band env (level c) x) <-> low <= x <= high).
Proof.
  unfold share. rewrite Hparam.
  set (chars := Py.split_comma param) in *.
  assert (Hne : char_data <> []).
  { intros ->. inversion Hfound as [E|]; subst. rewrite <- E in Hlen. simpl in Hlen. lia. }
  destruct (joint_extremes env (List.length chars) char_data Hne)
    as (lowest & highest & Hlo & Hhi & Hext & Hjoint).
  exists lowest, highest. split; [exact Hlo|]. split; [exact Hhi|]. split; [exact Hext|].
  cbv zeta in *. split.
  - unfold share_chars.
    replace (5 <? List.length chars)%nat with false
      by (symmetry; apply Nat.ltb_ge; lia).
    destruct chars as [|first [|second more]] eqn:Echars;
      [simpl in Hlen; lia | simpl in Hlen; lia |].
    simpl hd in Hdistinct. rewrite Hdistinct.
    rewrite (fetch_all_found env _ _ Hfound []). simpl app.
    exact Hjoint.
  - intros Hmono x. unfold in_band. split.
    + intros Hall. pose proof (Hall _ Hlo) as H1. pose proof (Hall _ Hhi) as H2. lia.
    + intros Hx c Hc. destruct (Hext c Hc) as [H1 H2].
      destruct (Hmono _ _ H1) as [_ Ha]. destruct (Hmono _ _ H2) as [Hb _]. lia.
Qed.

Lemma share_env_monotone : monotone Scenario.share_env.
Proof.
  intros a b Hab. unfold Scenario.share_env. cbn [get_share_range fst snd]. split.
  - apply Z.div_le_mono; lia.
  - apply Z.div_le_mono; lia.
Qed.

Lemma share_joint_range_witness :
  share Scenario.share_env "Alice,Bob" =
    Ok (Joint false "Alice" 100 "Bob" 140 93 150) /\
  share Scenario.share_env "Bob,Carl" =
    Ok (Needs "Carl" 50 43 true "Bob" 140) /\
  (forall x, in_band Scenario.share_env 100 x /\ in_band Scenario.share_env 140 x
             <-> 93 <= x <= 150).
Proof.
  destruct (share_joint_range Scenario.share_env "Alice,Bob"
              [Scenario.alice; Scenario.bob])
    as (lowest & highest & _ & _ & _ & _ & Hband).
  - reflexivity.
  - simpl. lia.
  - reflexivity.
  - repeat constructor.
  - destruct (share_joint_range Scenario.share_env "Bob,Carl"
                [Scenario.bob; Scenario.carl])
      as (lowest' & highest' & _ & _ & _ & Hneeds & _).
    + reflexivity.
    + simpl. lia.
    + reflexivity.
    + repeat constructor.
    + split; [reflexivity|]. split; [reflexivity|].
      clear Hneeds Hband. intros x. unfold in_band. simpl.
      change (200 / 3) with 66. change (300 / 2) with 150.
      change (280 / 3) with 93. change (420 / 2) with 210. lia.
Defined.

End ShareFacts.


(* ================================================================= *)
(** ** The [scan_news] task: the emission of a batch *)

Section DeliveryFacts.

Import News.

Lemma announced_app (t1 t2 : list event) :
  announced (t1 ++ t2) = announced t1 ++ announced t2.
Proof. apply flat_map_app. Qed.

Lemma requested_app (t1 t2 : list event) :
  requested (t1 ++ t2) = requested t1 ++ requested t2.
Proof. apply flat_map_app. Qed.

Lemma deliveries_app (t1 t2 : list event) :
  deliveries (t1 ++ t2) = deliveries t1 ++ deliveries t2.
Proof. apply flat_map_app. Qed.

Lemma written_app (t1 t2 : list event) :
  written (t1 ++ t2) = written t1 ++ written t2.
Proof. apply flat_map_app. Qed.

Lemma warnings_app (t1 t2 : list event) :
  warnings (t1 ++ t2) = warnings t1 ++ warnings t2.
Proof. apply flat_map_app. Qed.

(** A delivery that fails softly is followed by its warning, and the
    loop over the guilds goes on. *)
Lemma deliver_softly (env : Env) (g : Guild) (a : Article) (st : Store) :
  deliveries_fail_softly env ->
  deliver env g a st = (ESend g a :: warning_of env (g, a), st, Ok tt).
Proof.
  intros Hsoft. unfold deliver, bind, emit, ret, warning_of. simpl.
  destruct (Hsoft g a) as [H|[H|H]]; rewrite H; reflexivity.
Qed.

Lemma warning_of_projections (env : Env) (d : Guild * Article) :
  warnings (warning_of env d) = warning_of env d /\
  deliveries (warning_of env d) = [] /\
  announced (warning_of env d) = [] /\
  requested (warning_of env d) = [] /\
  written (warning_of env d) = [].
Proof.
  unfold warning_of. destruct (send env (fst d) (snd d)) as [[]|]; repeat split.
Qed.

Lemma announce_to_softly (env : Env) (a : Article) (gs : list Guild) (st : Store) :
  deliveries_fail_softly env ->
  exists t,
    announce_to env a gs st = (t, st, Ok tt) /\
    emission env t []
      (map (fun g => (g, a)) (filter (fun g => negb (news_channel env g =? 0)) gs)).
Proof.
  intros Hsoft. induction gs as [|g rest IH]; simpl.
  - exists []. split; [reflexivity | constructor; reflexivity].
  - destruct IH as (t & Ht & Hem).
    destruct (news_channel env g =? 0); simpl.
    + exists t. split; assumption.
    + exists ((ESend g a :: warning_of env (g, a)) ++ t).
      split.
      * unfold bind. rewrite (deliver_softly env g a st Hsoft), Ht. reflexivity.
      * destruct Hem as [Ha Hd Hw Hr Hwr].
        destruct (warning_of_projections env (g, a)) as (Pw & Pd & Pa & Pr & Pwr).
        constructor.
        -- rewrite announced_app, Ha.
           change (announced (ESend g a :: warning_of env (g, a)))
             with (announced (warning_of env (g, a))). now rewrite Pa.
        -- rewrite deliveries_app, Hd.
           change (deliveries (ESend g a :: warning_of env (g, a)))
             with ((g, a) :: deliveries (warning_of env (g, a))). now rewrite Pd.
        -- rewrite warnings_app, Hw.
           change (warnings (ESend g a :: warning_of env (g, a)))
             with (warnings (warning_of env (g, a))). now rewrite Pw.
        -- rewrite requested_app, Hr.
           change (requested (ESend g a :: warning_of env (g, a)))
             with (requested (warning_of env (g, a))). now rewrite Pr.
        -- rewrite written_app, Hwr.
           change (written (ESend g a :: warning_of env (g, a)))
             with (written (warning_of env (g, a))). now rewrite Pwr.
Qed.

Lemma announce_all_softly (env : Env) (batch : list Article) (st : Store) :
  deliveries_fail_softly env ->
  exists t,
    announce_all env batch st = (t, st, Ok tt) /\
    emission env t batch (due env batch).
Proof.
  intros Hsoft. induction batch as [|a rest IH]; simpl.
  - exists []. split; [reflexivity | constructor; reflexivity].
  - destruct IH as (t & Ht & [Ha Hd Hw Hr Hwr]).
    destruct (announce_to_softly env a (guilds env) st Hsoft) as (ta & Hta & [Aa Ad Aw Ar Awr]).
    exists (EAnnounce a :: ta ++ t). split.
    + unfold bind, emit. rewrite Hta, Ht. reflexivity.
    + unfold due in *. simpl flat_map. fold (opted_in env) in *.
      constructor.
      * change (announced (EAnnounce a :: ta ++ t)) with (a :: announced (ta ++ t)).
        now rewrite announced_app, Aa, Ha.
      * change (deliveries (EAnnounce a :: ta ++ t)) with (deliveries (ta ++ t)).
        now rewrite deliveries_app, Ad, Hd.
      * change (warnings (EAnnounce a :: ta ++ t)) with (warnings (ta ++ t)).
        now rewrite warnings_app, Aw, Hw, flat_map_app.
      * change (requested (EAnnounce a :: ta ++ t)) with (requested (ta ++ t)).
        now rewrite requested_app, Ar, Hr.
      * change (written (EAnnounce a :: ta ++ t)) with (written (ta ++ t)).
        now rewrite written_app, Awr, Hwr.
Qed.

(** C9.  When deliveries fail only with [Forbidden] or [HTTPException],
    the emission of a batch runs to its end: every article of the batch is
    announced, in order; a delivery is attempted for every article and
    every guild with a news channel, whatever became of the deliveries
    before it; and each failed delivery leaves its warning in the log. *)
Theorem delivery_failures_skipped (env : Env) (batch : list Article) (st : Store)
  (Hsoft : deliveries_fail_softly env) :
  exists t,
    announce_all env batch st = (t, st, Ok tt) /\
    announced t = batch /\
    deliveries t = due env batch /\
    warnings t = flat_map (warning_of env) (due env batch) /\
    (forall a g, In a batch -> In g (guilds env) -> news_channel env g <> 0 ->
                 In (g, a) (deliveries t)).
Proof.
  destruct (announce_all_softly env batch st Hsoft) as (t & Ht & [Ha Hd Hw _ _]).
  exists t. repeat (split; [assumption|]).
  intros a g Ha' Hg Hch. rewrite Hd. unfold due.
  apply in_flat_map. exists a. split; [exact Ha'|].
  apply (in_map (fun g => (g, a))). unfold opted_in. apply filter_In. split; [exact Hg|].
  apply negb_true_iff, Z.eqb_neq, Hch.
Qed.

Lemma delivery_failures_skipped_witness :
  exists t,
    announce_all Scenario.week_env [Scenario.a5; Scenario.a6] None = (t, None, Ok tt) /\
    deliveries t = [(1, Scenario.a5); (3, Scenario.a5); (1, Scenario.a6); (3, Scenario.a6)] /\
    warnings t = [EWarnPermissions; EWarnPermissions].
Proof.
  destruct (delivery_failures_skipped Scenario.week_env [Scenario.a5; Scenario.a6] None)
    as (t & Hrun & _ & Hdel & Hwarn & _).
  - intros g a. simpl. destruct (g =? 1); [right; left | left]; reflexivity.
  - exists t. split; [exact Hrun|]. split; [exact Hdel | exact Hwarn].
Defined.

End DeliveryFacts.


(* ================================================================= *)
(** ** The [scan_news] task: one pass *)

Section PassFacts.

Import News.

Lemma sleep_run (env : Env) (secs : Z) (st : Store) :
  sleep env secs st =
  ([ESleep secs], st, if sleep_cancelled env secs then Raise CancelledError else Ok tt).
Proof.
  unfold sleep, bind, emit. destruct (sleep_cancelled env secs); reflexivity.
Qed.

Lemma read_last_id_run (st : Store) :
  exists log,
    read_last_id st = (log, st, Ok (stored_marker st)) /\
    (log = [] \/ log = [ELogNoMarker]).
Proof.
  unfold read_last_id, stored_marker. destruct st as [text|].
  - destruct (Py.int text); eexists; split; eauto.
  - eexists; split; eauto.
Qed.

Lemma fetch_article_run (env : Env) (i : Z) (st : Store) :
  fetch_article env i st = ([EFetchArticle i], st, get_news_article env i).
Proof.
  unfold fetch_article, bind, emit, lift. reflexivity.
Qed.

(** The walk when every request is answered: the items in front of the
    first stale or already announced one are requested, newest first, and
    the articles obtained come out oldest first. *)
Lemma collect_answered (env : Env) (last_id : Z) (recent_news : list NewsItem) :
  articles_answer env ->
  forall new_articles st,
    collect env last_id recent_news new_articles st =
    (map EFetchArticle (map id (walked env last_id recent_news)), st,
     Ok (rev (flat_map (obtained env) (walked env last_id recent_news)) ++ new_articles)).
Proof.
  intros Hans. induction recent_news as [|article rest IH]; intros acc st.
  - reflexivity.
  - simpl. unfold fresh.
    destruct (id article =? last_id); [reflexivity|].
    destruct (today env - date article >? 7); [reflexivity|].
    simpl. unfold bind. rewrite fetch_article_run.
    unfold obtained at 1.
    destruct (Hans (id article)) as [[a|] Ha]; rewrite Ha, IH; simpl.
    + now rewrite <- List.app_assoc.
    + reflexivity.
Qed.

(** The walk in general: it leaves the store alone, requests only walked
    items, and what it collects was obtained for a walked item. *)
Lemma collect_facts (env : Env) (last_id : Z) (recent_news : list NewsItem) :
  forall new_articles st,
  exists t r,
    collect env last_id recent_news new_articles st = (t, st, r) /\
    announced t = [] /\ written t = [] /\
    incl (requested t) (map id (walked env last_id recent_news)) /\
    (forall e, r = Raise e -> exists i, get_news_article env i = Raise e) /\
    (forall batch, r = Ok batch ->
       forall a, In a batch ->
         In a new_articles \/
         exists article, In article (walked env last_id recent_news) /\
                         get_news_article env (id article) = Ok (Some a)).
Proof.
  induction recent_news as [|article rest IH]; intros acc st.
  - exists [], (Ok acc). simpl. repeat split; try easy.
    intros batch [= <-] a Ha. now left.
  - simpl. unfold fresh.
    destruct (id article =? last_id);
      [exists [], (Ok acc); simpl; repeat split; try easy;
       intros batch [= <-] a Ha; now left|].
    destruct (today env - date article >? 7);
      [exists [], (Ok acc); simpl; repeat split; try easy;
       intros batch [= <-] a Ha; now left|].
    simpl. unfold bind. rewrite fetch_article_run.
    destruct (get_news_article env (id article)) as [[a0|]|e] eqn:Ha0.
    + destruct (IH (a0 :: acc) st) as (t & r & Hrun & Hann & Hwr & Hreq & Hraise & Hbatch).
      rewrite Hrun. exists (EFetchArticle (id article) :: t), r.
      repeat split; try assumption.
      * intros i [<-|Hi]; [now left | right; apply Hreq, Hi].
      * intros batch Hr a Ha. destruct (Hbatch batch Hr a Ha) as [[<-|Hacc]|(it & Hit & Hget)].
        -- right. exists article. split; [now left | exact Ha0].
        -- now left.
        -- right. exists it. split; [now right | exact Hget].
    + destruct (IH acc st) as (t & r & Hrun & Hann & Hwr & Hreq & Hraise & Hbatch).
      rewrite Hrun. exists (EFetchArticle (id article) :: t), r.
      repeat split; try assumption.
      * intros i [<-|Hi]; [now left | right; apply Hreq, Hi].
      * intros batch Hr a Ha. destruct (Hbatch batch Hr a Ha) as [Hacc|(it & Hit & Hget)].
        -- now left.
        -- right. exists it. split; [now right | exact Hget].
    + exists [EFetchArticle (id article)], (Raise e).
      repeat split; try easy.
      * intros i [<-|[]]. now left.
      * intros e' [= <-]. now exists (id article).
Qed.

Lemma deliver_facts (env : Env) (g : Guild) (a : Article) (st : Store) :
  exists t r,
    deliver env g a st = (t, st, r) /\
    announced t = [] /\ written t = [] /\ requested t = [] /\
    (forall e, r = Raise e -> send env g a = Some e).
Proof.
  unfold deliver, bind, emit.
  destruct (send env g a) as [[]|]; simpl; eexists; eexists;
    (split; [reflexivity|]); repeat split; try easy; intros e' [= <-]; reflexivity.
Qed.

Lemma announce_to_facts (env : Env) (a : Article) (gs : list Guild) (st : Store) :
  exists t r,
    announce_to env a gs st = (t, st, r) /\
    announced t = [] /\ written t = [] /\ requested t = [] /\
    (forall e, r = Raise e -> exists g a', send env g a' = Some e).
Proof.
  induction gs as [|g rest IH]; simpl.
  - exists [], (Ok tt). repeat split; easy.
  - destruct IH as (t & r & Hrun & Hann & Hwr & Hreq & Hraise).
    destruct (news_channel env g =? 0); [exists t, r; repeat split; assumption|].
    unfold bind.
    destruct (deliver_facts env g a st) as (td & rd & Hd & Dann & Dwr & Dreq & Draise).
    rewrite Hd. destruct rd as [[]|e].
    + rewrite Hrun. exists (td ++ t), r. split; [reflexivity|].
      rewrite announced_app, written_app, requested_app, Dann, Dwr, Dreq, Hann, Hwr, Hreq.
      repeat split; assumption.
    + exists td, (Raise e). repeat split; try assumption.
      intros e' [= <-]. exists g, a. now apply Draise.
Qed.

Lemma announce_all_facts (env : Env) (batch : list Article) (st : Store) :
  exists t r,
    announce_all env batch st = (t, st, r) /\
    incl (announced t) batch /\ written t = [] /\ requested t = [] /\
    (forall e, r = Raise e -> exists g a, send env g a = Some e).
Proof.
  induction batch as [|a rest IH]; simpl.
  - exists [], (Ok tt). repeat split; easy.
  - destruct IH as (t & r & Hrun & Hann & Hwr & Hreq & Hraise).
    destruct (announce_to_facts env a (guilds env) st)
      as (ta & ra & Ha & Aann & Awr & Areq & Araise).
    unfold bind, emit. rewrite Ha. destruct ra as [[]|e].
    + rewrite Hrun. exists (EAnnounce a :: ta ++ t), r. split; [reflexivity|].
      change (announced (EAnnounce a :: ta ++ t)) with (a :: announced (ta ++ t)).
      change (written (EAnnounce a :: ta ++ t)) with (written (ta ++ t)).
      change (requested (EAnnounce a :: ta ++ t)) with (requested (ta ++ t)).
      rewrite announced_app, written_app, requested_app, Aann, Awr, Areq, Hwr, Hreq.
      repeat split; try assumption.
      simpl. intros x [<-|Hx]; [now left | right; apply Hann, Hx].
    + exists (EAnnounce a :: ta), (Raise e). split; [reflexivity|].
      change (announced (EAnnounce a :: ta)) with (a :: announced ta).
      change (written (EAnnounce a :: ta)) with (written ta).
      change (requested (EAnnounce a :: ta)) with (requested ta).
      rewrite Aann, Awr, Areq. repeat split; try assumption.
      intros x [<-|[]]. now left.
Qed.

Lemma scan_news_try_facts (env : Env) (st : Store) :
  exists t st1 r,
    scan_news_try env st = (t, st1, r) /\
    store_kept_or_newest env st st1 /\
    announced_from_walk env st t /\
    (uncancelled env -> r <> Raise CancelledError).
Proof.
  unfold scan_news_try, bind, lift, store_kept_or_newest, announced_from_walk.
  destruct (get_recent_news env) as [[[|first rest]|]|e] eqn:Hfeed.
  - (* an empty feed *)
    exists [], st, (Raise IndexError). repeat split; try easy. now left.
  - (* a feed *)
    destruct (read_last_id_run st) as (log & Hread & Hlog).
    rewrite Hread. cbv beta iota.
    assert (Alog : announced log = []) by (destruct Hlog as [->| ->]; reflexivity).
    destruct (stored_marker st =? 0) eqn:Hzero.
    + (* the marker is seeded *)
      unfold write_marker. rewrite sleep_run. cbv beta iota. cbn [app].
      eexists; eexists; eexists. split; [reflexivity|].
      split; [right; exists first, rest; split; reflexivity|].
      split.
      * intros a Ha. rewrite announced_app, Alog in Ha. destruct Ha.
      * intros (_ & _ & _ & Hs). rewrite Hs. discriminate.
    + apply Z.eqb_neq in Hzero.
      destruct (collect_facts env (stored_marker st) (first :: rest) [] st)
        as (tc & rc & Hc & Cann & Cwr & Creq & Craise & Cbatch).
      rewrite Hc. cbv beta iota. destruct rc as [batch|e].
      * unfold write_marker.
        assert (Hfrom : forall a, In a batch ->
                  exists recent_news article,
                    Ok (Some (first :: rest)) = Ok (Some recent_news) /\
                    stored_marker st <> 0 /\
                    In article (walked env (stored_marker st) recent_news) /\
                    get_news_article env (id article) = Ok (Some a)).
        { intros a Ha. destruct (Cbatch batch eq_refl a Ha) as [[]|(it & Hit & Hget)].
          exists (first :: rest), it. repeat split; assumption. }
        destruct batch as [|b batch'].
        -- rewrite sleep_run. cbv beta iota. cbn [app].
           eexists; eexists; eexists. split; [reflexivity|].
           split; [right; exists first, rest; split; reflexivity|].
           split.
           ++ intros a Ha. rewrite !announced_app, Alog, Cann in Ha. destruct Ha.
           ++ intros (_ & _ & _ & Hs). rewrite Hs. discriminate.
        -- destruct (announce_all_facts env (b :: batch') (Some (Py.str (id first))))
             as (ta & ra & Ha & Aann & Awr & Areq & Araise).
           cbv beta iota. rewrite Ha. destruct ra as [[]|e].
           ++ rewrite sleep_run. cbv beta iota. cbn [app].
              eexists; eexists; eexists. split; [reflexivity|].
              split; [right; exists first, rest; split; reflexivity|].
              split.
              ** intros a Hin.
                 change (EWriteMarker (Py.str (id first)) :: ta ++ [ESleep (60 * 60 * 2)])
                   with ([EWriteMarker (Py.str (id first))] ++ ta ++ [ESleep (60 * 60 * 2)])
                   in Hin.
                 rewrite !announced_app, Alog, Cann in Hin.
                 simpl in Hin. rewrite List.app_nil_r in Hin.
                 apply Hfrom, Aann, Hin.
              ** intros (_ & _ & _ & Hs). rewrite Hs. discriminate.
           ++ cbv beta iota. cbn [app].
              eexists; eexists; eexists. split; [reflexivity|].
              split; [right; exists first, rest; split; reflexivity|].
              split.
              ** intros a Hin.
                 change (EWriteMarker (Py.str (id first)) :: ta)
                   with ([EWriteMarker (Py.str (id first))] ++ ta) in Hin.
                 rewrite !announced_app, Alog, Cann in Hin.
                 simpl in Hin. apply Hfrom, Aann, Hin.
              ** intros (_ & _ & Hsend & _) [= ->].
                 destruct (Araise _ eq_refl) as (g & a & Hga). now apply (Hsend g a).
      * cbn [app]. eexists; eexists; eexists. split; [reflexivity|].
        split; [now left|].
        split.
        -- intros a Ha. rewrite announced_app, Alog, Cann in Ha. destruct Ha.
        -- intros (_ & Hart & _ & _) [= ->].
           destruct (Craise _ eq_refl) as (i & Hi). now apply (Hart i).
  - (* no feed *)
    rewrite sleep_run. cbn [app].
    eexists; eexists; eexists. split; [reflexivity|].
    split; [now left|]. split; [intros a []|].
    intros (_ & _ & _ & Hs). rewrite Hs. discriminate.
  - exists [], st, (Raise e). split; [reflexivity|].
    split; [now left|]. split; [intros a []|].
    intros (Hnews & _) [= ->]. now apply Hnews.
Qed.

(** What the three handlers add to the trace of the [try] body. *)
Lemma iteration_extends_try (env : Env) (st st1 : Store) (t : list event) (r : result unit) :
  scan_news_try env st = (t, st1, r) ->
  exists t2 o,
    scan_news_iteration env st = (t ++ t2, st1, o) /\
    announced t2 = [] /\ written t2 = [] /\ deliveries t2 = [] /\ requested t2 = [] /\
    match r with
    | Ok _ => t2 = [] /\ o = Next
    | Raise NetworkError =>
        t2 = [ESleep 30] /\
        o = (if sleep_cancelled env 30 then Escaped CancelledError else Next)
    | Raise CancelledError => t2 = [] /\ o = Break
    | Raise _ => t2 = [ELogException] /\ o = Next
    end.
Proof.
  intros Htry. unfold scan_news_iteration. rewrite Htry.
  destruct r as [u|[]];
    try (exists [ELogException], Next; repeat split; reflexivity).
  - exists [], Next. rewrite List.app_nil_r. repeat split; reflexivity.
  - rewrite sleep_run.
    exists [ESleep 30], (if sleep_cancelled env 30 then Escaped CancelledError else Next).
    destruct (sleep_cancelled env 30); repeat split; reflexivity.
  - exists [], Break. rewrite List.app_nil_r. repeat split; reflexivity.
Qed.

Lemma scan_news_iteration_facts (env : Env) (st : Store) :
  exists t st1 o,
    scan_news_iteration env st = (t, st1, o) /\
    store_kept_or_newest env st st1 /\
    announced_from_walk env st t /\
    (uncancelled env -> o = Next).
Proof.
  destruct (scan_news_try_facts env st) as (t & st1 & r & Htry & Hstore & Hann & Hcancel).
  destruct (iteration_extends_try env st st1 t r Htry)
    as (t2 & o & Hit & A2 & _ & _ & _ & Hr).
  exists (t ++ t2), st1, o. split; [exact Hit|]. split; [exact Hstore|]. split.
  - intros a Ha. rewrite announced_app, A2, List.app_nil_r in Ha. now apply Hann.
  - intros Hun. specialize (Hcancel Hun).
    destruct r as [u|[]]; try (now destruct Hr); try (now elim Hcancel).
    destruct Hr as [_ ->]. destruct Hun as (_ & _ & _ & Hs). now rewrite Hs.
Qed.

End PassFacts.


(* ================================================================= *)
(** ** The [scan_news] task: the marker *)

Section MarkerFacts.

Import News.

(** The [try] body when the marker read is 0: lines 1927-1931. *)
Lemma seeded_try (env : Env) (st : Store) (first : NewsItem) (rest : list NewsItem) :
  get_recent_news env = Ok (Some (first :: rest)) ->
  stored_marker st = 0 ->
  exists log,
    scan_news_try env st =
    (log ++ [EWriteMarker (Py.str (id first)); ESleep (60 * 60 * 2)],
     Some (Py.str (id first)),
     if sleep_cancelled env (60 * 60 * 2) then Raise CancelledError else Ok tt) /\
    (log = [] \/ log = [ELogNoMarker]).
Proof.
  intros Hfeed Hzero.
  destruct (read_last_id_run st) as (log & Hread & Hlog).
  exists log. split; [|exact Hlog].
  unfold scan_news_try, bind, lift. rewrite Hfeed. cbv beta iota.
  rewrite Hread. cbv beta iota. rewrite Hzero.
  change (0 =? 0) with true. cbv beta iota.
  unfold write_marker. rewrite sleep_run. reflexivity.
Qed.

(** C2.  When the marker file is missing, is not an integer or holds 0,
    a pass that gets a feed with a newest item writes the id of that item
    as the marker and does nothing else but sleep: nothing is requested,
    announced or delivered, and the pass ends in the next pass of the loop,
    or in the [break] of a cancelled task. *)
Theorem unusable_marker_is_seeded (env : Env) (st : Store)
  (first : NewsItem) (rest : list NewsItem)
  (Hfeed : get_recent_news env = Ok (Some (first :: rest)))
  (Hmarker : st = None \/
             exists text, st = Some text /\
                          (Py.int text = None \/ Py.int text = Some 0)) :
  exists log,
    scan_news_iteration env st =
    (log ++ [EWriteMarker (Py.str (id first)); ESleep (60 * 60 * 2)],
     Some (Py.str (id first)),
     if sleep_cancelled env (60 * 60 * 2) then Break else Next) /\
    (log = [] \/ log = [ELogNoMarker]) /\
    announced (log ++ [EWriteMarker (Py.str (id first)); ESleep (60 * 60 * 2)]) = [] /\
    deliveries (log ++ [EWriteMarker (Py.str (id first)); ESleep (60 * 60 * 2)]) = [] /\
    requested (log ++ [EWriteMarker (Py.str (id first)); ESleep (60 * 60 * 2)]) = [].
Proof.
  assert (Hzero : stored_marker st = 0).
  { destruct Hmarker as [->|(text & -> & [H|H])]; simpl; try rewrite H; reflexivity. }
  destruct (seeded_try env st first rest Hfeed Hzero) as (log & Htry & Hlog).
  exists log.
  split; [|split; [exact Hlog|]].
  - unfold scan_news_iteration. rewrite Htry.
    destruct (sleep_cancelled env (60 * 60 * 2)); reflexivity.
  - destruct Hlog as [->| ->]; repeat split; reflexivity.
Qed.

Lemma unusable_marker_is_seeded_witness :
  scan_news_iteration Scenario.week_env (Some "last"%string) =
  ([ELogNoMarker; EWriteMarker "6"; ESleep 7200], Some "6"%string, Next) /\
  scan_news_iteration Scenario.week_env (Some (String (ascii_of_nat 31) "3")) =
  ([ELogNoMarker; EWriteMarker "6"; ESleep 7200], Some "6"%string, Next).
Proof.
  split.
  - destruct (unusable_marker_is_seeded Scenario.week_env (Some "last"%string)
                {| id := 6; date := Scenario.day - 1 |} (tl Scenario.week_feed))
      as (log & Hrun & [->| ->] & _).
    + reflexivity.
    + right. exists "last"%string. split; [reflexivity | left; reflexivity].
    + reflexivity.
    + exact Hrun.
  - destruct (unusable_marker_is_seeded Scenario.week_env
                (Some (String (ascii_of_nat 31) "3"))
                {| id := 6; date := Scenario.day - 1 |} (tl Scenario.week_feed))
      as (log & Hrun & [->| ->] & _).
    + reflexivity.
    + right. exists (String (ascii_of_nat 31) "3"). split; [reflexivity | left; reflexivity].
    + reflexivity.
    + exact Hrun.
Defined.

(** The [try] body past the seeding path, when every request for an
    article is answered: the walk, the write, then the emission. *)
Lemma scan_news_try_answered (env : Env) (st : Store)
  (first : NewsItem) (rest : list NewsItem) :
  get_recent_news env = Ok (Some (first :: rest)) ->
  stored_marker st <> 0 ->
  articles_answer env ->
  exists te r,
    scan_news_try env st =
    (map EFetchArticle (map id (walked env (stored_marker st) (first :: rest)))
     ++ EWriteMarker (Py.str (id first)) :: te,
     Some (Py.str (id first)), r) /\
    written te = [] /\ requested te = [] /\
    incl (announced te)
         (rev (flat_map (obtained env) (walked env (stored_marker st) (first :: rest)))) /\
    (deliveries_fail_softly env ->
     announced te = rev (flat_map (obtained env) (walked env (stored_marker st) (first :: rest)))).
Proof.
  intros Hfeed Hnz Hans.
  destruct (read_last_id_run st) as (log & Hread & Hlog).
  assert (Elog : log = []).
  { destruct Hlog as [->|Hl]; [reflexivity|].
    unfold read_last_id, stored_marker in *.
    destruct st as [text|]; [destruct (Py.int text)|]; try (now elim Hnz).
    now injection Hread as <-. }
  subst log.
  set (batch := rev (flat_map (obtained env) (walked env (stored_marker st) (first :: rest)))).
  assert (Hshape : forall te r,
            (match batch with
             | [] => sleep env (60 * 60 * 2)
             | _ => bind (announce_all env batch) (fun _ => sleep env (60 * 60 * 2))
             end) (Some (Py.str (id first))) = (te, Some (Py.str (id first)), r) ->
            scan_news_try env st =
            (map EFetchArticle (map id (walked env (stored_marker st) (first :: rest)))
             ++ EWriteMarker (Py.str (id first)) :: te,
             Some (Py.str (id first)), r)).
  { intros te r Hte.
    unfold scan_news_try, bind, lift. rewrite Hfeed. cbv beta iota.
    rewrite Hread. cbv beta iota.
    replace (stored_marker st =? 0) with false by (symmetry; now apply Z.eqb_neq).
    rewrite (collect_answered env (stored_marker st) (first :: rest) Hans [] st).
    cbv beta iota. rewrite List.app_nil_r. fold batch.
    unfold write_marker. unfold bind in Hte. rewrite Hte. reflexivity. }
  destruct batch as [|b batch'] eqn:Ebatch.
  - exists [ESleep (60 * 60 * 2)].
    exists (if sleep_cancelled env (60 * 60 * 2) then Raise CancelledError else Ok tt).
    split; [apply Hshape, sleep_run|].
    repeat split; try easy.
  - destruct (announce_all_facts env (b :: batch') (Some (Py.str (id first))))
      as (ta & ra & Ha & Aann & Awr & Areq & _).
    destruct ra as [[]|e].
    + exists (ta ++ [ESleep (60 * 60 * 2)]).
      exists (if sleep_cancelled env (60 * 60 * 2) then Raise CancelledError else Ok tt).
      split; [apply Hshape; unfold bind; rewrite Ha, sleep_run; reflexivity|].
      rewrite written_app, requested_app, announced_app, Awr, Areq.
      change (announced [ESleep (60 * 60 * 2)]) with (@nil Article).
      rewrite !List.app_nil_r.
      repeat split; try assumption.
      intros Hsoft.
      destruct (announce_all_softly env (b :: batch') (Some (Py.str (id first))) Hsoft)
        as (ts & Hs & [Sann _ _ _ _]).
      rewrite Ha in Hs. injection Hs as <-. exact Sann.
    + exists ta, (Raise e).
      split; [apply Hshape; unfold bind; rewrite Ha; reflexivity|].
      repeat split; try assumption.
      intros Hsoft.
      destruct (announce_all_softly env (b :: batch') (Some (Py.str (id first))) Hsoft)
        as (ts & Hs & _).
      rewrite Ha in Hs. discriminate Hs.
Qed.

(** The pass past the seeding path, when every request is answered: the
    requests, the write, then the emission and what the handlers add. *)
Lemma answered_pass (env : Env) (st : Store)
  (first : NewsItem) (rest : list NewsItem) :
  get_recent_news env = Ok (Some (first :: rest)) ->
  stored_marker st <> 0 ->
  articles_answer env ->
  exists post o,
    scan_news_iteration env st =
    (map EFetchArticle (map id (walked env (stored_marker st) (first :: rest)))
     ++ EWriteMarker (Py.str (id first)) :: post,
     Some (Py.str (id first)), o) /\
    written post = [] /\ requested post = [] /\
    incl (announced post)
         (rev (flat_map (obtained env) (walked env (stored_marker st) (first :: rest)))).
Proof.
  intros Hfeed Hmarker Hanswer.
  destruct (scan_news_try_answered env st first rest Hfeed Hmarker Hanswer)
    as (te & r & Htry & Twr & Treq & Tann & _).
  destruct (iteration_extends_try env st _ _ r Htry)
    as (t2 & o & Hit & A2 & W2 & _ & R2 & _).
  exists (te ++ t2), o.
  split; [rewrite Hit, <- List.app_assoc; reflexivity|].
  rewrite written_app, requested_app, announced_app, Twr, Treq, W2, R2, A2, !List.app_nil_r.
  repeat split; try reflexivity. exact Tann.
Qed.

Lemma requests_only (l : list Z) :
  announced (map EFetchArticle l) = [] /\
  deliveries (map EFetchArticle l) = [] /\
  written (map EFetchArticle l) = [] /\
  requested (map EFetchArticle l) = l.
Proof.
  induction l as [|i l IH]; [repeat split|].
  destruct IH as (Ha & Hd & Hw & Hr). repeat split; try assumption.
  change (requested (map EFetchArticle (i :: l))) with (i :: requested (map EFetchArticle l)).
  now rewrite Hr.
Qed.

(** C3, as the code has it.  In a pass that gets a feed, finds a usable
    marker and has every request for an article answered, the id of the
    newest item is written as the marker, whether or not an article was
    collected, and it is written before the first article is announced:
    in front of the write the trace holds the requests only, and all the
    announcements and deliveries come after it. *)
Theorem marker_written_before_emission (env : Env) (st : Store)
  (first : NewsItem) (rest : list NewsItem)
  (Hfeed : get_recent_news env = Ok (Some (first :: rest)))
  (Hmarker : stored_marker st <> 0)
  (Hanswer : articles_answer env) :
  exists pre post o,
    scan_news_iteration env st =
    (pre ++ EWriteMarker (Py.str (id first)) :: post, Some (Py.str (id first)), o) /\
    announced pre = [] /\ deliveries pre = [] /\ written pre = [] /\
    written post = [] /\
    incl (announced post)
         (rev (flat_map (obtained env) (walked env (stored_marker st) (first :: rest)))).
Proof.
  destruct (answered_pass env st first rest Hfeed Hmarker Hanswer)
    as (post & o & Hrun & Pwr & _ & Pann).
  exists (map EFetchArticle (map id (walked env (stored_marker st) (first :: rest)))),
         post, o.
  destruct (requests_only (map id (walked env (stored_marker st) (first :: rest))))
    as (Ha & Hd & Hw & _).
  repeat split; assumption.
Qed.

Lemma marker_written_before_emission_witness :
  exists pre post,
    scan_news_iteration Scenario.week_env (Some "3"%string) =
    (pre ++ EWriteMarker "6" :: post, Some "6"%string, Next) /\
    announced pre = [] /\ written post = [].
Proof.
  destruct (marker_written_before_emission Scenario.week_env (Some "3"%string)
              {| id := 6; date := Scenario.day - 1 |} (tl Scenario.week_feed))
    as (pre & post & o & Hrun & Hpre & _ & _ & Hpost & _).
  - reflexivity.
  - discriminate.
  - intros i. simpl. destruct (i =? 6); [|destruct (i =? 5)]; eexists; reflexivity.
  - exists pre, post. split; [|split; assumption].
    rewrite Hrun. f_equal.
    assert (E : snd (scan_news_iteration Scenario.week_env (Some "3"%string)) = Next)
      by reflexivity.
    rewrite Hrun in E. exact E.
Defined.

(** C3 as the claim has it fails: in the pass over the feed of four items
    the marker is written before the articles 5 and 6 are announced, not
    after; and when the request for the article 5 fails, the feed was
    fetched, the marker was usable, and the marker is not written. *)
Lemma marker_not_written_after_emission :
  scan_news_iteration Scenario.week_env (Some "3"%string) =
  ([EFetchArticle 6; EFetchArticle 5;
    EWriteMarker "6";
    EAnnounce Scenario.a5; ESend 1 Scenario.a5; EWarnPermissions; ESend 3 Scenario.a5;
    EAnnounce Scenario.a6; ESend 1 Scenario.a6; EWarnPermissions; ESend 3 Scenario.a6;
    ESleep 7200],
   Some "6"%string, Next) /\
  scan_news_iteration Scenario.flaky_env (Some "3"%string) =
  ([EFetchArticle 6; EFetchArticle 5; ESleep 30], Some "3"%string, Next).
Proof. split; reflexivity. Qed.

End MarkerFacts.


(* ================================================================= *)
(** ** The [scan_news] task: the walk over the feed *)

Section WalkFacts.

Import News.

(** C1, as the code has it.  With the marker 3 and the feed, newest
    first, of the items 6 (one day old), 5 (two days old), 4 (nine days
    old) and 3, the articles of the items 6 and 5 being available: the
    walk requests 6, then 5, and stops at 4; the batch is the article 5,
    then the article 6; and, the deliveries failing softly if they fail,
    the pass announces exactly these two, in that order.  In general,
    when every request is answered, the walk requests the items in front
    of the first one whose id is the marker or whose age is above 7 days,
    and yields their articles oldest first. *)
Theorem week_old_backlog_not_announced (env : Env) (st : Store)
  (date3 : Z) (a5 a6 : Article)
  (Hmarker : stored_marker st = 3)
  (Hfeed : get_recent_news env =
           Ok (Some [ {| id := 6; date := today env - 1 |};
                      {| id := 5; date := today env - 2 |};
                      {| id := 4; date := today env - 9 |};
                      {| id := 3; date := date3 |} ]))
  (Hsix : get_news_article env 6 = Ok (Some a6))
  (Hfive : get_news_article env 5 = Ok (Some a5)) :
  collect env 3 [ {| id := 6; date := today env - 1 |};
                  {| id := 5; date := today env - 2 |};
                  {| id := 4; date := today env - 9 |};
                  {| id := 3; date := date3 |} ] [] st
  = ([EFetchArticle 6; EFetchArticle 5], st, Ok [a5; a6]) /\
  (deliveries_fail_softly env ->
   exists t o,
     scan_news_iteration env st = (t, Some (Py.str 6), o) /\
     announced t = [a5; a6] /\
     requested t = [6; 5] /\
     deliveries t = due env [a5; a6]) /\
  (articles_answer env ->
   forall last_id recent_news,
     collect env last_id recent_news [] st =
     (map EFetchArticle (map id (walked env last_id recent_news)), st,
      Ok (rev (flat_map (obtained env) (walked env last_id recent_news))))).
Proof.
  assert (Hage1 : (today env - (today env - 1) >? 7) = false) by zbool.
  assert (Hage2 : (today env - (today env - 2) >? 7) = false) by zbool.
  assert (Hage9 : (today env - (today env - 9) >? 7) = true) by zbool.
  assert (Hwalk : collect env 3 [ {| id := 6; date := today env - 1 |};
                                  {| id := 5; date := today env - 2 |};
                                  {| id := 4; date := today env - 9 |};
                                  {| id := 3; date := date3 |} ] [] st
                  = ([EFetchArticle 6; EFetchArticle 5], st, Ok [a5; a6])).
  { cbn [collect id date]. change (6 =? 3) with false. change (5 =? 3) with false.
    change (4 =? 3) with false. cbv beta iota.
    rewrite Hage1. unfold bind at 1. rewrite fetch_article_run, Hsix. cbv beta iota.
    rewrite Hage2. unfold bind at 1. rewrite fetch_article_run, Hfive. cbv beta iota.
    rewrite Hage9. reflexivity. }
  split; [exact Hwalk|]. split.
  - intros Hsoft.
    destruct (announce_all_softly env [a5; a6] (Some (Py.str 6)) Hsoft)
      as (ta & Ha & [Aann Adel _ Areq _]).
    exists ([EFetchArticle 6; EFetchArticle 5] ++ [EWriteMarker (Py.str 6)]
            ++ ta ++ [ESleep (60 * 60 * 2)]).
    exists (if sleep_cancelled env (60 * 60 * 2) then Break else Next).
    split; [|split; [|split]].
    + unfold scan_news_iteration, scan_news_try, bind, lift.
      rewrite Hfeed. cbv beta iota.
      destruct (read_last_id_run st) as (log & Hread & Hlog).
      assert (Elog : log = []).
      { destruct Hlog as [->|Hl]; [reflexivity|].
        unfold read_last_id, stored_marker in *.
        destruct st as [text|]; [destruct (Py.int text)|]; try discriminate.
        now injection Hread as <-. }
      subst log. rewrite Hread, Hmarker. cbv beta iota.
      change (3 =? 0) with false. cbv beta iota.
      rewrite Hwalk. cbv beta iota. unfold write_marker. cbn [id].
      rewrite Ha, sleep_run.
      destruct (sleep_cancelled env (60 * 60 * 2)); reflexivity.
    + rewrite !announced_app, Aann. reflexivity.
    + rewrite !requested_app, Areq. reflexivity.
    + rewrite !deliveries_app, Adel. cbn. now rewrite List.app_nil_r.
  - intros Hans last_id recent_news.
    rewrite (collect_answered env last_id recent_news Hans [] st).
    now rewrite List.app_nil_r.
Qed.

Lemma week_old_backlog_not_announced_witness :
  exists t,
    scan_news_iteration Scenario.week_env (Some "3"%string) = (t, Some "6"%string, Next) /\
    announced t = [Scenario.a5; Scenario.a6] /\
    requested t = [6; 5].
Proof.
  destruct (week_old_backlog_not_announced Scenario.week_env (Some "3"%string)
              (Scenario.day - 12) Scenario.a5 Scenario.a6)
    as (_ & Hpass & _).
  - reflexivity.
  - reflexivity.
  - reflexivity.
  - reflexivity.
  - destruct Hpass as (t & o & Hrun & Hann & Hreq & _).
    + intros g a. simpl. destruct (g =? 1); [right; left | left]; reflexivity.
    + exists t. split; [|split; assumption].
      rewrite Hrun. f_equal.
      assert (E : snd (scan_news_iteration Scenario.week_env (Some "3"%string)) = Next)
        by reflexivity.
      rewrite Hrun in E. exact E.
Defined.

(** C1 as the claim has it fails: with the marker 3 and the same feed of
    four items, when [get_news_article] returns [None] for the item 6 the
    pass announces the article 5 alone, not the articles 5 and 6; and
    when the request for the article 5 raises, it announces nothing. *)
Lemma unread_article_left_out_of_batch :
  stored_marker (Some "3"%string) = 3 /\
  get_recent_news Scenario.unread_env = Ok (Some Scenario.week_feed) /\
  scan_news_iteration Scenario.unread_env (Some "3"%string) =
  ([EFetchArticle 6; EFetchArticle 5; EWriteMarker "6";
    EAnnounce Scenario.a5; ESend 1 Scenario.a5; EWarnPermissions; ESend 3 Scenario.a5;
    ESleep 7200],
   Some "6"%string, Next) /\
  map article_id
    (announced (fst (fst (scan_news_iteration Scenario.unread_env (Some "3"%string)))))
  = [5] /\
  get_recent_news Scenario.flaky_env = Ok (Some Scenario.week_feed) /\
  announced (fst (fst (scan_news_iteration Scenario.flaky_env (Some "3"%string)))) = [].
Proof. repeat split. Qed.

End WalkFacts.


(* ================================================================= *)
(** ** The [scan_news] task: the loop and its handlers *)

Section LoopFacts.

Import News.

Lemma scan_news_runs_on (envs : list Env) :
  (forall env, In env envs -> is_closed env = false /\ uncancelled env) ->
  forall st, snd (scan_news envs st) = Running.
Proof.
  induction envs as [|env later IH]; intros Hall st; [reflexivity|].
  simpl. destruct (Hall env (or_introl eq_refl)) as [Hopen Hun].
  rewrite Hopen.
  destruct (scan_news_iteration_facts env st) as (t & st1 & o & Hit & _ & _ & Hnext).
  rewrite Hit, (Hnext Hun).
  specialize (IH (fun e He => Hall e (or_intror He)) st1).
  destruct (scan_news later st1) as [[t2 st2] s]. exact IH.
Qed.

(** C4, as the code has it.  An exception raised in the [try] body, other
    than a cancellation, never leaves the loop: after a [NetworkError] the
    task sleeps 30 seconds and logs nothing, any other exception is
    logged, and the loop goes to its next pass.  A cancellation raised in
    the body ends the loop by [break].  A loop whose passes are neither
    cancelled nor find the bot closed is still running after any number
    of passes. *)
Theorem exceptions_keep_the_loop_going :
  (forall env st t st1 e,
     scan_news_try env st = (t, st1, Raise e) ->
     e <> CancelledError ->
     exists t2 o,
       scan_news_iteration env st = (t ++ t2, st1, o) /\
       (e = NetworkError ->
          t2 = [ESleep 30] /\
          o = if sleep_cancelled env 30 then Escaped CancelledError else Next) /\
       (e <> NetworkError -> In ELogException t2 /\ o = Next)) /\
  (forall env st t st1,
     scan_news_try env st = (t, st1, Raise CancelledError) ->
     scan_news_iteration env st = (t, st1, Break)) /\
  (forall envs st,
     (forall env, In env envs -> is_closed env = false /\ uncancelled env) ->
     snd (scan_news envs st) = Running).
Proof.
  split; [|split].
  - intros env st t st1 e Htry Hnc.
    destruct (iteration_extends_try env st st1 t _ Htry) as (t2 & o & Hit & _ & _ & _ & _ & Hr).
    exists t2, o. split; [exact Hit|].
    destruct e; try (now elim Hnc);
      (split; [intros He; try discriminate He | intros He; try (now elim He)]);
      destruct Hr as [-> ->]; split; try reflexivity; now left.
  - intros env st t st1 Htry. unfold scan_news_iteration. now rewrite Htry.
  - intros envs st Hall. now apply scan_news_runs_on.
Qed.

Lemma exceptions_keep_the_loop_going_witness :
  scan_news_iteration Scenario.offline_env None = ([ESleep 30], None, Next) /\
  snd (scan_news [Scenario.offline_env; Scenario.week_env] None) = Running.
Proof.
  destruct exceptions_keep_the_loop_going as (Hcaught & _ & Hruns). split.
  - destruct (Hcaught Scenario.offline_env None [] None NetworkError)
      as (t2 & o & Hrun & Hnet & _).
    + reflexivity.
    + discriminate.
    + destruct (Hnet eq_refl) as [-> ->]. exact Hrun.
  - apply Hruns. intros env [<-|[<-|[]]]; (split; [reflexivity|]).
    + repeat split; try discriminate.
      * intros i. simpl. destruct (i =? 6); [|destruct (i =? 5)]; discriminate.
      * intros g a. simpl. destruct (g =? 1); discriminate.
    + repeat split; try discriminate.
      * intros i. simpl. destruct (i =? 6); [|destruct (i =? 5)]; discriminate.
      * intros g a. simpl. destruct (g =? 1); discriminate.
Defined.

(** C4 as the claim has it fails: a [NetworkError] raised by
    [get_recent_news] is not logged, and the sleep that follows it lasts
    30 seconds, not two hours. *)
Lemma network_error_not_logged :
  scan_news_try Scenario.offline_env None = ([], None, Raise NetworkError) /\
  scan_news_iteration Scenario.offline_env None = ([ESleep 30], None, Next) /\
  ~ In ELogException (fst (fst (scan_news_iteration Scenario.offline_env None))) /\
  ~ In (ESleep (60 * 60 * 2)) (fst (fst (scan_news_iteration Scenario.offline_env None))).
Proof.
  repeat split; try reflexivity.
  - simpl. intros [H|[]]. discriminate H.
  - simpl. intros [H|[]]. discriminate H.
Qed.

End LoopFacts.


(* ================================================================= *)
(** ** The [scan_news] task: an article that could not be read *)

Section UnreadFacts.

Import News.

Lemma stored_marker_str (z : Z) : stored_marker (Some (Py.str z)) = z.
Proof. unfold stored_marker. now rewrite int_str. Qed.

Lemma walked_prefix (env : Env) (last_id : Z) (recent_news : list NewsItem) :
  exists rest, recent_news = walked env last_id recent_news ++ rest.
Proof.
  induction recent_news as [|article l IH]; simpl.
  - now exists [].
  - destruct (fresh env last_id article).
    + destruct IH as (rest & E). exists rest. simpl. now rewrite <- E.
    + now exists (article :: l).
Qed.

Lemma walked_fresh (env : Env) (last_id : Z) (recent_news : list NewsItem) :
  forall article, In article (walked env last_id recent_news) ->
                  id article <> last_id /\ today env - date article <= 7.
Proof.
  induction recent_news as [|x l IH]; simpl; [intros a []|].
  destruct (fresh env last_id x) eqn:E; [|intros a []].
  intros a [<-|Ha]; [|now apply IH].
  unfold fresh in E. apply andb_true_iff in E. destruct E as [E1 E2].
  apply negb_true_iff in E1, E2. apply Z.eqb_neq in E1.
  rewrite Z.gtb_ltb in E2. apply Z.ltb_ge in E2. now split.
Qed.

Lemma walked_listed (env : Env) (last_id : Z) (recent_news : list NewsItem) :
  incl (walked env last_id recent_news) recent_news.
Proof.
  destruct (walked_prefix env last_id recent_news) as (rest & E).
  intros a Ha. rewrite E. apply in_or_app. now left.
Qed.

Lemma newest_first_app (l1 l2 : list NewsItem) :
  newest_first (l1 ++ l2) ->
  forall a b, In a l1 -> In b l2 -> id a > id b.
Proof.
  unfold newest_first. induction l1 as [|x l IH]; simpl; intros Hs a b Ha Hb; [destruct Ha|].
  apply StronglySorted_inv in Hs. destruct Hs as [Hs Hx].
  destruct Ha as [<-|Ha].
  - rewrite Forall_forall in Hx. apply Hx, in_or_app. now right.
  - now apply IH.
Qed.

Lemma newest_first_distinct (l : list NewsItem) :
  newest_first l ->
  forall a b, In a l -> In b l -> id a = id b -> a = b.
Proof.
  unfold newest_first. induction 1 as [|x l Hs IH Hx]; intros a b Ha Hb E; [destruct Ha|].
  rewrite Forall_forall in Hx.
  destruct Ha as [<-|Ha], Hb as [<-|Hb]; auto.
  - specialize (Hx b Hb). lia.
  - specialize (Hx a Ha). lia.
Qed.

Lemma newest_first_head (first : NewsItem) (rest : list NewsItem) :
  newest_first (first :: rest) ->
  forall a, In a (first :: rest) -> id a <= id first.
Proof.
  intros Hs a [<-|Ha]; [lia|].
  apply StronglySorted_inv in Hs. destruct Hs as [_ Hx].
  rewrite Forall_forall in Hx. specialize (Hx a Ha). lia.
Qed.

(** In a feed that reaches the marker, the walk only meets items that
    are newer than the marker. *)
Lemma walked_above_marker (env : Env) (last_id : Z) (recent_news : list NewsItem) :
  newest_first recent_news ->
  (forall article, In article recent_news -> id article <= last_id ->
                   In last_id (map id recent_news)) ->
  forall article, In article (walked env last_id recent_news) -> id article > last_id.
Proof.
  intros Hs Hreach a Ha.
  destruct (Z_le_gt_dec (id a) last_id) as [Hle|Hgt]; [exfalso | exact Hgt].
  pose proof (Hreach a (walked_listed _ _ _ a Ha) Hle) as Hin.
  destruct (walked_prefix env last_id recent_news) as (rest & E).
  rewrite E, map_app in Hin. apply in_app_or in Hin.
  destruct Hin as [Hin|Hin]; apply in_map_iff in Hin; destruct Hin as (b & Hb & Hbin).
  - now apply (proj1 (walked_fresh env last_id recent_news b Hbin)).
  - rewrite E in Hs. pose proof (newest_first_app _ _ Hs a b Ha Hbin). lia.
Qed.

(** The newest item of a feed that reaches the marker is not older than
    the marker. *)
Lemma newest_not_below_marker (last_id : Z) (first : NewsItem) (rest : list NewsItem) :
  newest_first (first :: rest) ->
  (forall article, In article (first :: rest) -> id article <= last_id ->
                   In last_id (map id (first :: rest))) ->
  last_id <= id first.
Proof.
  intros Hs Hreach.
  destruct (Z_le_gt_dec (id first) last_id) as [Hle|Hgt]; [|lia].
  pose proof (Hreach first (or_introl eq_refl) Hle) as Hin.
  apply in_map_iff in Hin. destruct Hin as (b & <- & Hb).
  pose proof (newest_first_head first rest Hs b Hb). lia.
Qed.

(** Once the marker has passed an id, no later pass announces an article
    of that id. *)
Lemma not_announced_below_marker (x : Z) (envs : list Env) :
  forall st,
    x <= stored_marker st ->
    Forall faithful envs ->
    feeds_reach_marker envs st ->
    forall a, In a (announced (fst (fst (scan_news envs st)))) -> article_id a <> x.
Proof.
  induction envs as [|env later IH]; intros st Hx Hfaith Hreach a Ha; [destruct Ha|].
  simpl in Ha, Hreach. destruct Hreach as [Hnow Hlater].
  inversion Hfaith as [|? ? Hf Hfl]; subst.
  destruct (is_closed env); [destruct Ha|].
  unfold store_after in Hlater.
  destruct (scan_news_iteration_facts env st) as (t & st1 & o & Hit & Hstore & Hann & _).
  rewrite Hit in Ha, Hlater. simpl in Hlater.
  assert (Hhere : forall a, In a (announced t) -> article_id a <> x).
  { intros b Hb. destruct (Hann b Hb) as (feed & it & Hfeed & _ & Hit' & Hget).
    destruct (Hnow feed Hfeed) as [Hs Hr].
    pose proof (walked_above_marker env _ feed Hs Hr it Hit') as Habove.
    rewrite (Hf _ _ Hget). lia. }
  assert (Hx1 : x <= stored_marker st1).
  { destruct Hstore as [->|(first & rest & Hfeed & ->)]; [exact Hx|].
    rewrite stored_marker_str.
    destruct (Hnow _ Hfeed) as [Hs Hr].
    pose proof (newest_not_below_marker _ first rest Hs Hr). lia. }
  destruct o.
  - destruct (scan_news later st1) as [[t2 st2] s] eqn:Erun.
    simpl in Ha. rewrite announced_app in Ha. apply in_app_or in Ha.
    destruct Ha as [Ha|Ha]; [now apply Hhere|].
    apply (IH st1 Hx1 Hfl Hlater). now rewrite Erun.
  - now apply Hhere.
  - now apply Hhere.
Qed.

(** An item that is newer than the marker and not older than a week is
    reached by the walk over a feed that is newest first. *)
Lemma walked_reaches (env : Env) (last_id : Z) (recent_news : list NewsItem) (x : NewsItem) :
  newest_first recent_news ->
  latest_first recent_news ->
  In x recent_news ->
  last_id < id x ->
  today env - date x <= 7 ->
  In x (walked env last_id recent_news).
Proof.
  unfold newest_first, latest_first.
  induction recent_news as [|y l IH]; intros Hs Hd Hx Hid Hage; [destruct Hx|].
  apply StronglySorted_inv in Hs. destruct Hs as [Hs Hy].
  apply StronglySorted_inv in Hd. destruct Hd as [Hd Hyd].
  rewrite Forall_forall in Hy, Hyd.
  assert (Hfresh : fresh env last_id y = true).
  { unfold fresh. apply andb_true_iff. split; apply negb_true_iff.
    - apply Z.eqb_neq. destruct Hx as [->|Hx]; [lia|]. specialize (Hy x Hx). lia.
    - rewrite Z.gtb_ltb. apply Z.ltb_ge.
      destruct Hx as [->|Hx]; [lia|]. specialize (Hyd x Hx). lia. }
  simpl. rewrite Hfresh.
  destruct Hx as [->|Hx]; [now left | right; now apply IH].
Qed.

(** C10, as the code has it.  Take a pass whose feed is newest first
    and in which every request for an article is answered, and an item of
    the feed, newer than the marker and at most 7 days old, for which
    [get_news_article] returns [None].  The pass asks for the article
    (the marker being usable), announces no article for that item, and
    writes the id of the newest item, which is not below the item's, as
    the marker.  From then on, in every run of later passes whose feeds
    are newest first and still list the item of the marker when they list
    an older one, no article of that id is announced. *)
Theorem unread_article_never_announced (env : Env) (st : Store)
  (recent_news : list NewsItem) (x : NewsItem)
  (Hfeed : get_recent_news env = Ok (Some recent_news))
  (Hnewest : newest_first recent_news)
  (Hlatest : latest_first recent_news)
  (Hlisted : In x recent_news)
  (Hnewer : stored_marker st < id x)
  (Hage : today env - date x <= 7)
  (Hnone : get_news_article env (id x) = Ok None)
  (Hanswer : articles_answer env)
  (Hfaithful : faithful env) :
  exists t first o,
    scan_news_iteration env st = (t, Some (Py.str (id first)), o) /\
    hd_error recent_news = Some first /\
    id x <= id first /\
    (stored_marker st <> 0 -> In (id x) (requested t)) /\
    (forall a, In a (announced t) -> article_id a <> id x) /\
    (forall later,
       Forall faithful later ->
       feeds_reach_marker later (Some (Py.str (id first))) ->
       forall a,
         In a (announced (fst (fst (scan_news later (Some (Py.str (id first))))))) ->
         article_id a <> id x).
Proof.
  destruct recent_news as [|first rest]; [destruct Hlisted|].
  assert (Hle : id x <= id first) by (now apply (newest_first_head first rest)).
  assert (Hlater : forall later,
            Forall faithful later ->
            feeds_reach_marker later (Some (Py.str (id first))) ->
            forall a,
              In a (announced (fst (fst (scan_news later (Some (Py.str (id first))))))) ->
              article_id a <> id x).
  { intros later Hf Hr. apply not_announced_below_marker; try assumption.
    now rewrite stored_marker_str. }
  destruct (scan_news_iteration_facts env st) as (t & st1 & o & Hit & _ & Hann & _).
  assert (Hhere : forall a, In a (announced t) -> article_id a <> id x).
  { intros a Ha. destruct (Hann a Ha) as (feed & it & Hfeed' & _ & Hwalk & Hget).
    rewrite Hfeed in Hfeed'. injection Hfeed' as <-.
    rewrite (Hfaithful _ _ Hget). intros E.
    assert (it = x).
    { apply (newest_first_distinct _ Hnewest); try assumption.
      now apply (walked_listed env (stored_marker st)). }
    subst it. rewrite Hnone in Hget. discriminate. }
  destruct (Z.eq_dec (stored_marker st) 0) as [Hzero|Hnz].
  - (* the marker is seeded *)
    destruct (seeded_try env st first rest Hfeed Hzero) as (log & Htry & _).
    destruct (iteration_extends_try env st _ _ _ Htry) as (t2 & o' & Hrun & _).
    rewrite Hrun in Hit. injection Hit as <- <- <-.
    eexists; exists first; eexists. split; [exact Hrun|].
    repeat split; try assumption. intros Hnz. now elim Hnz.
  - destruct (answered_pass env st first rest Hfeed Hnz Hanswer)
      as (post & o' & Hrun & _).
    rewrite Hrun in Hit. injection Hit as <- <- <-.
    eexists; exists first; eexists. split; [exact Hrun|].
    repeat split; try assumption. intros _.
    rewrite requested_app. apply in_or_app. left.
    rewrite (proj2 (proj2 (proj2 (requests_only _)))).
    apply in_map. now apply walked_reaches.
Qed.

Lemma unread_article_never_announced_witness :
  scan_news [Scenario.unread_env; Scenario.next_day_env] (Some "3"%string) =
  ([EFetchArticle 6; EFetchArticle 5; EWriteMarker "6";
    EAnnounce Scenario.a5; ESend 1 Scenario.a5; EWarnPermissions; ESend 3 Scenario.a5;
    ESleep 7200;
    EFetchArticle 7; EWriteMarker "7";
    EAnnounce Scenario.a7; ESend 1 Scenario.a7; EWarnPermissions; ESend 3 Scenario.a7;
    ESleep 7200],
   Some "7"%string, Running) /\
  forall a,
    In a (announced (fst (fst (scan_news [Scenario.next_day_env] (Some "6"%string))))) ->
    article_id a <> 6.
Proof.
  split; [reflexivity|].
  destruct (unread_article_never_announced Scenario.unread_env (Some "3"%string)
              Scenario.week_feed {| id := 6; date := Scenario.day - 1 |})
    as (t & first & o & Hrun & Hhd & _ & _ & _ & Hlater).
  - reflexivity.
  - repeat constructor.
  - repeat constructor; discriminate.
  - now left.
  - reflexivity.
  - discriminate.
  - reflexivity.
  - intros i. simpl. destruct (i =? 6); [|destruct (i =? 5)]; eexists; reflexivity.
  - intros i a. simpl.
    destruct (i =? 6) eqn:E6; [discriminate|].
    destruct (i =? 5) eqn:E5; [|discriminate].
    intros [= <-]. apply Z.eqb_eq in E5. now subst.
  - injection Hhd as <-. apply (Hlater [Scenario.next_day_env]).
    + constructor; [|constructor]. intros i a. simpl.
      destruct (i =? 7) eqn:E7; [intros [= <-]; apply Z.eqb_eq in E7; now subst|].
      destruct (i =? 6) eqn:E6; [intros [= <-]; apply Z.eqb_eq in E6; now subst|].
      destruct (i =? 5) eqn:E5; [|discriminate].
      intros [= <-]. apply Z.eqb_eq in E5. now subst.
    + split; [|exact I]. intros feed [= <-]. split.
      * repeat constructor.
      * intros _ _ _. right. now left.
Defined.

(** C10 as the claim has it fails: in the pass over the feed of four
    items with the marker 3, [get_news_article] returns [None] for the
    item 6, which is newer than the marker and one day old, and the
    request for the article 5 raises [NetworkError]: the marker is not
    written and stays 3, and the next pass, in which the article 6 can be
    read, announces it. *)
Lemma unread_article_announced_later :
  get_news_article Scenario.flaky_env 6 = Ok None /\
  stored_marker (Some "3"%string) < 6 /\
  scan_news_iteration Scenario.flaky_env (Some "3"%string) =
  ([EFetchArticle 6; EFetchArticle 5; ESleep 30], Some "3"%string, Next) /\
  scan_news [Scenario.flaky_env; Scenario.week_env] (Some "3"%string) =
  ([EFetchArticle 6; EFetchArticle 5; ESleep 30;
    EFetchArticle 6; EFetchArticle 5; EWriteMarker "6";
    EAnnounce Scenario.a5; ESend 1 Scenario.a5; EWarnPermissions; ESend 3 Scenario.a5;
    EAnnounce Scenario.a6; ESend 1 Scenario.a6; EWarnPermissions; ESend 3 Scenario.a6;
    ESleep 7200],
   Some "6"%string, Running) /\
  In Scenario.a6
     (announced (fst (fst (scan_news [Scenario.week_env]
                             (store_after Scenario.flaky_env (Some "3"%string)))))).
Proof.
  repeat split. vm_compute. right. left. reflexivity.
Qed.

End UnreadFacts.


(* ================================================================= *)
(** ** The [blessings] command *)

Section BlessingsFacts.

Import Blessings.

(** The Inquisition price for each of the prices a level from 100 on
    can have: the float product, cut to an integer, is eleven tenths of
    five blessings, to the coin. *)
Lemma inquisition_price_exact (k : Z) :
  100 <= k <= 120 ->
  inquisition_price (200 * (k - 20)) = Some (11 * (200 * (k - 20)) * 5 / 10).
Proof.
  intros Hk.
  assert (Hcases : k = 100 \/ k = 101 \/ k = 102 \/ k = 103 \/ k = 104 \/ k = 105 \/
                   k = 106 \/ k = 107 \/ k = 108 \/ k = 109 \/ k = 110 \/ k = 111 \/
                   k = 112 \/ k = 113 \/ k = 114 \/ k = 115 \/ k = 116 \/ k = 117 \/
                   k = 118 \/ k = 119 \/ k = 120) by lia.
  repeat (destruct Hcases as [->|Hcases]; [vm_compute; reflexivity|]).
  subst k. vm_compute. reflexivity.
Qed.

(** From level 1 on the command answers with the prices of lines 55-56. *)
Lemma blessings_run (level : Z) :
  1 <= level ->
  blessings level =
  Ok (Prices (Z.max 2000 (200 * (Z.min level 120 - 20)))
             (Z.max 2000 (200 * (Z.min level 120 - 20)) * 5)
             (if level >=? 100
              then Some (Z.max 2000 (200 * (Z.min level 120 - 20)) * 5 * 11 / 10)
              else None)
             (Z.max 2000 (200 * (Z.min level 150 - 20)))
             (Z.max 2000 (200 * (Z.min level 150 - 20)) * 2)).
Proof.
  intros Hlevel. unfold blessings.
  replace (level <? 1) with false by (symmetry; zbool).
  destruct (level >=? 100) eqn:E; [|reflexivity].
  rewrite Z.geb_leb in E. apply Z.leb_le in E.
  replace (Z.max 2000 (200 * (Z.min level 120 - 20)))
    with (200 * (Z.min level 120 - 20)) by lia.
  rewrite (inquisition_price_exact (Z.min level 120)) by lia.
  do 4 f_equal. lia.
Qed.

(** X1.  From level 1 on the command always answers with prices: a
    blessing costs between 2,000 and 20,000 gold, a mountain blessing
    between the price of a blessing and 26,000 gold, the totals are five
    and two times these, and the Blessing of the Inquisition is quoted
    from level 100 on and only then, at exactly eleven tenths of the total
    (the float product loses nothing). *)
Theorem blessings_prices (level : Z) (Hlevel : 1 <= level) :
  exists bless_price inquisition mountain_bless_price,
    blessings level =
    Ok (Prices bless_price (bless_price * 5) inquisition
               mountain_bless_price (mountain_bless_price * 2)) /\
    2000 <= bless_price <= 20000 /\
    bless_price <= mountain_bless_price <= 26000 /\
    (level < 100 -> inquisition = None) /\
    (100 <= level -> inquisition = Some (bless_price * 5 * 11 / 10)).
Proof.
  eexists; eexists; eexists. split; [apply blessings_run, Hlevel|].
  repeat split; try lia.
  - intros H. replace (level >=? 100) with false by (symmetry; zbool). reflexivity.
  - intros H. replace (level >=? 100) with true by (symmetry; zbool). reflexivity.
Qed.

Lemma blessings_prices_witness :
  blessings 110 = Ok (Prices 18000 90000 (Some 99000) 18000 36000).
Proof.
  destruct (blessings_prices 110) as (b & i & m & Hrun & _); [lia|].
  vm_compute. reflexivity.
Defined.

(** X2.  Prices never go down with the level, and they stop rising at
    level 120 for a blessing and at level 150 for a mountain blessing. *)
Theorem blessings_monotone (level level' : Z)
  (Hlevel : 1 <= level) (Hle : level <= level') :
  exists b i m b' i' m',
    blessings level = Ok (Prices b (b * 5) i m (m * 2)) /\
    blessings level' = Ok (Prices b' (b' * 5) i' m' (m' * 2)) /\
    b <= b' /\ m <= m' /\
    (120 <= level -> b' = b) /\
    (150 <= level -> m' = m).
Proof.
  do 6 eexists.
  split; [apply blessings_run, Hlevel|].
  split; [apply blessings_run; lia|].
  repeat split; lia.
Qed.

Lemma blessings_monotone_witness :
  exists b i m b' i' m',
    blessings 20 = Ok (Prices b (b * 5) i m (m * 2)) /\
    blessings 130 = Ok (Prices b' (b' * 5) i' m' (m' * 2)) /\
    b <= b' /\ m <= m'.
Proof.
  destruct (blessings_monotone 20 130) as (b & i & m & b' & i' & m' & H1 & H2 & H3 & H4 & _);
    [lia | lia |].
  exists b, i, m, b', i', m'. repeat split; assumption.
Defined.

End BlessingsFacts.


(* ================================================================= *)
(** ** More about the [stamina] command *)

Section StaminaMore.

Import Stamina.

(** X3.  Below 42:00, more stamina means less rest: each minute of
    stamina more saves at least three and at most ten minutes of rest, and
    the rest needed is never less than 20 minutes nor more than 140 hours
    and 10 minutes. *)
Theorem stamina_more_is_less_rest (h1 m1 h2 m2 : Z)
  (Hh1 : 0 <= h1) (Hm1 : 0 <= m1 < 60) (Hm2 : 0 <= m2 < 60)
  (Hless : 60 * h1 + m1 < 60 * h2 + m2)
  (Hcap : 60 * h2 + m2 < 42 * 60) :
  exists text1 rest1 text2 rest2,
    stamina_parsed h1 m1 = Rest text1 rest1 /\
    stamina_parsed h2 m2 = Rest text2 rest2 /\
    3 * 60 * ((60 * h2 + m2) - (60 * h1 + m1)) <= rest1 - rest2
      <= 10 * 60 * ((60 * h2 + m2) - (60 * h1 + m1)) /\
    20 * 60 <= rest2 /\ rest1 <= (140 * 60 + 10) * 60.
Proof.
  exists (remaining (resting_time h1 m1)), (resting_time h1 m1),
         (remaining (resting_time h2 m2)), (resting_time h2 m2).
  split; [|split].
  - unfold stamina_parsed.
    replace (m1 >=? 60) with false by (symmetry; zbool).
    replace (h1 >? 42) with false by (symmetry; zbool).
    replace (h1 =? 42) with false by (symmetry; zbool). reflexivity.
  - unfold stamina_parsed.
    replace (m2 >=? 60) with false by (symmetry; zbool).
    replace (h2 >? 42) with false by (symmetry; zbool).
    replace (h2 =? 42) with false by (symmetry; zbool). reflexivity.
  - rewrite !resting_time_minutes. lia.
Qed.

Lemma stamina_more_is_less_rest_witness :
  exists text1 rest1 text2 rest2,
    stamina_parsed 39 30 = Rest text1 rest1 /\
    stamina_parsed 40 30 = Rest text2 rest2 /\
    rest2 < rest1.
Proof.
  destruct (stamina_more_is_less_rest 39 30 40 30)
    as (t1 & r1 & t2 & r2 & H1 & H2 & H3 & _); try lia.
  exists t1, r1, t2, r2. repeat split; try assumption. lia.
Defined.

(** X4.  A stamina written as [h:m], with [h] and [m] from 0 to 99 in
    decimal, is read back as these hours and minutes: the command answers
    what it answers for the numbers themselves. *)
Theorem stamina_reads_what_was_written (hours minutes : Z)
  (Hh : 0 <= hours <= 99) (Hm : 0 <= minutes <= 99) :
  stamina (More.written_stamina hours minutes) = stamina_parsed hours minutes.
Proof.
  pose proof all_read_back_true as Hall. unfold More.all_read_back in Hall.
  rewrite forallb_forall in Hall.
  specialize (Hall (Z.to_nat hours)).
  rewrite forallb_forall in Hall.
  assert (Hin : forall z, 0 <= z <= 99 -> In (Z.to_nat z) (seq 0 100)).
  { intros z Hz. apply in_seq. lia. }
  specialize (Hall (Hin hours Hh) (Z.to_nat minutes) (Hin minutes Hm)).
  unfold More.reads_back in Hall. rewrite !Z2Nat.id in Hall by lia.
  unfold stamina.
  destruct (hour_pattern_match (Py.strip (More.written_stamina hours minutes)))
    as [[h m]|]; [|discriminate].
  apply andb_true_iff in Hall. destruct Hall as [Eh Em].
  apply Z.eqb_eq in Eh, Em. now subst.
Qed.

Lemma stamina_reads_what_was_written_witness :
  stamina "7:5" = stamina_parsed 7 5.
Proof. apply (stamina_reads_what_was_written 7 5); lia. Defined.

End StaminaMore.

(* ================================================================= *)
(** ** More about the [stats] command *)

Section StatsMore.

Import Stats.

Lemma split_comma_no_comma (s : string) :
  More.no_comma s = true -> Py.split_comma s = [s].
Proof.
  unfold More.no_comma. induction s as [|c r IH]; simpl; [reflexivity|].
  intros H. apply andb_true_iff in H. destruct H as [Hc Hr].
  apply negb_true_iff in Hc. rewrite Hc, (IH Hr). reflexivity.
Qed.

Lemma split_comma_app (a b : string) :
  More.no_comma a = true ->
  Py.split_comma (a ++ String "," b) = a :: Py.split_comma b.
Proof.
  unfold More.no_comma. induction a as [|c r IH]; simpl; [reflexivity|].
  intros H. apply andb_true_iff in H. destruct H as [Hc Hr].
  apply negb_true_iff in Hc. rewrite Hc, (IH Hr). reflexivity.
Qed.

(** X5.  The level and the vocation may come in either order: when the
    text of the vocation is not a number, [stats level,vocation] and
    [stats vocation,level] answer the same, and call [get_stats] alike. *)
Theorem stats_either_order (env : Env) (level vocation : string)
  (Hlevel : More.no_comma level = true)
  (Hvocation : More.no_comma vocation = true)
  (Hword : Py.int vocation = None) :
  stats env (level ++ String "," vocation) = stats env (vocation ++ String "," level).
Proof.
  unfold stats, stats_arguments.
  rewrite (split_comma_app level vocation Hlevel), (split_comma_no_comma vocation Hvocation).
  rewrite (split_comma_app vocation level Hvocation), (split_comma_no_comma level Hlevel).
  rewrite Hword. destruct (Py.int level); reflexivity.
Qed.

Lemma stats_either_order_witness :
  stats Scenario.stats_env "150,knight" = stats Scenario.stats_env "knight,150".
Proof. apply (stats_either_order Scenario.stats_env "150" "knight"); reflexivity. Defined.

End StatsMore.


(* ================================================================= *)
(** ** More about the [share] command *)

Section ShareMore.

Import Share.

(** With two to five names, not all the same and all found, the command
    answers as lines 1110-1130 do on the characters found. *)
Lemma share_found (env : Env) (param : string) (char_data : list Character) :
  Py.int param = None ->
  (2 <= List.length (Py.split_comma param) <= 5)%nat ->
  forallb (fun x => String.eqb (Py.lower x)
                      (Py.lower (hd EmptyString (Py.split_comma param))))
          (Py.split_comma param) = false ->
  Forall2 (fun char c => get_character env char = Ok (Some c))
          (Py.split_comma param) char_data ->
  share env param = joint env (List.length (Py.split_comma param)) char_data.
Proof.
  intros Hparam Hlen Hdistinct Hfound.
  unfold share. rewrite Hparam.
  set (chars := Py.split_comma param) in *.
  unfold share_chars.
  replace (5 <? List.length chars)%nat with false
    by (symmetry; apply Nat.ltb_ge; lia).
  destruct chars as [|first [|second more]] eqn:Echars;
    [simpl in Hlen; lia | simpl in Hlen; lia |].
  simpl hd in Hdistinct. rewrite Hdistinct.
  rewrite (fetch_all_found env _ _ Hfound []). reflexivity.
Qed.

(** X6.  When all the characters of the group have the same level, the
    joint range is the range of that level, as for a single character. *)
Theorem share_same_level (env : Env) (param : string) (char_data : list Character)
  (shared : Z)
  (Hparam : Py.int param = None)
  (Hlen : (2 <= List.length (Py.split_comma param) <= 5)%nat)
  (Hdistinct :
     forallb (fun x => String.eqb (Py.lower x)
                         (Py.lower (hd EmptyString (Py.split_comma param))))
             (Py.split_comma param) = false)
  (Hfound :
     Forall2 (fun char c => get_character env char = Ok (Some c))
             (Py.split_comma param) char_data)
  (Hsame : forall c, In c char_data -> level c = shared) :
  exists lowest_name highest_name,
    share env param =
    Ok (if fst (get_share_range env shared) >? shared
        then Needs lowest_name shared (fst (get_share_range env shared) - shared)
                   (fst (get_share_range env shared) - shared >? 1)
                   highest_name shared
        else Joint (2 <? List.length (Py.split_comma param))%nat
                   lowest_name shared highest_name shared
                   (fst (get_share_range env shared))
                   (snd (get_share_range env shared))).
Proof.
  rewrite (share_found env param char_data Hparam Hlen Hdistinct Hfound).
  assert (Hne : char_data <> []).
  { intros ->. inversion Hfound as [E|]; subst. rewrite <- E in Hlen. simpl in Hlen. lia. }
  destruct (joint_extremes env (List.length (Py.split_comma param)) char_data Hne)
    as (lowest & highest & Hlo & Hhi & _ & Hjoint).
  cbv zeta in Hjoint. rewrite (Hsame _ Hlo), (Hsame _ Hhi) in Hjoint.
  exists (name lowest), (name highest). exact Hjoint.
Qed.

Lemma share_same_level_witness :
  exists lowest_name highest_name,
    share {| get_share_range := get_share_range Scenario.share_env;
             get_character := fun char =>
               if String.eqb char "Alice" then Ok (Some Scenario.alice)
               else Ok (Some {| name := "Dora"; level := 100; vocation := "Knight" |}) |}
          "Alice,Dora"
    = Ok (Joint false lowest_name 100 highest_name 100 66 150).
Proof.
  destruct (share_same_level
              {| get_share_range := get_share_range Scenario.share_env;
                 get_character := fun char =>
                   if String.eqb char "Alice" then Ok (Some Scenario.alice)
                   else Ok (Some {| name := "Dora"; level := 100; vocation := "Knight" |}) |}
              "Alice,Dora"
              [Scenario.alice; {| name := "Dora"; level := 100; vocation := "Knight" |}]
              100)
    as (lo & hi & Hrun).
  - reflexivity.
  - simpl. lia.
  - reflexivity.
  - repeat constructor.
  - intros c [<-|[<-|[]]]; reflexivity.
  - exists lo, hi. exact Hrun.
Defined.

(** X7.  The order in which the names are given changes nothing but,
    among characters of equal level, the names shown: two groups that are
    made of the same characters get the same levels, the same range and
    the same number of levels needed. *)
Theorem share_order_free (env : Env) (param1 param2 : string)
  (found1 found2 : list Character)
  (Hparam1 : Py.int param1 = None) (Hparam2 : Py.int param2 = None)
  (Hlen1 : (2 <= List.length (Py.split_comma param1) <= 5)%nat)
  (Hdistinct1 :
     forallb (fun x => String.eqb (Py.lower x)
                         (Py.lower (hd EmptyString (Py.split_comma param1))))
             (Py.split_comma param1) = false)
  (Hdistinct2 :
     forallb (fun x => String.eqb (Py.lower x)
                         (Py.lower (hd EmptyString (Py.split_comma param2))))
             (Py.split_comma param2) = false)
  (Hfound1 :
     Forall2 (fun char c => get_character env char = Ok (Some c))
             (Py.split_comma param1) found1)
  (Hfound2 :
     Forall2 (fun char c => get_character env char = Ok (Some c))
             (Py.split_comma param2) found2)
  (Hsame : Permutation found1 found2) :
  More.anonymous_result (share env param1) = More.anonymous_result (share env param2).
Proof.
  assert (Hl1 : List.length (Py.split_comma param1) = List.length found1)
    by (eapply Forall2_length; eassumption).
  assert (Hl2 : List.length (Py.split_comma param2) = List.length found2)
    by (eapply Forall2_length; eassumption).
  assert (Hl : List.length found1 = List.length found2)
    by (apply Permutation_length, Hsame).
  assert (Hlen2 : (2 <= List.length (Py.split_comma param2) <= 5)%nat) by lia.
  rewrite (share_found env param1 found1 Hparam1 Hlen1 Hdistinct1 Hfound1).
  rewrite (share_found env param2 found2 Hparam2 Hlen2 Hdistinct2 Hfound2).
  rewrite Hl1, Hl2, <- Hl.
  assert (Hne1 : found1 <> []) by (intros ->; simpl in Hl1; lia).
  assert (Hne2 : found2 <> []) by (intros ->; simpl in Hl2; lia).
  destruct (joint_extremes env (List.length found1) found1 Hne1)
    as (lo1 & hi1 & Hlo1 & Hhi1 & Hext1 & ->).
  destruct (joint_extremes env (List.length found1) found2 Hne2)
    as (lo2 & hi2 & Hlo2 & Hhi2 & Hext2 & ->).
  assert (Elo : level lo1 = level lo2).
  { pose proof (Hext1 lo2 (Permutation_in _ (Permutation_sym Hsame) Hlo2)).
    pose proof (Hext2 lo1 (Permutation_in _ Hsame Hlo1)). lia. }
  assert (Ehi : level hi1 = level hi2).
  { pose proof (Hext1 hi2 (Permutation_in _ (Permutation_sym Hsame) Hhi2)).
    pose proof (Hext2 hi1 (Permutation_in _ Hsame Hhi1)). lia. }
  cbv zeta. rewrite Elo, Ehi.
  destruct (fst (get_share_range env (level hi2)) >? level lo2); reflexivity.
Qed.

Lemma share_order_free_witness :
  More.anonymous_result (share Scenario.share_env "Alice,Bob,Carl") =
  More.anonymous_result (share Scenario.share_env "Carl,Alice,Bob").
Proof.
  apply (share_order_free Scenario.share_env "Alice,Bob,Carl" "Carl,Alice,Bob"
           [Scenario.alice; Scenario.bob; Scenario.carl]
           [Scenario.carl; Scenario.alice; Scenario.bob]).
  - reflexivity.
  - reflexivity.
  - simpl. lia.
  - reflexivity.
  - reflexivity.
  - repeat constructor.
  - repeat constructor.
  - apply Permutation_sym.
    apply (Permutation_cons_append [Scenario.alice; Scenario.bob] Scenario.carl).
Defined.

End ShareMore.


(* ================================================================= *)
(** ** More about the [scan_news] task *)

Section NewsMore.

Import News.

(** What the [try] body does to the marker file: nothing, and then it
    announces nothing either; or one write, of the id of the newest item. *)
Lemma scan_news_try_writes (env : Env) (st : Store) :
  exists t st1 r,
    scan_news_try env st = (t, st1, r) /\
    ((written t = [] /\ st1 = st /\ announced t = []) \/
     (exists first rest,
        get_recent_news env = Ok (Some (first :: rest)) /\
        written t = [Py.str (id first)] /\
        st1 = Some (Py.str (id first)))).
Proof.
  unfold scan_news_try, bind, lift.
  destruct (get_recent_news env) as [[[|first rest]|]|e] eqn:Hfeed.
  - exists [], st, (Raise IndexError). split; [reflexivity|]. left. repeat split.
  - destruct (read_last_id_run st) as (log & Hread & Hlog).
    rewrite Hread. cbv beta iota.
    assert (Wlog : written log = []) by (destruct Hlog as [->| ->]; reflexivity).
    assert (Alog : announced log = []) by (destruct Hlog as [->| ->]; reflexivity).
    destruct (stored_marker st =? 0).
    + unfold write_marker. rewrite sleep_run. cbv beta iota. cbn [app].
      eexists; eexists; eexists. split; [reflexivity|].
      right. exists first, rest. split; [reflexivity|]. split; [|reflexivity].
      rewrite written_app, Wlog. reflexivity.
    + destruct (collect_facts env (stored_marker st) (first :: rest) [] st)
        as (tc & rc & Hc & Cann & Cwr & _).
      rewrite Hc. cbv beta iota. destruct rc as [batch|e].
      * unfold write_marker.
        destruct batch as [|b batch'].
        -- rewrite sleep_run. cbv beta iota. cbn [app].
           eexists; eexists; eexists. split; [reflexivity|].
           right. exists first, rest. split; [reflexivity|]. split; [|reflexivity].
           rewrite !written_app, Wlog, Cwr. reflexivity.
        -- destruct (announce_all_facts env (b :: batch') (Some (Py.str (id first))))
             as (ta & ra & Ha & _ & Awr & _).
           cbv beta iota. rewrite Ha. destruct ra as [[]|e].
           ++ rewrite sleep_run. cbv beta iota. cbn [app].
              eexists; eexists; eexists. split; [reflexivity|].
              right. exists first, rest. split; [reflexivity|]. split; [|reflexivity].
              change (EWriteMarker (Py.str (id first)) :: ta ++ [ESleep (60 * 60 * 2)])
                with ([EWriteMarker (Py.str (id first))] ++ ta ++ [ESleep (60 * 60 * 2)]).
              rewrite !written_app, Wlog, Cwr, Awr. reflexivity.
           ++ cbv beta iota. cbn [app].
              eexists; eexists; eexists. split; [reflexivity|].
              right. exists first, rest. split; [reflexivity|]. split; [|reflexivity].
              change (EWriteMarker (Py.str (id first)) :: ta)
                with ([EWriteMarker (Py.str (id first))] ++ ta).
              rewrite !written_app, Wlog, Cwr, Awr. reflexivity.
      * cbn [app]. eexists; eexists; eexists. split; [reflexivity|].
        left. rewrite written_app, announced_app, Wlog, Alog, Cwr, Cann.
        repeat split.
  - rewrite sleep_run. cbn [app].
    eexists; eexists; eexists. split; [reflexivity|]. left. repeat split.
  - exists [], st, (Raise e). split; [reflexivity|]. left. repeat split.
Qed.

Lemma scan_news_iteration_writes (env : Env) (st : Store) :
  exists t st1 o,
    scan_news_iteration env st = (t, st1, o) /\
    ((written t = [] /\ st1 = st /\ announced t = []) \/
     (exists first rest,
        get_recent_news env = Ok (Some (first :: rest)) /\
        written t = [Py.str (id first)] /\
        st1 = Some (Py.str (id first)))).
Proof.
  destruct (scan_news_try_writes env st) as (t & st1 & r & Htry & Hw).
  destruct (iteration_extends_try env st st1 t r Htry)
    as (t2 & o & Hit & A2 & W2 & _).
  exists (t ++ t2), st1, o. split; [exact Hit|].
  rewrite written_app, announced_app, W2, A2, !List.app_nil_r. exact Hw.
Qed.

(** X8.  Whatever happens in a pass, the marker file is written at most
    once, and only with the id of the first item of the feed just
    fetched; a pass that does not write it leaves it as it was, and
    announces nothing. *)
Theorem marker_only_written_with_newest_id (env : Env) (st : Store) :
  exists t st1 o,
    scan_news_iteration env st = (t, st1, o) /\
    ((written t = [] /\ st1 = st /\ announced t = []) \/
     (exists first rest,
        get_recent_news env = Ok (Some (first :: rest)) /\
        written t = [Py.str (id first)] /\
        st1 = Some (Py.str (id first)) /\
        stored_marker st1 = id first)).
Proof.
  destruct (scan_news_iteration_writes env st) as (t & st1 & o & Hit & Hw).
  exists t, st1, o. split; [exact Hit|].
  destruct Hw as [Hw|(first & rest & Hfeed & Hwr & ->)]; [now left|].
  right. exists first, rest. repeat split; try assumption.
  apply stored_marker_str.
Qed.

(** X9.  The marker never goes down: when the feed of a pass is newest
    first and reaches the stored marker, the marker after the pass is not
    below the marker before it. *)
Theorem marker_never_decreases (env : Env) (st : Store)
  (Hfeed : feed_reaches_marker env st) :
  stored_marker st <= stored_marker (store_after env st).
Proof.
  unfold store_after.
  destruct (scan_news_iteration_writes env st) as (t & st1 & o & Hit & Hw).
  rewrite Hit. cbn [fst snd].
  destruct Hw as [(_ & -> & _)|(first & rest & Hnews & _ & ->)]; [lia|].
  rewrite stored_marker_str.
  destruct (Hfeed _ Hnews) as [Hs Hr].
  now apply (newest_not_below_marker _ first rest).
Qed.

Lemma marker_never_decreases_witness :
  stored_marker (Some "3"%string)
  <= stored_marker (store_after Scenario.week_env (Some "3"%string)).
Proof.
  apply (marker_never_decreases Scenario.week_env (Some "3"%string)).
  intros feed [= <-]. split.
  - repeat constructor.
  - intros _ _ _. right. right. right. now left.
Defined.

(** X10.  No article is announced twice: in a run whose feeds are newest
    first and reach the marker, an article announced in one pass has an
    id that no article announced in a later pass has. *)
Theorem announced_only_once (env : Env) (later : list Env) (st : Store)
  (Hfaithful : faithful env)
  (Hfaithful_later : Forall faithful later)
  (Hfeeds : feeds_reach_marker (env :: later) st) :
  forall a b,
    In a (announced (fst (fst (scan_news_iteration env st)))) ->
    In b (announced (fst (fst (scan_news later (store_after env st))))) ->
    article_id b <> article_id a.
Proof.
  intros a b Ha Hb. destruct Hfeeds as [Hnow Hlater].
  unfold store_after in *.
  destruct (scan_news_iteration_writes env st) as (t & st1 & o & Hit & Hw).
  destruct (scan_news_iteration_facts env st) as (t' & st1' & o' & Hit' & _ & Hann & _).
  rewrite Hit in Hit'. injection Hit' as <- <- <-.
  rewrite Hit in Ha, Hb, Hlater. cbn [fst snd] in Ha, Hb, Hlater.
  destruct Hw as [(_ & _ & Hnone)|(first & rest & Hnews & _ & ->)];
    [rewrite Hnone in Ha; destruct Ha|].
  destruct (Hann a Ha) as (feed & it & Hnews' & _ & Hwalk & Hget).
  rewrite Hnews in Hnews'. injection Hnews' as <-.
  destruct (Hnow _ Hnews) as [Hs _].
  assert (Hle : article_id a <= id first).
  { rewrite (Hfaithful _ _ Hget).
    apply (newest_first_head first rest Hs).
    now apply (walked_listed env (stored_marker st)). }
  apply (not_announced_below_marker (article_id a) later (Some (Py.str (id first))));
    try assumption.
  now rewrite stored_marker_str.
Qed.

Lemma announced_only_once_witness :
  In Scenario.a5
     (announced (fst (fst (scan_news_iteration Scenario.week_env (Some "3"%string))))) /\
  Forall (fun b => article_id b <> article_id Scenario.a5)
         (announced (fst (fst (scan_news [Scenario.next_day_env]
                                (store_after Scenario.week_env (Some "3"%string)))))).
Proof.
  assert (Ha : In Scenario.a5
                  (announced (fst (fst (scan_news_iteration Scenario.week_env
                                          (Some "3"%string))))))
    by (left; reflexivity).
  split; [exact Ha|].
  apply Forall_forall. intros b Hb.
  assert (Hf : forall i a,
            (if i =? 6 then Ok (Some Scenario.a6)
             else if i =? 5 then Ok (Some Scenario.a5) else Ok None) = Ok (Some a) ->
            article_id a = i).
  { intros i a.
    destruct (i =? 6) eqn:E6; [intros [= <-]; apply Z.eqb_eq in E6; now subst|].
    destruct (i =? 5) eqn:E5; [|discriminate].
    intros [= <-]. apply Z.eqb_eq in E5. now subst. }
  apply (announced_only_once Scenario.week_env [Scenario.next_day_env] (Some "3"%string))
    with (a := Scenario.a5) (b := b); try assumption.
  - constructor; [|constructor]. intros i a. simpl.
    destruct (i =? 7) eqn:E7; [intros [= <-]; apply Z.eqb_eq in E7; now subst|].
    apply Hf.
  - split; [|split; [|exact I]].
    + intros feed [= <-]. split.
      * repeat constructor.
      * intros _ _ _. right. right. right. now left.
    + intros feed [= <-]. split.
      * repeat constructor.
      * intros _ _ _. right. now left.
Defined.

End NewsMore.


(* ================================================================= *)
(** ** Sorting, as [sorted] does it *)

Section SortFacts.

Context {A : Type} (le : A -> A -> bool).

Lemma insert_sorted_perm (x : A) (l : list A) :
  Permutation (PyMore.insert_sorted le x l) (x :: l).
Proof.
  induction l as [|y rest IH]; simpl; [reflexivity|].
  destruct (le x y); [reflexivity|].
  rewrite IH. apply perm_swap.
Qed.

Lemma sorted_by_perm (l : list A) : Permutation (PyMore.sorted_by le l) l.
Proof.
  induction l as [|x rest IH]; simpl; [reflexivity|].
  rewrite insert_sorted_perm. now constructor.
Qed.

Hypothesis le_total : forall a b, le a b = true \/ le b a = true.

Lemma insert_sorted_sorted (x : A) (l : list A) :
  Sorted (fun a b => le a b = true) l ->
  Sorted (fun a b => le a b = true) (PyMore.insert_sorted le x l).
Proof.
  induction 1 as [|y rest Hs IH Hy]; simpl.
  - repeat constructor.
  - destruct (le x y) eqn:E.
    + constructor; [constructor; assumption|]. constructor. exact E.
    + constructor; [exact IH|].
      destruct rest as [|z rest']; simpl.
      * constructor. destruct (le_total x y) as [H|H]; [congruence | exact H].
      * destruct (le x z).
        -- constructor. destruct (le_total x y) as [H|H]; [congruence | exact H].
        -- constructor. now apply HdRel_inv in Hy.
Qed.

Lemma sorted_by_sorted (l : list A) :
  Sorted (fun a b => le a b = true) (PyMore.sorted_by le l).
Proof.
  induction l as [|x rest IH]; simpl; [constructor|].
  now apply insert_sorted_sorted.
Qed.

End SortFacts.

(* ================================================================= *)
(** ** The [worlds] command *)

Section WorldsFacts.

Import Worlds.

Lemma filter_filter {A : Type} (f g : A -> bool) (l : list A) :
  filter g (filter f l) = filter (fun x => f x && g x) l.
Proof.
  induction l as [|x rest IH]; simpl; [reflexivity|].
  destruct (f x); simpl; [destruct (g x)|]; now rewrite IH.
Qed.

Lemma filter_all {A : Type} (l : list A) : filter (fun _ => true) l = l.
Proof. induction l as [|x rest IH]; simpl; [reflexivity | now rewrite IH]. Qed.

(** The two filters of lines 1743-1746 amount to one. *)
Lemma selection_filter (params : list string) (world_list : list World) :
  selection params world_list =
  PyMore.sorted_by (in_front params) (filter (passes params) world_list).
Proof.
  unfold selection, passes.
  destruct (region_filter params) as [region|], (pvp_filter params) as [pvp|]; f_equal.
  - apply filter_filter.
  - apply filter_ext. intros w. now rewrite andb_true_r.
  - now rewrite filter_all.
Qed.

Lemma selection_perm (params : list string) (world_list : list World) :
  Permutation (selection params world_list) (filter (passes params) world_list).
Proof. rewrite selection_filter. apply sorted_by_perm. Qed.

(** The worlds that pass the filters and no others are selected. *)
Lemma selection_matching (params : list string) (world_list : list World) :
  Permutation (selection params world_list) (filter (passes params) world_list) /\
  (forall w, In w (selection params world_list) <->
             In w world_list /\
             (forall region, region_filter params = Some region -> location w = region) /\
             (forall pvp, pvp_filter params = Some pvp -> pvp_type w = pvp)).
Proof.
  pose proof (selection_perm params world_list) as Hperm.
  split; [exact Hperm|].
  intros w. split.
  - intros Hw. apply (Permutation_in _ Hperm) in Hw.
    apply filter_In in Hw. destruct Hw as [Hin Hpass].
    unfold passes in Hpass. apply andb_true_iff in Hpass. destruct Hpass as [Hr Hp].
    split; [exact Hin|]. split.
    + intros region E. rewrite E in Hr. now apply String.eqb_eq.
    + intros pvp E. rewrite E in Hp. now apply String.eqb_eq.
  - intros (Hin & Hr & Hp).
    apply (Permutation_in _ (Permutation_sym Hperm)).
    apply filter_In. split; [exact Hin|].
    unfold passes. apply andb_true_iff. split.
    + destruct (region_filter params) as [region|]; [|reflexivity].
      apply String.eqb_eq. now apply Hr.
    + destruct (pvp_filter params) as [pvp|]; [|reflexivity].
      apply String.eqb_eq. now apply Hp.
Qed.

Lemma in_front_total (params : list string) (a b : World) :
  in_front params a b = true \/ in_front params b a = true.
Proof.
  unfold in_front.
  destruct (PyMore.mem "online" params), (any_of ["desc"; "descending"]%string params);
    try apply String.leb_total;
    rewrite !Z.leb_le; lia.
Qed.

(** The selected worlds stand in the order asked for. *)
Lemma selection_in_order (params : list string) (world_list : list World) :
  let reverse := any_of ["desc"; "descending"]%string params in
  let by_online := PyMore.mem "online" params in
  (by_online = true -> reverse = false ->
   Sorted (fun a b => online_count a <= online_count b) (selection params world_list)) /\
  (by_online = true -> reverse = true ->
   Sorted (fun a b => online_count b <= online_count a) (selection params world_list)) /\
  (by_online = false -> reverse = false ->
   Sorted (fun a b => String.leb (name a) (name b) = true) (selection params world_list)) /\
  (by_online = false -> reverse = true ->
   Sorted (fun a b => String.leb (name b) (name a) = true) (selection params world_list)).
Proof.
  intros reverse by_online.
  assert (Hs : Sorted (fun a b => in_front params a b = true) (selection params world_list)).
  { rewrite selection_filter. apply sorted_by_sorted, in_front_total. }
  assert (Hweaken : forall (R : World -> World -> Prop),
            (forall a b, in_front params a b = true -> R a b) ->
            Sorted R (selection params world_list)).
  { intros R HR. induction Hs as [|w l _ IH Hhd]; constructor; [exact IH|].
    destruct Hhd; constructor. now apply HR. }
  unfold in_front in Hweaken. fold reverse by_online in Hweaken.
  repeat split; intros Ho Hr; apply Hweaken; intros a b; rewrite Ho, Hr;
    rewrite ?Z.leb_le; auto.
Qed.

Lemma entries_known (l : list World) :
  Forall known l ->
  exists es, entries l = Some es /\ List.length es = List.length l.
Proof.
  induction 1 as [|w rest [Hf Hp] _ (es & Hes & Hlen)]; simpl.
  - now exists [].
  - unfold entry.
    destruct (PyMore.lookup (location w) FLAGS); [|now elim Hf].
    destruct (PyMore.lookup (pvp_type w) PVP); [|now elim Hp].
    rewrite Hes. eexists. split; [reflexivity|]. simpl. now rewrite Hlen.
Qed.

Lemma entries_each (l : list World) :
  forall es, entries l = Some es -> Forall2 (fun w e => entry w = Some e) l es.
Proof.
  induction l as [|w rest IH]; intros es; cbn [entries].
  - intros [= <-]. constructor.
  - destruct (entry w) as [e|] eqn:He; [|discriminate].
    destruct (entries rest) as [es'|]; [|discriminate].
    intros [= <-]. constructor; [exact He | now apply IH].
Qed.

(** What the command shows is its selection of the worlds fetched. *)
Lemma worlds_shows_selection (env : Env) (query : option string) (world_list : list World) :
  get_world_list env = Ok (Some world_list) ->
  Forall known world_list ->
  shows env query (selection (parameters query) world_list) (worlds env query).
Proof.
  intros Hlist Hknown. unfold worlds, shows. rewrite Hlist.
  assert (Hk : Forall known (selection (parameters query) world_list)).
  { apply Forall_forall. intros w Hw.
    apply (Permutation_in _ (selection_perm _ _)), filter_In in Hw.
    rewrite Forall_forall in Hknown. now apply Hknown. }
  destruct (entries_known _ Hk) as (es & Hes & _).
  pose proof (entries_each _ _ Hes) as Heach.
  destruct (selection (parameters query) world_list) as [|w rest]; [reflexivity|].
  rewrite Hes. exists es. split; [reflexivity | exact Heach].
Qed.

(** X11.  When the list of worlds is fetched and every world in it has a
    location and a PvP type that [FLAGS] and [PVP] know, the command
    shows, one entry for each, exactly the worlds of the list that have
    the region and the PvP type asked for: none is left out, none is
    added, none is shown twice. *)
Theorem worlds_lists_the_matching_worlds (env : Env) (query : option string)
  (world_list : list World)
  (Hlist : get_world_list env = Ok (Some world_list))
  (Hknown : Forall known world_list) :
  let params := parameters query in
  exists listed : list World,
    shows env query listed (worlds env query) /\
    Permutation listed (filter (passes params) world_list) /\
    (forall w, In w listed <->
               In w world_list /\
               (forall region, region_filter params = Some region -> location w = region) /\
               (forall pvp, pvp_filter params = Some pvp -> pvp_type w = pvp)).
Proof.
  intros params. exists (selection params world_list).
  split; [now apply worlds_shows_selection|].
  apply selection_matching.
Qed.

Lemma worlds_lists_the_matching_worlds_witness :
  exists listed : list World,
    shows WorldSample.env (Some "Europe"%string) listed
      (worlds WorldSample.env (Some "Europe"%string)) /\
    Permutation listed [WorldSample.secura; WorldSample.antica].
Proof.
  destruct (worlds_lists_the_matching_worlds WorldSample.env (Some "Europe"%string)
              [WorldSample.secura; WorldSample.antica;
               WorldSample.calmera; WorldSample.belobra])
    as (listed & Hshows & Hperm & _).
  - reflexivity.
  - repeat constructor; discriminate.
  - exists listed. split; [exact Hshows | exact Hperm].
Defined.

(** X12.  When the list of worlds is fetched and every world in it has a
    location and a PvP type that [FLAGS] and [PVP] know, the worlds are
    shown in order, one entry for each: by name, or by online count when
    [online] is asked for, each world standing in front of the next one;
    downwards when [desc] or [descending] is asked for, upwards
    otherwise. *)
Theorem worlds_listed_in_order (env : Env) (query : option string)
  (world_list : list World)
  (Hlist : get_world_list env = Ok (Some world_list))
  (Hknown : Forall known world_list) :
  let params := parameters query in
  let reverse := any_of ["desc"; "descending"]%string params in
  let by_online := PyMore.mem "online" params in
  exists listed : list World,
    shows env query listed (worlds env query) /\
    Permutation listed (filter (passes params) world_list) /\
    (by_online = true -> reverse = false ->
     Sorted (fun a b => online_count a <= online_count b) listed) /\
    (by_online = true -> reverse = true ->
     Sorted (fun a b => online_count b <= online_count a) listed) /\
    (by_online = false -> reverse = false ->
     Sorted (fun a b => String.leb (name a) (name b) = true) listed) /\
    (by_online = false -> reverse = true ->
     Sorted (fun a b => String.leb (name b) (name a) = true) listed).
Proof.
  intros params reverse by_online. exists (selection params world_list).
  split; [now apply worlds_shows_selection|].
  split; [apply selection_perm|].
  apply selection_in_order.
Qed.

Lemma worlds_listed_in_order_witness :
  exists listed : list World,
    shows WorldSample.env (Some "online, desc"%string) listed
      (worlds WorldSample.env (Some "online, desc"%string)) /\
    Permutation listed [WorldSample.secura; WorldSample.antica;
                        WorldSample.calmera; WorldSample.belobra] /\
    Sorted (fun a b => online_count b <= online_count a) listed.
Proof.
  destruct (worlds_listed_in_order WorldSample.env (Some "online, desc"%string)
              [WorldSample.secura; WorldSample.antica;
               WorldSample.calmera; WorldSample.belobra])
    as (listed & Hshows & Hperm & _ & Hdown & _).
  - reflexivity.
  - repeat constructor; discriminate.
  - exists listed. split; [exact Hshows|]. split; [exact Hperm|].
    apply Hdown; reflexivity.
Defined.

(** X13.  When the list of worlds is fetched and every world in it has
    one of the three locations and five PvP types the command knows, the
    command answers that no world matches exactly when no world passes
    the filters, and otherwise shows one entry for each world that passes
    them, never an empty list. *)
Theorem worlds_one_entry_per_match (env : Env) (query : option string)
  (world_list : list World)
  (Hlist : get_world_list env = Ok (Some world_list))
  (Hknown : Forall known world_list) :
  let matching := filter (passes (parameters query)) world_list in
  (matching = [] -> worlds env query = Ok NoMatch) /\
  (matching <> [] ->
   exists es,
     worlds env query =
     Ok (Listing (title (parameters query)) (if long env then 20 else 5) es) /\
     List.length es = List.length matching).
Proof.
  intros matching. unfold worlds. rewrite Hlist.
  pose proof (selection_perm (parameters query) world_list) as Hperm.
  fold matching in Hperm.
  assert (Hk : Forall known (selection (parameters query) world_list)).
  { apply Forall_forall. intros w Hw.
    apply (Permutation_in _ Hperm), filter_In in Hw.
    rewrite Forall_forall in Hknown. now apply Hknown. }
  split.
  - intros E. rewrite E in Hperm. apply Permutation_sym, Permutation_nil in Hperm.
    now rewrite Hperm.
  - intros Hne.
    destruct (entries_known _ Hk) as (es & Hes & Hlen).
    exists es. split.
    + destruct (selection (parameters query) world_list) as [|w rest] eqn:E.
      * apply Permutation_nil in Hperm. now elim Hne.
      * now rewrite Hes.
    + rewrite Hlen. now apply Permutation_length.
Qed.

Lemma worlds_one_entry_per_match_witness :
  worlds WorldSample.env (Some "hardcore"%string) = Ok NoMatch /\
  exists es,
    worlds WorldSample.env (Some "Europe, online"%string) =
    Ok (Listing "Worlds in Europe" 5 es) /\
    List.length es = 2%nat.
Proof.
  assert (Hknown : Forall known
                     [WorldSample.secura; WorldSample.antica;
                      WorldSample.calmera; WorldSample.belobra])
    by (repeat constructor; discriminate).
  split.
  - apply (proj1 (worlds_one_entry_per_match WorldSample.env (Some "hardcore"%string)
                    _ eq_refl Hknown)).
    reflexivity.
  - destruct (proj2 (worlds_one_entry_per_match WorldSample.env
                       (Some "Europe, online"%string) _ eq_refl Hknown))
      as (es & Hrun & Hlen).
    + discriminate.
    + exists es. split; [exact Hrun | exact Hlen].
Defined.

End WorldsFacts.


(* ================================================================= *)
(** ** The [searchworld] command *)

Section SearchFacts.

Import Search.

Lemma Permutation_filter {A : Type} (f : A -> bool) (l l' : list A) :
  Permutation l l' -> Permutation (filter f l) (filter f l').
Proof.
  induction 1 as [|x l l' _ IH|x y l|l l' l'' _ IH1 _ IH2]; simpl.
  - constructor.
  - destruct (f x); [now constructor | exact IH].
  - destruct (f x), (f y); try reflexivity. apply perm_swap.
  - now transitivity (filter f l').
Qed.

Lemma StronglySorted_filter {A : Type} (R : A -> A -> Prop) (f : A -> bool) (l : list A) :
  StronglySorted R l -> StronglySorted R (filter f l).
Proof.
  induction 1 as [|x l _ IH Hx]; simpl; [constructor|].
  destruct (f x); [|exact IH].
  constructor; [exact IH|].
  rewrite Forall_forall in *. intros y Hy. apply filter_In in Hy. now apply Hx.
Qed.

Lemma sorted_by_level_down (l : list Character) :
  StronglySorted (fun x y => level y <= level x)
                 (PyMore.sorted_by (fun a b => level b <=? level a) l).
Proof.
  apply Sorted_StronglySorted.
  - intros x y z Hxy Hyz. lia.
  - assert (Hs : Sorted (fun a b => (level b <=? level a) = true)
                        (PyMore.sorted_by (fun a b => level b <=? level a) l)).
    { apply sorted_by_sorted. intros a b. rewrite !Z.leb_le. lia. }
    induction Hs as [|x rest _ IH Hhd]; constructor; [exact IH|].
    destruct Hhd as [|y rest' Hy]; constructor. now apply Z.leb_le.
Qed.

(** The players that are listed: the players online that are in the
    range and do not bear the name left out, highest level first. *)
Lemma matching_spec (c : Criteria) (online_list : list Character) :
  StronglySorted (fun x y => level y <= level x) (matching c online_list) /\
  Permutation (matching c online_list)
              (filter (fun x => (low c <=? level x) && (level x <=? high c)
                                && negb (String.eqb (character_name x) (filter_name c)))
                      online_list) /\
  (forall x, In x (matching c online_list) <->
             In x online_list /\ low c <= level x <= high c /\
             character_name x <> filter_name c).
Proof.
  unfold matching.
  assert (Hperm : Permutation
            (filter (fun x => (low c <=? level x) && (level x <=? high c)
                              && negb (String.eqb (character_name x) (filter_name c)))
                    (PyMore.sorted_by (fun a b => level b <=? level a) online_list))
            (filter (fun x => (low c <=? level x) && (level x <=? high c)
                              && negb (String.eqb (character_name x) (filter_name c)))
                    online_list))
    by apply Permutation_filter, sorted_by_perm.
  split; [apply StronglySorted_filter, sorted_by_level_down|].
  split; [exact Hperm|].
  intros x. split.
  - intros Hx. apply (Permutation_in _ Hperm), filter_In in Hx.
    destruct Hx as [Hin Hf].
    apply andb_true_iff in Hf. destruct Hf as [Hf Hn].
    apply andb_true_iff in Hf. destruct Hf as [Hl Hh].
    apply Z.leb_le in Hl, Hh. apply negb_true_iff, String.eqb_neq in Hn.
    repeat split; assumption.
  - intros (Hin & [Hl Hh] & Hn).
    apply (Permutation_in _ (Permutation_sym Hperm)), filter_In.
    split; [exact Hin|].
    apply andb_true_iff. split; [apply andb_true_iff; split; now apply Z.leb_le|].
    now apply negb_true_iff, String.eqb_neq.
Qed.

(** The command once the world is fetched and the criteria are settled. *)
Lemma search_world_settled (env : Env) (params world_name : string)
  (left : list string) (world : World) (c : Criteria) :
  embed_links env = true ->
  world_and_params env params = inr (world_name, left) ->
  get_world env world_name = Ok (Some world) ->
  players_online world <> [] ->
  criteria env world left = Ok (inr c) ->
  search_world env params =
  Ok (match matching c (players_online world) with
      | [] => Nobody (empty c)
      | players => Found (title c) (content c) (if long env then 20 else 5)
                         (map (line env) players) (map vocation players)
      end).
Proof.
  intros Hperm Hparams Hworld Honline Hcrit.
  unfold search_world. rewrite Hperm, Hparams, Hworld. cbn [negb].
  destruct (players_online world) as [|p rest] eqn:E; [now elim Honline|].
  rewrite Hcrit.
  destruct (matching c (p :: rest)); reflexivity.
Qed.

(** X14.  [searchworld a,b] with two levels above 0 shows exactly the
    players online in the world whose level lies between the lower and
    the higher of the two (and whose name is not empty), the highest level
    first; when there is none it says so. *)
Theorem search_between_levels (env : Env) (params world_name a b : string)
  (world : World) (level1 level2 : Z)
  (Hperm : embed_links env = true)
  (Hparams : world_and_params env params = inr (world_name, [a; b]))
  (Hworld : get_world env world_name = Ok (Some world))
  (Honline : players_online world <> [])
  (Hnumeric : is_numeric env a = true)
  (Ha : Py.int a = Some level1) (Hb : Py.int b = Some level2)
  (Hpos1 : 0 < level1) (Hpos2 : 0 < level2) :
  exists players,
    (forall x, In x players <->
               In x (players_online world) /\
               Z.min level1 level2 <= level x <= Z.max level1 level2 /\
               character_name x <> EmptyString) /\
    Permutation players
      (filter (fun x => (Z.min level1 level2 <=? level x)
                        && (level x <=? Z.max level1 level2)
                        && negb (String.eqb (character_name x) EmptyString))
              (players_online world)) /\
    StronglySorted (fun x y => level y <= level x) players /\
    (players = [] -> exists text, search_world env params = Ok (Nobody text)) /\
    (players <> [] ->
     search_world env params =
     Ok (Found ("Characters online between level " ++ Py.str (Z.min level1 level2)
                ++ " and " ++ Py.str (Z.max level1 level2))
               EmptyString (if long env then 20 else 5)
               (map (line env) players) (map vocation players))).
Proof.
  set (c := {| low := Z.min level1 level2; high := Z.max level1 level2;
               filter_name := EmptyString;
               title := ("Characters online between level " ++ Py.str (Z.min level1 level2)
                         ++ " and " ++ Py.str (Z.max level1 level2))%string;
               empty := ("I didn't find anyone between levels **"
                         ++ Py.str (Z.min level1 level2)
                         ++ "** and **" ++ Py.str (Z.max level1 level2) ++ "**")%string;
               content := EmptyString |}).
  assert (Hcrit : criteria env world [a; b] = Ok (inr c)).
  { unfold criteria. cbn [hd nth List.length Nat.eqb negb]. rewrite Hnumeric, Ha, Hb.
    cbn [negb].
    replace (level1 <=? 0) with false by (symmetry; zbool).
    replace (level2 <=? 0) with false by (symmetry; zbool). reflexivity. }
  pose proof (search_world_settled env params world_name [a; b] world c
                Hperm Hparams Hworld Honline Hcrit) as Hrun.
  destruct (matching_spec c (players_online world)) as (Hsorted & Hp & Hin).
  exists (matching c (players_online world)).
  split; [exact Hin|]. split; [exact Hp|]. split; [exact Hsorted|]. split.
  - intros E. rewrite E in Hrun. eexists. exact Hrun.
  - intros Hne. destruct (matching c (players_online world)) as [|p rest];
      [now elim Hne | exact Hrun].
Qed.

Lemma search_between_levels_witness :
  search_world SearchSample.env "100,140" =
  Ok (Found "Characters online between level 100 and 140" EmptyString 5
            ["**Bob** - Level 140 Knight"; "**Dora** - Level 120 Druid";
             "**Alice** - Level 100 Druid"]%string
            ["Knight"; "Druid"; "Druid"]%string).
Proof.
  destruct (search_between_levels SearchSample.env "100,140" "Antica" "100" "140"
              SearchSample.antica 100 140)
    as (players & _ & _ & _ & _ & _); try reflexivity; try lia.
  discriminate.
Defined.

Lemma criteria_either_order (env : Env) (world : World) (a b : string) :
  numeric_is_int env ->
  criteria env world [a; b] = criteria env world [b; a].
Proof.
  intros Hnum. unfold criteria. cbn [hd nth List.length Nat.eqb].
  assert (Hnone : forall s, is_numeric env s = false -> Py.int s = None).
  { intros s Hs. destruct (Py.int s) eqn:E; [|reflexivity].
    assert (is_numeric env s = true) by (apply Hnum; congruence). congruence. }
  assert (Hsome : forall s, is_numeric env s = true -> exists z, Py.int s = Some z).
  { intros s Hs. apply Hnum in Hs. destruct (Py.int s) as [z|]; [now exists z | now elim Hs]. }
  destruct (is_numeric env a) eqn:Ea, (is_numeric env b) eqn:Eb; cbn [negb].
  - destruct (Hsome a Ea) as (la & ->). destruct (Hsome b Eb) as (lb & ->).
    rewrite (orb_comm (lb <=? 0)), (Z.min_comm lb), (Z.max_comm lb). reflexivity.
  - rewrite (Hnone b Eb). destruct (Py.int a); reflexivity.
  - rewrite (Hnone a Ea). destruct (Py.int b); reflexivity.
  - reflexivity.
Qed.

(** X15.  The two levels of [searchworld a,b] may come in either order:
    when [is_numeric] tells what [int] reads, both orders give the same
    reply. *)
Theorem search_levels_either_order (env : Env) (params1 params2 world_name a b : string)
  (Hnumeric : numeric_is_int env)
  (Hparams1 : world_and_params env params1 = inr (world_name, [a; b]))
  (Hparams2 : world_and_params env params2 = inr (world_name, [b; a])) :
  search_world env params1 = search_world env params2.
Proof.
  unfold search_world. rewrite Hparams1, Hparams2.
  destruct (embed_links env); [|reflexivity]. cbn [negb].
  destruct (get_world env world_name) as [[world|]|e]; try reflexivity.
  destruct (players_online world) as [|p rest]; [reflexivity|].
  now rewrite (criteria_either_order env world a b Hnumeric).
Qed.

Lemma search_levels_either_order_witness :
  search_world SearchSample.env "100,140" = search_world SearchSample.env "140,100".
Proof.
  apply (search_levels_either_order SearchSample.env "100,140" "140,100" "Antica" "100" "140").
  - intros s. simpl. destruct (Py.int s); split; congruence.
  - reflexivity.
  - reflexivity.
Defined.

(** X16.  [searchworld name] shows exactly the players online whose level
    is in the share range of the character of that name and who do not
    bear the character's name, the highest level first: the character
    searched for is never in its own list. *)
Theorem search_near_character (env : Env) (params world_name who : string)
  (world : World) (char : Character) (char_world : string)
  (Hperm : embed_links env = true)
  (Hparams : world_and_params env params = inr (world_name, [who]))
  (Hworld : get_world env world_name = Ok (Some world))
  (Honline : players_online world <> [])
  (Hname : is_numeric env who = false)
  (Hchar : get_character env who = Ok (Some (char, char_world))) :
  exists players,
    (forall x, In x players <->
               In x (players_online world) /\
               fst (get_share_range env (level char)) <= level x
                 <= snd (get_share_range env (level char)) /\
               character_name x <> character_name char) /\
    StronglySorted (fun x y => level y <= level x) players /\
    (players = [] -> exists text, search_world env params = Ok (Nobody text)) /\
    (players <> [] ->
     exists title header,
       search_world env params =
       Ok (Found title header (if long env then 20 else 5)
                 (map (line env) players) (map vocation players))).
Proof.
  assert (Hcrit : exists c, criteria env world [who] = Ok (inr c) /\
                            low c = fst (get_share_range env (level char)) /\
                            high c = snd (get_share_range env (level char)) /\
                            filter_name c = character_name char).
  { unfold criteria. cbn [hd List.length Nat.eqb]. rewrite Hname, Hchar. cbn [negb].
    destruct (get_share_range env (level char)) as [lo hi].
    eexists. split; [reflexivity|]. repeat split. }
  destruct Hcrit as (c & Hcrit & Elow & Ehigh & Ename).
  pose proof (search_world_settled env params world_name [who] world c
                Hperm Hparams Hworld Honline Hcrit) as Hrun.
  destruct (matching_spec c (players_online world)) as (Hsorted & _ & Hin).
  rewrite Elow, Ehigh, Ename in Hin.
  exists (matching c (players_online world)).
  split; [exact Hin|]. split; [exact Hsorted|]. split.
  - intros E. rewrite E in Hrun. eexists. exact Hrun.
  - intros Hne. destruct (matching c (players_online world)) as [|p rest];
      [now elim Hne|]. eexists; eexists. exact Hrun.
Qed.

Lemma search_near_character_witness :
  search_world SearchSample.env "Alice" =
  Ok (Found "Characters online in share range with Alice(66-150):" EmptyString 5
            ["**Bob** - Level 140 Knight"; "**Dora** - Level 120 Druid"]%string
            ["Knight"; "Druid"]%string).
Proof.
  destruct (search_near_character SearchSample.env "Alice" "Antica" "Alice"
              SearchSample.antica Scenario.alice "Antica")
    as (players & _ & _ & _ & _); try reflexivity.
  discriminate.
Defined.

End SearchFacts.


(* ================================================================= *)
(** ** The [house] command: what is looked up *)

Section HouseFacts.

Import House.

Lemma append_assoc (a b c : string) : ((a ++ b) ++ c = a ++ (b ++ c))%string.
Proof. induction a as [|x a IH]; simpl; [reflexivity | now rewrite IH]. Qed.

Lemma split_comma_not_nil (s : string) : Py.split_comma s <> [].
Proof.
  destruct s as [|c r]; simpl; [discriminate|].
  destruct (Ascii.eqb c ","); [discriminate|].
  destruct (Py.split_comma r); discriminate.
Qed.

(** [",".join(s.split(","))] is [s]. *)
Lemma join_split_comma (s : string) : PyMore.join_comma (Py.split_comma s) = s.
Proof.
  unfold PyMore.join_comma. induction s as [|c r IH]; simpl; [reflexivity|].
  pose proof (split_comma_not_nil r) as Hne.
  destruct (Py.split_comma r) as [|f fs]; [contradiction|].
  destruct (Ascii.eqb_spec c ",") as [->|Hc].
  - change (String.concat "," (EmptyString :: f :: fs))
      with (String "," (String.concat "," (f :: fs))).
    now rewrite IH.
  - destruct fs as [|g gs].
    + cbn in IH |- *. now rewrite IH.
    + change (String.concat "," (String c f :: g :: gs))
        with (String c (String.concat "," (f :: g :: gs))).
      now rewrite IH.
Qed.

Lemma join_comma_snoc (fields : list string) (x : string) :
  fields <> [] ->
  PyMore.join_comma (fields ++ [x]) = (PyMore.join_comma fields ++ "," ++ x)%string.
Proof.
  unfold PyMore.join_comma. induction fields as [|f fs IH]; [contradiction|]. intros _.
  destruct fs as [|g gs]; [reflexivity|].
  change ((f :: g :: gs) ++ [x]) with (f :: ((g :: gs) ++ [x])).
  change (String.concat "," (f :: (g :: gs) ++ [x]))
    with (f ++ "," ++ String.concat "," ((g :: gs) ++ [x]))%string.
  rewrite IH by discriminate.
  change (String.concat "," (f :: g :: gs))
    with (f ++ "," ++ String.concat "," (g :: gs))%string.
  rewrite append_assoc. reflexivity.
Qed.

Lemma split_comma_fields (s : string) :
  Forall (fun f => More.no_comma f = true) (Py.split_comma s).
Proof.
  induction s as [|c r IH]; simpl; [now repeat constructor|].
  destruct (Ascii.eqb c ",") eqn:Hc; [now constructor|].
  destruct (Py.split_comma r) as [|f fs]; [repeat constructor; cbn; now rewrite Hc|].
  inversion IH as [|? ? Hf Hfs]; subst. constructor; [|assumption].
  unfold More.no_comma in *. cbn. now rewrite Hc, Hf.
Qed.

Lemma split_comma_snoc (before w : string) :
  More.no_comma w = true ->
  Py.split_comma (before ++ "," ++ w) = Py.split_comma before ++ [w].
Proof.
  intros Hw. induction before as [|c r IH]; simpl.
  - now rewrite (split_comma_no_comma w Hw).
  - change (r ++ String "," w)%string with (r ++ "," ++ w)%string. rewrite IH.
    destruct (Ascii.eqb c ","); [reflexivity|].
    pose proof (split_comma_not_nil r) as Hne.
    destruct (Py.split_comma r); [contradiction | reflexivity].
Qed.

Lemma length_snoc_gt_1 {A : Type} (l : list A) (x : A) :
  l <> [] -> (1 <? List.length (l ++ [x]))%nat = true.
Proof.
  intros Hne. destruct l as [|a l]; [contradiction|].
  apply Nat.ltb_lt. rewrite length_app. simpl. lia.
Qed.

(** X17.  [house name,world]: when what follows the last comma is, in
    title case and without the blanks around it, one of the worlds, the
    house is looked up by all that stands before that comma and in the
    world written after it, both without the blanks around them (the world
    as written, not in title case). *)
Theorem house_in_given_world (env : Env) (before w : string)
  (Hw : More.no_comma w = true)
  (Hworld : PyMore.mem (Py.strip (PyMore.title w)) (tibia_worlds env) = true) :
  house_arguments env (before ++ "," ++ w) = (Py.strip before, Some (Py.strip w)).
Proof.
  unfold house_arguments. rewrite (split_comma_snoc before w Hw).
  rewrite (length_snoc_gt_1 _ _ (split_comma_not_nil before)).
  rewrite removelast_last, last_last, join_split_comma.
  cbv beta iota. rewrite Hworld. reflexivity.
Qed.

Lemma house_in_given_world_witness :
  house_arguments HouseSample.env " Spirit Homes 1 , antica "
  = ("Spirit Homes 1"%string, Some "antica"%string).
Proof.
  exact (house_in_given_world HouseSample.env " Spirit Homes 1 " " antica "
           eq_refl eq_refl).
Defined.

(** X18.  [house name]: when the text has no comma, or what follows its
    last comma is not a world, the house is looked up by the whole text
    without the blanks around it, commas included, in the tracked world
    of the server, and in no world in a private message. *)
Theorem house_in_tracked_world (env : Env) (text : string)
  (Hnone : forall before w : string,
      text = (before ++ "," ++ w)%string -> More.no_comma w = true ->
      PyMore.mem (Py.strip (PyMore.title w)) (tibia_worlds env) = false) :
  house_arguments env text
  = (Py.strip text,
     option_map Py.strip (if in_guild env then tracked_world env else None)).
Proof.
  unfold house_arguments.
  pose proof (join_split_comma text) as Hjoin.
  pose proof (split_comma_fields text) as Hfields.
  pose proof (split_comma_not_nil text) as Hne.
  destruct (Py.split_comma text) as [|f fs] eqn:Hsplit; [contradiction|].
  destruct fs as [|g gs].
  - cbn in Hjoin. subst f. cbn. reflexivity.
  - assert (Hlen : (1 <? List.length (f :: g :: gs))%nat = true) by reflexivity.
    rewrite Hlen.
    assert (Hne2 : f :: g :: gs <> []) by discriminate.
    pose proof (app_removelast_last EmptyString Hne2) as Hdec.
    set (front := removelast (f :: g :: gs)) in *.
    set (w := last (f :: g :: gs) EmptyString) in *.
    assert (Hfront : front <> []) by (subst front; cbn; destruct gs; discriminate).
    rewrite Hdec in Hjoin, Hfields.
    rewrite (join_comma_snoc front w Hfront) in Hjoin.
    apply Forall_app in Hfields. destruct Hfields as [_ Hw].
    apply Forall_inv in Hw.
    rewrite (Hnone (PyMore.join_comma front) w (eq_sym Hjoin) Hw).
    cbv beta iota. cbn [negb]. rewrite Hjoin. reflexivity.
Qed.

Lemma house_in_tracked_world_witness :
  house_arguments HouseSample.env "Castle, 4th Floor "
  = ("Castle, 4th Floor"%string, Some "Calmera"%string).
Proof.
  apply (house_in_tracked_world HouseSample.env "Castle, 4th Floor ").
  intros before w E Hw.
  pose proof (split_comma_snoc before w Hw) as Hsplit.
  rewrite <- E in Hsplit.
  apply (f_equal (fun l => last l EmptyString)) in Hsplit.
  rewrite last_last in Hsplit. subst w. reflexivity.
Defined.

End HouseFacts.


(* ================================================================= *)
(** ** The [highscores] command: what is asked for *)

Section HighscoresFacts.

Import Highscores.

Lemma mem_In (x : string) (xs : list string) : PyMore.mem x xs = true <-> In x xs.
Proof.
  unfold PyMore.mem. rewrite existsb_exists. split.
  - intros (y & Hy & E). apply String.eqb_eq in E. now subst.
  - intros H. exists x. split; [assumption | apply String.eqb_refl].
Qed.

Lemma highscores_arguments_valid (env : Env) (params : option string)
  (world category vocation : string) :
  highscores_arguments env params = inr (world, category, vocation) ->
  In category categories /\ In vocation vocations /\
  (In world (tibia_worlds env) \/ tracked_world env = Some world).
Proof.
  unfold highscores_arguments.
  set (fields := match params with None => [] | Some p => Py.split_comma p end).
  set (named := match fields with
                | [] => false
                | first :: _ => PyMore.mem (PyMore.title (Py.strip first)) (tibia_worlds env)
                end).
  assert (Hworld : forall w,
    match (if named then Some (PyMore.title (Py.strip (hd EmptyString fields))) else None) with
    | Some w => Some w
    | None => tracked_world env
    end = Some w ->
    In w (tibia_worlds env) \/ tracked_world env = Some w).
  { intros w. subst named. destruct fields as [|first rest]; [now right|]. cbn [hd].
    destruct (PyMore.mem _ _) eqn:Hmem; [|now right].
    intros E. injection E as <-. left. now apply mem_In. }
  destruct (match (if named then _ else None) with Some w => Some w | None => _ end)
    as [w|]; [|discriminate].
  specialize (Hworld w eq_refl).
  destruct (if named then tl fields else fields) as [|first rest].
  { intros E. injection E as <- <- <-. cbn. tauto. }
  destruct (PyMore.mem (Py.lower (Py.strip first)) categories) eqn:Hcat; [|discriminate].
  cbn [negb]. cbv iota. apply mem_In in Hcat.
  destruct rest as [|second rest].
  { intros E. injection E as <- <- <-. cbn [vocations In]. tauto. }
  destruct (PyMore.mem (Py.lower (Py.strip second)) vocations) eqn:Hvoc; [|discriminate].
  cbn [negb]. cbv iota. apply mem_In in Hvoc.
  intros E. injection E as <- <- <-. tauto.
Qed.

(** X19.  Whatever the user writes, the highscores are asked for at most
    once, and only for one of the eleven categories and one of the five
    vocations of the command, in a world of the list of worlds or in the
    tracked world. *)
Theorem highscores_asks_only_what_exists (env : Env) (params : option string)
  (world category vocation : string)
  (Hcall : In (world, category, vocation) (fst (highscores env params))) :
  fst (highscores env params) = [(world, category, vocation)] /\
  In category categories /\ In vocation vocations /\
  (In world (tibia_worlds env) \/ tracked_world env = Some world).
Proof.
  unfold highscores in *.
  destruct (embed_links env); cbn [negb] in *; [|contradiction].
  destruct (highscores_arguments env params) as [r|[[w c] v]] eqn:Hargs; [contradiction|].
  cbv zeta in Hcall |- *.
  destruct (get_highscores_tibiadata env w c v) as [[entries|]|[]];
    cbn [fst In] in Hcall |- *;
    (destruct Hcall as [E|[]]; injection E as -> -> ->;
     split; [reflexivity | exact (highscores_arguments_valid _ _ _ _ _ Hargs)]).
Qed.

Lemma highscores_asks_only_what_exists_witness :
  fst (highscores HouseSample.scores_env (Some " antica , MAGIC, Knight"%string))
  = [("Antica", "magic", "knight")%string] /\
  In "magic"%string categories /\ In "knight"%string vocations /\
  (In "Antica"%string (tibia_worlds HouseSample.scores_env)
   \/ tracked_world HouseSample.scores_env = Some "Antica"%string).
Proof.
  apply (highscores_asks_only_what_exists HouseSample.scores_env
           (Some " antica , MAGIC, Knight"%string)).
  left. reflexivity.
Defined.

(** X20.  Naming the tracked world is optional when it is one of the
    worlds of [tibia_worlds]: with the tracked world written in front, in
    any case and with blanks around it, the command does what it does
    without it, provided that what follows is not the name of a world
    itself. *)
Theorem highscores_tracked_world_optional (env : Env) (w rest world : string)
  (Htracked : tracked_world env = Some world)
  (Hw : More.no_comma w = true)
  (Hname : PyMore.title (Py.strip w) = world)
  (Hknown : PyMore.mem world (tibia_worlds env) = true)
  (Hrest : PyMore.mem (PyMore.title (Py.strip (hd EmptyString (Py.split_comma rest))))
             (tibia_worlds env) = false) :
  highscores env (Some (w ++ "," ++ rest)%string) = highscores env (Some rest) /\
  highscores env (Some w) = highscores env None.
Proof.
  unfold highscores, highscores_arguments. split.
  - change (w ++ "," ++ rest)%string with (w ++ String "," rest)%string.
    rewrite (split_comma_app w rest Hw). cbn [hd tl]. rewrite Hname, Hknown.
    pose proof (split_comma_not_nil rest) as Hne.
    destruct (Py.split_comma rest) as [|first more]; [contradiction|].
    cbn [hd] in Hrest. rewrite Hrest, Htracked. reflexivity.
  - rewrite (split_comma_no_comma w Hw). cbn [hd tl]. rewrite Hname, Hknown, Htracked.
    reflexivity.
Qed.

Lemma highscores_tracked_world_optional_witness :
  highscores HouseSample.scores_env (Some " calmera ,magic,druid"%string)
  = highscores HouseSample.scores_env (Some "magic,druid"%string) /\
  highscores HouseSample.scores_env (Some " calmera "%string)
  = highscores HouseSample.scores_env None.
Proof.
  exact (highscores_tracked_world_optional HouseSample.scores_env
           " calmera " "magic,druid" "Calmera" eq_refl eq_refl eq_refl eq_refl eq_refl).
Defined.

End HighscoresFacts.


(* ================================================================= *)
(** ** The latest deaths: which rows are shown *)

Section DeathsFacts.

Import Deaths.

Variable env : Env.

Lemma latest_loop_spec (user_worlds : list string) (rows : list Row) :
  forall (count : Z) (entries : list string),
  0 <= count < 100 ->
  let seen :=
    firstn (Z.to_nat (100 - count))
      (filter (fun row => match get_member env (user_id row) with
                          | None => false
                          | Some _ => PyMore.mem (world row) user_worlds
                          end) rows) in
  latest_loop env user_worlds rows count entries
  = (count + Z.of_nat (List.length seen), entries ++ map (shown env) seen).
Proof.
  induction rows as [|row rest IH]; intros count entries Hcount; cbn zeta.
  - rewrite firstn_nil. cbn. rewrite Z.add_0_r, List.app_nil_r. reflexivity.
  - cbn [latest_loop filter]. cbv beta.
    destruct (get_member env (user_id row)) as [user|] eqn:Hmember; [|now apply IH].
    destruct (PyMore.mem (world row) user_worlds) eqn:Hworld; cbn [negb]; [|now apply IH].
    replace (Z.to_nat (100 - count)) with (S (Z.to_nat (100 - (count + 1)))) by lia.
    cbn [firstn List.length map]. replace (shown env row) with (entry env user row)
      by (unfold shown; now rewrite Hmember).
    destruct (count + 1 >=? 100) eqn:Hfull.
    + assert (count = 99) by (rewrite Z.geb_leb in Hfull; apply Z.leb_le in Hfull; lia).
      subst count. cbn. reflexivity.
    + assert (0 <= count + 1 < 100)
        by (rewrite Z.geb_leb in Hfull; apply Z.leb_gt in Hfull; lia).
      rewrite (IH (count + 1) (entries ++ [entry env user row])) by assumption.
      cbn zeta. rewrite <- List.app_assoc. cbn [app]. f_equal. lia.
Qed.

(** X21.  [deaths] without a name shows the latest deaths that the asker
    may see: of the rows of the query, in their order, those of
    characters of a member known to the asker and of a world the asker
    tracks, and of these no more than the first hundred; it says that
    there are no registered deaths exactly when no row is of that kind. *)
Theorem deaths_latest_first_hundred (rows : list Row)
  (Hlite : is_lite env = false)
  (Hperm : embed_links env = true)
  (Htracking : is_private env = true \/ tracked_world env <> None) :
  let seen := filter (visible env) rows in
  deaths_latest env rows
  = Some (match seen with
          | [] => NoDeaths
          | _ :: _ => Pages "Latest deaths" (if long env then 20 else 5)
                        (map (shown env) (firstn 100 seen))
          end).
Proof.
  cbn zeta. unfold deaths_latest. rewrite Hlite, Hperm. cbn [negb].
  assert (Hworlds :
    (if is_private env then Some (get_user_worlds env)
     else match tracked_world env with None => None | Some w => Some [w] end)
    = Some (worlds_seen env)).
  { unfold worlds_seen. destruct (is_private env); [reflexivity|].
    destruct Htracking as [H|H]; [discriminate|].
    destruct (tracked_world env); [reflexivity | contradiction]. }
  rewrite Hworlds.
  rewrite (latest_loop_spec (worlds_seen env) rows 0 []) by lia.
  cbn zeta. change (Z.to_nat (100 - 0)) with 100%nat.
  change (filter _ rows) with (filter (visible env) rows).
  destruct (filter (visible env) rows) as [|row seen]; [reflexivity|].
  cbn [firstn List.length app]. 
  replace (0 + Z.of_nat (S (List.length (firstn 99 seen))) =? 0) with false
    by (symmetry; apply Z.eqb_neq; lia).
  reflexivity.
Qed.

End DeathsFacts.

Lemma deaths_latest_first_hundred_witness :
  Deaths.deaths_latest GuildSample.deaths_env GuildSample.rows
  = Some (Deaths.Pages "Latest deaths" 5
            (map (Deaths.shown GuildSample.deaths_env)
               [ GuildSample.row "Bob" 1 "Antica" 140 30;
                 GuildSample.row "Bob" 1 "Antica" 139 5 ])).
Proof.
  exact (deaths_latest_first_hundred GuildSample.deaths_env GuildSample.rows
           eq_refl eq_refl ltac:(right; discriminate)).
Defined.


(* ================================================================= *)
(** ** The members online of a guild, by rank *)

Section GuildFacts.

Import Guild.

Variable env : Env.

Lemma append_nil_r (s : string) : (s ++ EmptyString)%string = s.
Proof. induction s as [|c s IH]; simpl; [reflexivity | now rewrite IH]. Qed.

Lemma member_lines_snoc (group : list Member) (member : Member) :
  member_lines env (group ++ [member])
  = (member_lines env group ++ member_line env member)%string.
Proof.
  induction group as [|m group IH]; cbn [app member_lines].
  - now rewrite append_nil_r.
  - now rewrite IH, append_assoc.
Qed.

Lemma online_loop_grouped (online : list Member) :
  forall (current_field : string) (pending : list Member) (fields : list (string * string)),
  Forall (fun member => rank member = current_field \/ rank member = EmptyString) pending ->
  (current_field <> EmptyString -> pending <> []) ->
  exists groups : list (string * list Member),
    online_loop env online current_field (member_lines env pending) fields
    = fields ++ map (field_of env) groups /\
    List.concat (map snd groups) = pending ++ online /\
    (pending ++ online <> [] -> Forall well_grouped groups).
Proof.
  induction online as [|member rest IH]; intros current_field pending fields Hranks Hpending.
  - exists [(current_field, pending)]. cbn. rewrite !List.app_nil_r. repeat split.
    intros Hne. constructor; [|constructor]. split; assumption.
  - cbn [online_loop].
    destruct (String.eqb_spec current_field EmptyString) as [->|Hfield].
    + destruct (IH (rank member) (pending ++ [member]) fields) as (groups & Hloop & Hall & Hgood).
      * apply Forall_app. split; [|constructor; [now left | constructor]].
        eapply Forall_impl; [|exact Hranks]. cbv beta. intros m [H|H]; now right.
      * intros _. now destruct pending.
      * exists groups. rewrite <- member_lines_snoc, Hloop, Hall, <- List.app_assoc.
        repeat split. intros _. apply Hgood. now destruct pending.
    + destruct (String.eqb_spec (rank member) current_field) as [Hsame|Hother];
        [|destruct (String.eqb_spec (rank member) EmptyString) as [Hnone|Hrank]]; cbn [negb andb].
      * destruct (IH current_field (pending ++ [member]) fields) as (groups & Hloop & Hall & Hgood).
        { apply Forall_app. split; [assumption | constructor; [now left | constructor]]. }
        { intros _. now destruct pending. }
        exists groups. rewrite <- member_lines_snoc, Hloop, Hall, <- List.app_assoc.
        repeat split. intros _. apply Hgood. now destruct pending.
      * destruct (IH current_field (pending ++ [member]) fields) as (groups & Hloop & Hall & Hgood).
        { apply Forall_app. split; [assumption | constructor; [now right | constructor]]. }
        { intros _. now destruct pending. }
        exists groups. rewrite <- member_lines_snoc, Hloop, Hall, <- List.app_assoc.
        repeat split. intros _. apply Hgood. now destruct pending.
      * destruct (IH (rank member) [member] (fields ++ [(current_field, member_lines env pending)]))
          as (groups & Hloop & Hall & Hgood).
        { constructor; [now left | constructor]. }
        { intros _. discriminate. }
        exists ((current_field, pending) :: groups).
        change (EmptyString ++ member_line env member)%string with (member_line env member).
        replace (member_line env member) with (member_lines env [member])
          by (cbn; apply append_nil_r).
        rewrite Hloop, <- List.app_assoc. cbn [map List.concat snd app]. rewrite Hall.
        repeat split. intros _. constructor.
        { split; [exact (Hpending Hfield) | exact Hranks]. }
        { apply Hgood. discriminate. }
Qed.

(** X22.  When members of the guild are online, the fields of the answer
    list every one of them once, in the order of the guild: the members
    online are cut into runs, one field for each run with the lines of
    its members; no field is empty, and the members of a field have the
    rank of its heading or no rank. *)
Theorem guild_online_by_rank (name : string) (data : GuildData)
  (Hperm : embed_links env = true)
  (Hguild : get_guild env name = Ok (Some data))
  (Honline : online data <> []) :
  exists (description : string) (footer : option string) (groups : list (string * list Member)),
    guild env name = Ok (Embed description footer (map (field_of env) groups)) /\
    List.concat (map snd groups) = online data /\
    Forall well_grouped groups.
Proof.
  unfold guild. rewrite Hperm, Hguild. cbn [negb]. cbv zeta.
  assert (Hcount : (Z.of_nat (List.length (online data)) <? 1) = false).
  { apply Z.ltb_ge. destruct (online data); [contradiction | cbn [List.length]; lia]. }
  rewrite Hcount.
  destruct (online_loop_grouped (online data) EmptyString [] [])
    as (groups & Hloop & Hall & Hgood); [constructor | intros H; now contradiction H |].
  cbn [member_lines app] in Hloop, Hall, Hgood.
  rewrite Hloop. eexists _, _, groups. repeat split; [assumption | now apply Hgood].
Qed.

End GuildFacts.

Lemma guild_online_by_rank_witness :
  exists (description : string) (footer : option string)
         (groups : list (string * list Guild.Member)),
    Guild.guild GuildSample.guild_env "Redd Alliance"
    = Ok (Guild.Embed description footer (map (Guild.field_of GuildSample.guild_env) groups)) /\
    List.concat (map snd groups) = GuildSample.roster /\
    Forall Guild.well_grouped groups.
Proof.
  apply (guild_online_by_rank GuildSample.guild_env "Redd Alliance"
           {| Guild.guild_name := "Redd Alliance"; Guild.world := "Antica";
              Guild.guildhall := None; Guild.founded := "2002-02-18";
              Guild.online := GuildSample.roster; Guild.members := GuildSample.roster |}).
  - reflexivity.
  - reflexivity.
  - discriminate.
Defined.


(* ================================================================= *)
(** ** The statistics of a guild and of a world *)

Section VocationsFacts.

Import Vocations.

Lemma tally_standard (d : Distribution) (vocation : string) :
  In vocation standard -> counted (tally d vocation) = counted d + 1.
Proof.
  unfold standard. cbn [In]. unfold counted.
  intros [<-|[<-|[<-|[<-|[<-|[<-|[<-|[<-|[<-|[]]]]]]]]]];
    unfold tally; cbv zeta;
    repeat match goal with
    | |- context [PyMore.contains ?a (Py.lower ?b)] =>
        let r := eval vm_compute in (PyMore.contains a (Py.lower b)) in
        change (PyMore.contains a (Py.lower b)) with r
    end; cbv iota; cbn [knight paladin sorcerer druid none]; lia.
Qed.

Lemma tally_all_standard (vocations : list string) :
  forall d : Distribution,
  Forall (fun v => In v standard) vocations ->
  counted (fold_left tally vocations d) = counted d + Z.of_nat (List.length vocations).
Proof.
  induction vocations as [|v vs IH]; intros d Hall; cbn [fold_left List.length].
  - lia.
  - inversion Hall as [|? ? Hv Hvs]; subst.
    rewrite (IH _ Hvs), (tally_standard d v Hv). lia.
Qed.

Lemma fold_left_map {A B C : Type} (f : A -> B -> A) (g : C -> B) (l : list C) :
  forall a : A, fold_left (fun a x => f a (g x)) l a = fold_left f (map g l) a.
Proof. induction l as [|x l IH]; intros a; cbn; [reflexivity | apply IH]. Qed.

Lemma member_stats_distribution (members : list Guild.Member) :
  forall s : Stats,
  distribution (fold_left step members s)
  = fold_left tally (map Guild.vocation members) (distribution s).
Proof.
  induction members as [|m members IH]; intros s; cbn [fold_left map]; [reflexivity|].
  rewrite IH. reflexivity.
Qed.

(** X23.  When every character has one of the vocations of the game,
    the vocation distribution of [world] and of [guild info] counts
    every one exactly once: the five numbers add up to the number of
    players online, and to the number of members of the guild. *)
Theorem vocations_counted_once (players_online : list Character) (members : list Guild.Member)
  (Hplayers : Forall (fun character => In (vocation character) standard) players_online)
  (Hmembers : Forall (fun member => In (Guild.vocation member) standard) members) :
  counted (world_distribution players_online) = Z.of_nat (List.length players_online) /\
  counted (distribution (member_stats members)) = Z.of_nat (List.length members).
Proof.
  split.
  - unfold world_distribution. rewrite (fold_left_map tally vocation).
    rewrite tally_all_standard by (now apply Forall_map).
    rewrite length_map. reflexivity.
  - unfold member_stats. rewrite member_stats_distribution.
    rewrite tally_all_standard by (now apply Forall_map).
    rewrite length_map. reflexivity.
Qed.

Lemma vocations_counted_once_witness :
  counted (world_distribution
             [ {| name := "Ann"; level := 200; vocation := "Elite Knight" |};
               {| name := "Bob"; level := 8; vocation := "None" |} ]) = 2 /\
  counted (distribution (member_stats GuildSample.roster)) = 3.
Proof.
  apply (vocations_counted_once
           [ {| name := "Ann"; level := 200; vocation := "Elite Knight" |};
             {| name := "Bob"; level := 8; vocation := "None" |} ]
           GuildSample.roster).
  - repeat constructor; cbn; tauto.
  - repeat constructor; cbn; tauto.
Defined.

Lemma member_stats_snoc (members : list Guild.Member) (member : Guild.Member) :
  member_stats (members ++ [member]) = step (member_stats members) member.
Proof. unfold member_stats. now rewrite fold_left_app. Qed.

Lemma member_stats_total (members : list Guild.Member) :
  total_level (member_stats members) = fold_right Z.add 0 (map Guild.level members).
Proof.
  induction members as [|member members IH] using rev_ind; [reflexivity|].
  rewrite member_stats_snoc, map_app, fold_right_app. cbn [step total_level map fold_right].
  rewrite IH. generalize (map Guild.level members). intros l.
  induction l as [|x l IHl]; cbn [fold_right]; [lia|]. rewrite <- IHl. lia.
Qed.

(** X24.  The highest member of [guild info] is the first member of the
    guild with the highest level: the members before it are lower, no
    member after it is higher; and the total that the average is taken
    from is the sum of the levels of all members. *)
Theorem guild_info_highest_member (members : list Guild.Member)
  (Hmembers : members <> []) :
  exists (before : list Guild.Member) (highest : Guild.Member) (after : list Guild.Member),
    members = before ++ highest :: after /\
    highest_member (member_stats members) = Some highest /\
    Forall (fun member => Guild.level member < Guild.level highest) before /\
    Forall (fun member => Guild.level member <= Guild.level highest) after /\
    total_level (member_stats members) = fold_right Z.add 0 (map Guild.level members).
Proof.
  induction members as [|member members IH] using rev_ind; [contradiction|].
  rewrite member_stats_total, member_stats_snoc.
  destruct members as [|first members].
  - exists [], member, []. cbn. repeat split; constructor.
  - destruct IH as (before & highest & after & Hsplit & Hhighest & Hbefore & Hafter & _);
      [discriminate|].
    cbn [step highest_member]. rewrite Hhighest.
    destruct (Guild.level highest <? Guild.level member) eqn:Hlevel.
    + apply Z.ltb_lt in Hlevel.
      exists (first :: members), member, []. repeat split; [|constructor].
      rewrite Hsplit. apply Forall_app. split.
      * eapply Forall_impl; [|exact Hbefore]. cbv beta. intros. lia.
      * constructor; [assumption|].
        eapply Forall_impl; [|exact Hafter]. cbv beta. intros. lia.
    + apply Z.ltb_ge in Hlevel.
      exists before, highest, (after ++ [member]). rewrite Hsplit, <- List.app_assoc.
      repeat split; [assumption|].
      apply Forall_app. split; [assumption | constructor; [assumption | constructor]].
Qed.

Lemma guild_info_highest_member_witness :
  exists (before : list Guild.Member) (highest : Guild.Member) (after : list Guild.Member),
    GuildSample.roster = before ++ highest :: after /\
    highest_member (member_stats GuildSample.roster) = Some highest /\
    Forall (fun member => Guild.level member < Guild.level highest) before /\
    Forall (fun member => Guild.level member <= Guild.level highest) after /\
    total_level (member_stats GuildSample.roster)
    = fold_right Z.add 0 (map Guild.level GuildSample.roster).
Proof.
  apply (guild_info_highest_member GuildSample.roster). discriminate.
Defined.

End VocationsFacts.


(* ================================================================= *)
(** ** The time until server save *)

Section TimeFacts.

Import Time.

(** X25.  At any time of day, the time until server save that [time]
    shows is right to the minute: the hours and minutes shown never
    reach past the next 10:00 and fall less than a minute short of it;
    the minutes are below 60 and the hours at most 24, with 24 hours
    shown only at 10:00:00 sharp. *)
Theorem server_save_within_a_minute (tibia_time : Clock)
  (Hvalid : valid tibia_time) :
  let (hours, minutes) := server_save_in tibia_time in
  let shown := (hours * 60 + minutes) * 60 * 1000000 in
  0 < time_until_ss tibia_time <= 24 * 3600 * 1000000 /\
  shown <= time_until_ss tibia_time < shown + 60 * 1000000 /\
  0 <= minutes < 60 /\
  0 <= hours <= 24 /\
  (hours = 24 ->
   hour tibia_time = 10 /\ minute tibia_time = 0 /\ second tibia_time = 0 /\
   microsecond tibia_time = 0).
Proof.
  destruct Hvalid as (Hh & Hm & Hs & Hu).
  unfold server_save_in. cbv zeta iota.
  set (until := time_until_ss tibia_time).
  assert (Huntil : 0 < until <= 24 * 3600 * 1000000).
  { subst until. unfold time_until_ss, since_midnight.
    destruct (hour tibia_time >=? 10) eqn:Hten; rewrite Z.geb_leb in Hten;
      [apply Z.leb_le in Hten | apply Z.leb_gt in Hten]; lia. }
  rewrite Z.quot_div_nonneg by lia.
  set (total := until / 1000000).
  assert (Htotal : 1000000 * total <= until < 1000000 * total + 1000000).
  { subst total. pose proof (Z.mul_div_le until 1000000 ltac:(lia)).
    pose proof (Z.mul_succ_div_gt until 1000000 ltac:(lia)). lia. }
  assert (Hrange : 0 <= total <= 86400) by lia.
  pose proof (Z.div_mod total 3600 ltac:(lia)) as Hdiv.
  pose proof (Z.mod_pos_bound total 3600 ltac:(lia)) as Hmod.
  set (hours := total / 3600) in *. set (remainder := total mod 3600) in *.
  pose proof (Z.div_mod remainder 60 ltac:(lia)) as Hdiv2.
  pose proof (Z.mod_pos_bound remainder 60 ltac:(lia)) as Hmod2.
  set (minutes := remainder / 60) in *. set (seconds := remainder mod 60) in *.
  assert (Hhours : 0 <= hours <= 24) by lia.
  assert (Hminutes : 0 <= minutes < 60) by lia.
  assert (Hsharp : hours = 24 ->
            hour tibia_time = 10 /\ minute tibia_time = 0 /\ second tibia_time = 0 /\
            microsecond tibia_time = 0).
  { intros H24. assert (Hfull : until = 24 * 3600 * 1000000) by lia.
    subst until. unfold time_until_ss, since_midnight in Hfull.
    destruct (hour tibia_time >=? 10) eqn:Hten; rewrite Z.geb_leb in Hten;
      [apply Z.leb_le in Hten | apply Z.leb_gt in Hten]; lia. }
  split; [lia|]. split; [lia|]. split; [lia|]. split; [lia|]. exact Hsharp.
Qed.

Lemma server_save_within_a_minute_witness :
  server_save_in TimeSample.evening = (12, 12) /\
  0 < time_until_ss TimeSample.evening <= 24 * 3600 * 1000000 /\
  (12 * 60 + 12) * 60 * 1000000 <= time_until_ss TimeSample.evening
    < (12 * 60 + 12) * 60 * 1000000 + 60 * 1000000.
Proof.
  split; [reflexivity|].
  pose proof (server_save_within_a_minute TimeSample.evening) as H.
  change (server_save_in TimeSample.evening) with (12, 12) in H. cbv iota zeta in H.
  destruct H as (Hrange & Hshown & _).
  - unfold valid. cbn. lia.
  - split; assumption.
Defined.

End TimeFacts.
